(** * Coeus: ETA_Utilities.py

    A shallow embedding of [Code/ETA_Utilities.py]: the [ETA_Parameters]
    class (its constructor, [read_obj] and [read_constraints]) together with
    the Python built-ins the module relies on, and the properties of the
    design document checked against it.

    The module is read as Python 3 code.  Python floats are IEEE 754
    binary64 numbers and are modelled by Rocq's primitive floats, which are
    the same format with the same rounding.  A Python string is modelled by
    a Rocq string whose characters are read as the code points below 256;
    text with other characters is outside the model. *)

From Stdlib Require Import ZArith List String Ascii Bool Lia Floats.
Import ListNotations.

Set Warnings "-inexact-float".

Local Open Scope string_scope.
Local Open Scope Z_scope.

(** ** Python built-ins *)

Module Py.

(** Exceptions the module can raise. *)
Inductive exn : Type :=
| AssertionError (msg : string)
| IOError (errno : Z) (strerror : string)
| ValueError
| IndexError
| TypeError
| ZeroDivisionError
| OverflowError
| AttributeError
| UnboundLocalError.

(** The result of evaluating an expression: a value or a raised exception. *)
Inductive outcome (A : Type) : Type :=
| Return (a : A)
| Raise (e : exn).

Arguments Return {A} a.
Arguments Raise {A} e.

Definition obind {A B} (x : outcome A) (k : A -> outcome B) : outcome B :=
  match x with
  | Return a => k a
  | Raise e => Raise e
  end.

Module Notations.
Notation "x <~ c ;; k" := (obind c (fun x => k))
  (at level 61, c at next level, right associativity).
End Notations.
Import Notations.

(** *** str *)

(** [c.isspace()], the characters [str.strip()] removes: tab, line feed,
    vertical tab, form feed, carriage return, the four separators U+001C to
    U+001F, space, next line (U+0085) and no-break space (U+00A0). *)
Definition isspace (c : ascii) : bool :=
  let n := Z.of_N (N_of_ascii c) in
  ((9 <=? n) && (n <=? 13)) || ((28 <=? n) && (n <=? 32)) || (n =? 133) || (n =? 160).

Fixpoint lstrip (s : string) : string :=
  match s with
  | String c s' => if isspace c then lstrip s' else s
  | EmptyString => s
  end.

Fixpoint rstrip (s : string) : string :=
  match s with
  | String c s' =>
      match rstrip s' with
      | EmptyString => if isspace c then EmptyString else String c EmptyString
      | r => String c r
      end
  | EmptyString => EmptyString
  end.

Definition strip (s : string) : string := rstrip (lstrip s).

(** [c.lower()]: the letters A to Z and, above them, the capital letters
    U+00C0 to U+00DE (the multiplication sign U+00D7 is not one) move 32
    places up. *)
Definition lower_char (c : ascii) : ascii :=
  let n := N_of_ascii c in
  if (((65 <=? n) && (n <=? 90)) || ((192 <=? n) && (n <=? 222) && negb (n =? 215)))%N
  then ascii_of_N (n + 32) else c.

Fixpoint lower (s : string) : string :=
  match s with
  | String c s' => String (lower_char c) (lower s')
  | EmptyString => EmptyString
  end.

(** [s.split(sep)] for a one-character separator: never empty. *)
Fixpoint split (sep : ascii) (s : string) : list string :=
  match s with
  | String c s' =>
      if Ascii.eqb c sep then EmptyString :: split sep s'
      else match split sep s' with
           | h :: t => String c h :: t
           | [] => [String c EmptyString]
           end
  | EmptyString => [EmptyString]
  end.

(** The lines a file opened in text mode yields when iterated over.  A line
    ends at a line feed, at a carriage return or at a carriage return
    followed by a line feed, and each of these ends is handed over as one
    line feed (universal newlines); the last line may lack it. *)
Fixpoint readlines (s : string) : list string :=
  match s with
  | String c s' =>
      if Ascii.eqb c "013" then
        String "010" EmptyString ::
          match s' with
          | String "010" s'' => readlines s''
          | _ => readlines s'
          end
      else if Ascii.eqb c "010" then String c EmptyString :: readlines s'
      else match readlines s' with
           | h :: t => String c h :: t
           | [] => [String c EmptyString]
           end
  | EmptyString => []
  end.

(** *** list *)

(** [l[i]] for an int [i]: negative indices count from the end. *)
Definition getitem {A} (l : list A) (i : Z) : outcome A :=
  let n := Z.of_nat (List.length l) in
  let j := if i <? 0 then i + n else i in
  if (j <? 0) || (n <=? j) then Raise IndexError
  else match nth_error l (Z.to_nat j) with
       | Some a => Return a
       | None => Raise IndexError
       end.

(** *** Dynamically typed values, as far as the constructor's index lookup
    needs them: ints, strings and the pairs [enumerate] yields. *)
Inductive object : Type :=
| PyInt (z : Z)
| PyStr (s : string)
| PyTuple (a b : object).

(** [a == b]: values of different types are never equal. *)
Fixpoint eq (a b : object) : bool :=
  match a, b with
  | PyInt x, PyInt y => x =? y
  | PyStr x, PyStr y => String.eqb x y
  | PyTuple a1 a2, PyTuple b1 b2 => eq a1 b1 && eq a2 b2
  | _, _ => false
  end.

Fixpoint enumerate_from (i : Z) (l : list string) : list object :=
  match l with
  | [] => []
  | x :: l' => PyTuple (PyInt i) (PyStr x) :: enumerate_from (i + 1) l'
  end.

Definition enumerate (l : list string) : list object := enumerate_from 0 l.

(** [next(it, default)] on a fresh iterator over [l]. *)
Definition next (l : list object) (default : object) : object :=
  match l with
  | x :: _ => x
  | [] => default
  end.

(** [l[ind]] for a dynamically typed index. *)
Definition getitem_obj {A} (l : list A) (ind : object) : outcome A :=
  match ind with
  | PyInt i => getitem l i
  | _ => Raise TypeError
  end.

(** *** int and float *)

Definition digit_of (c : ascii) : option Z :=
  let n := Z.of_N (N_of_ascii c) in
  if (48 <=? n) && (n <=? 57) then Some (n - 48) else None.

Definition isdigit (c : ascii) : bool :=
  match digit_of c with
  | Some _ => true
  | None => false
  end.

(** The blanks [float()] and [int()] skip around a numeral: the ASCII
    whitespace of C (tab to carriage return, and space) and the blanks above
    U+007F, which the two turn into spaces first.  Unlike [str.strip()] they
    do not skip the separators U+001C to U+001F. *)
Definition isspace_numeral (c : ascii) : bool :=
  let n := Z.of_N (N_of_ascii c) in
  ((9 <=? n) && (n <=? 13)) || (n =? 32) || (n =? 133) || (n =? 160).

Fixpoint lstrip_numeral (s : string) : string :=
  match s with
  | String c s' => if isspace_numeral c then lstrip_numeral s' else s
  | EmptyString => s
  end.

Fixpoint rstrip_numeral (s : string) : string :=
  match s with
  | String c s' =>
      match rstrip_numeral s' with
      | EmptyString => if isspace_numeral c then EmptyString else String c EmptyString
      | r => String c r
      end
  | EmptyString => EmptyString
  end.

Definition strip_numeral (s : string) : string := rstrip_numeral (lstrip_numeral s).

(** Digit grouping (Python 3.6 and later): an underscore is accepted between
    two digits and nowhere else.  [prev] is the character before [s]. *)
Fixpoint grouped (prev : option ascii) (s : string) : bool :=
  match s with
  | String c s' =>
      (if Ascii.eqb c "_"
       then match prev with
            | Some p => isdigit p
            | None => false
            end
       else match prev with
            | Some "_"%char => isdigit c
            | _ => true
            end)
      && grouped (Some c) s'
  | EmptyString =>
      match prev with
      | Some "_"%char => false
      | _ => true
      end
  end.

(** The text without its underscores. *)
Fixpoint ungroup (s : string) : string :=
  match s with
  | String c s' => if Ascii.eqb c "_" then ungroup s' else String c (ungroup s')
  | EmptyString => EmptyString
  end.

(** Reads the longest prefix of decimal digits: the number read so far, the
    count of digits read, and the rest of the string. *)
Fixpoint take_digits (s : string) (acc cnt : Z) : Z * Z * string :=
  match s with
  | String c s' =>
      match digit_of c with
      | Some d => take_digits s' (10 * acc + d) (cnt + 1)
      | None => (acc, cnt, s)
      end
  | EmptyString => (acc, cnt, s)
  end.

(** An optional sign: whether it is a minus, and the rest. *)
Definition take_sign (s : string) : bool * string :=
  match s with
  | String "-" s' => (true, s')
  | String "+" s' => (false, s')
  | _ => (false, s)
  end.

(** The longest numeral [int()] converts ([sys.int_info.default_max_str_digits]). *)
Definition int_max_str_digits : Z := 4300.

(** [int(s)], base 10: surrounding blanks are dropped; the text is an
    optionally signed, non-empty run of digits, which underscores may group,
    of at most [int_max_str_digits] digits. *)
Definition int (s : string) : outcome Z :=
  if grouped None s then
    let (neg, s1) := take_sign (strip_numeral (ungroup s)) in
    match take_digits s1 0 0 with
    | (n, cnt, EmptyString) =>
        if (0 <? cnt) && (cnt <=? int_max_str_digits)
        then Return (if neg then - n else n)
        else Raise ValueError
    | _ => Raise ValueError
    end
  else Raise ValueError.

(** The binary64 number nearest to [(-1)^neg * M * 10^E] (ties to even), for
    [M >= 0]. *)
Definition float_of_decimal (neg : bool) (M E : Z) : float :=
  match M with
  | Zpos m =>
      if 0 <=? E
      then SF2Prim (binary_round prec emax neg (m * Z.to_pos (10 ^ E))%positive 0)
      else SF2Prim (SFdiv prec emax (S754_finite neg m 0)
                      (S754_finite false (Z.to_pos (10 ^ (- E))) 0))
  | _ => if neg then neg_zero else zero
  end.

(** The exponent part of a float literal: absent, or [e] or [E] followed by
    an optionally signed, non-empty run of digits that ends the string. *)
Definition take_exponent (s : string) : option Z :=
  match s with
  | EmptyString => Some 0
  | String c s' =>
      if Ascii.eqb (lower_char c) "e" then
        let (neg, s1) := take_sign s' in
        match take_digits s1 0 0 with
        | (n, cnt, EmptyString) =>
            if 0 <? cnt then Some (if neg then - n else n) else None
        | _ => None
        end
      else None
  end.

(** [float(s)]: surrounding blanks are dropped; the text is an optionally
    signed [inf], [infinity] or [nan] in any case, or a decimal numeral with
    an optional fraction and exponent and at least one digit in the
    mantissa, whose digits underscores may group. *)
Definition float (s : string) : outcome PrimFloat.float :=
  if grouped None s then
    let (neg, s1) := take_sign (strip_numeral (ungroup s)) in
    let w := lower s1 in
    if String.eqb w "inf" || String.eqb w "infinity"
    then Return (if neg then neg_infinity else infinity)
    else if String.eqb w "nan" then Return nan
    else
      let '(ip, icnt, s2) := take_digits s1 0 0 in
      let '(m, fcnt, s3) :=
        match s2 with
        | String "." s2' => take_digits s2' ip 0
        | _ => (ip, 0, s2)
        end in
      if 0 <? icnt + fcnt then
        match take_exponent s3 with
        | Some e => Return (float_of_decimal neg m (e - fcnt))
        | None => Raise ValueError
        end
      else Raise ValueError
  else Raise ValueError.

(** *** The C library *)

(** [x ** 2] on floats is computed by the C library's [pow].  A C library
    does not promise the correctly rounded result, only an accurate one:
    [pow(x, 2.0)] is the double below or the double above the exact square,
    so it is the correctly rounded square [x * x] or a double next to
    it. *)
Class Libm : Type := {
  pow : PrimFloat.float -> PrimFloat.float -> PrimFloat.float;
  pow_square : forall x : PrimFloat.float,
    pow x 2 = (x * x)%float \/
    pow x 2 = next_up (x * x)%float \/
    pow x 2 = next_down (x * x)%float
}.

(** A C library whose [pow] rounds squares correctly; other exponents are
    never asked for and are left undefined (nan). *)
Definition correctly_rounded_pow (x y : PrimFloat.float) : PrimFloat.float :=
  if (y =? 2)%float then (x * x)%float else nan.

Definition correctly_rounded : Libm := {|
  pow := correctly_rounded_pow;
  pow_square := fun x => or_introl eq_refl
|}.

(** [x ** 2] on floats, as the interpreter computes it: nan, the
    infinities, zero and one are answered without the C library; otherwise
    [pow] is called on the absolute value of the base, and a result that
    overflowed raises.  ([pow] is taken to report a range error only when
    its result overflows or is zero.) *)
Definition pow2 {libm : Libm} (x : PrimFloat.float) : outcome PrimFloat.float :=
  if is_nan x then Return x
  else if is_infinity x then Return infinity
  else if (x =? 0)%float then Return zero
  else
    let iv := abs x in
    if (iv =? 1)%float then Return one
    else
      let ix := pow iv 2 in
      if is_infinity ix then Raise OverflowError else Return ix.

(** [x / y] on floats. *)
Definition truediv (x y : PrimFloat.float) : outcome PrimFloat.float :=
  if (y =? 0)%float then Raise ZeroDivisionError else Return (x / y)%float.

(** [math.pi] *)
Definition pi : PrimFloat.float := 0x1.921fb54442d18p+1%float.

(** *** Files *)

(** What [open(filename, 'r')] meets: the text of the file as decoded, or
    the operating system's error ([IOError] is Python 3's [OSError]). *)
Inductive open_result : Type :=
| Opened (content : string)
| Failed (errno : Z) (strerror : string).

Definition filesystem : Type := string -> open_result.

(** A file object, as far as the module looks at it: its [closed] flag. *)
Record file : Type := File { closed : bool }.

End Py.

(** ** The module *)

Module ETA_Utilities.

Import Py.Notations.

(** What the module hands to its logger, [module_logger]: the level and the
    text are fixed by the call site, the arguments of [format] are kept. *)
Inductive log_record : Type :=
| error_io (errno : Z) (strerror : string)
    (* error: "I/O error({0}): {1}" *)
| error_file (filename : string)
    (* error: "File not found was: {0}" *)
| warning_input (token : string).
    (* warning: "A user input ({}) was found in the ETA constraints file
       that does not match the allowed input types. ..." *)

(** The attributes of an [ETA_Parameters] object, in the order the constructor
    assigns them.  [f] is the file object the two readers leave behind; a
    freshly constructed object has no such attribute. *)
Record ETA_Parameters : Type := {
  spectrum_type : string;
  spectrum : list (float * float);
  max_weight : float;
  src : float;
  tcc_dist : float;
  t_ds : float;
  t_w : float;
  snout_dist : float;
  t_c : float;
  t_m : float;
  r_f : float;
  r_o : float;
  theta : float;
  ds_mat : string;
  struct_mat : string;
  fill_mat : string;
  fissile_mat : string;
  t_nas : float;
  r_nas : float;
  nas_mat : string;
  t_nas_f : list float;
  r_nas_f : float;
  nas_mat_f : list string;
  toad_loc : string;
  toad_mat : string;
  t_toad : list float;
  r_toad : float;
  toad_mat_f : list string;
  holder_mat : string;
  h_fill_mat : string;
  t_h : float;
  max_vert : Z;
  max_horiz : Z;
  min_fiss : float;
  f : option Py.file
}.

(** Attribute assignment, [self.x = v]: one setter per attribute. *)
Definition set_spectrum_type (v : string) (self : ETA_Parameters) :=
  Build_ETA_Parameters v (spectrum self) (max_weight self) (src self)
    (tcc_dist self) (t_ds self) (t_w self) (snout_dist self) (t_c self)
    (t_m self) (r_f self) (r_o self) (theta self) (ds_mat self)
    (struct_mat self) (fill_mat self) (fissile_mat self) (t_nas self)
    (r_nas self) (nas_mat self) (t_nas_f self) (r_nas_f self)
    (nas_mat_f self) (toad_loc self) (toad_mat self) (t_toad self)
    (r_toad self) (toad_mat_f self) (holder_mat self) (h_fill_mat self)
    (t_h self) (max_vert self) (max_horiz self) (min_fiss self) (f self).

Definition set_spectrum (v : list (float * float)) (self : ETA_Parameters) :=
  Build_ETA_Parameters (spectrum_type self) v (max_weight self) (src self)
    (tcc_dist self) (t_ds self) (t_w self) (snout_dist self) (t_c self)
    (t_m self) (r_f self) (r_o self) (theta self) (ds_mat self)
    (struct_mat self) (fill_mat self) (fissile_mat self) (t_nas self)
    (r_nas self) (nas_mat self) (t_nas_f self) (r_nas_f self)
    (nas_mat_f self) (toad_loc self) (toad_mat self) (t_toad self)
    (r_toad self) (toad_mat_f self) (holder_mat self) (h_fill_mat self)
    (t_h self) (max_vert self) (max_horiz self) (min_fiss self) (f self).

Definition set_max_weight (v : float) (self : ETA_Parameters) :=
  Build_ETA_Parameters (spectrum_type self) (spectrum self) v (src self)
    (tcc_dist self) (t_ds self) (t_w self) (snout_dist self) (t_c self)
    (t_m self) (r_f self) (r_o self) (theta self) (ds_mat self)
    (struct_mat self) (fill_mat self) (fissile_mat self) (t_nas self)
    (r_nas self) (nas_mat self) (t_nas_f self) (r_nas_f self)
    (nas_mat_f self) (toad_loc self) (toad_mat self) (t_toad self)
    (r_toad self) (toad_mat_f self) (holder_mat self) (h_fill_mat self)
    (t_h self) (max_vert self) (max_horiz self) (min_fiss self) (f self).

Definition set_src (v : float) (self : ETA_Parameters) :=
  Build_ETA_Parameters (spectrum_type self) (spectrum self)
    (max_weight self) v (tcc_dist self) (t_ds self) (t_w self)
    (snout_dist self) (t_c self) (t_m self) (r_f self) (r_o self)
    (theta self) (ds_mat self) (struct_mat self) (fill_mat self)
    (fissile_mat self) (t_nas self) (r_nas self) (nas_mat self)
    (t_nas_f self) (r_nas_f self) (nas_mat_f self) (toad_loc self)
    (toad_mat self) (t_toad self) (r_toad self) (toad_mat_f self)
    (holder_mat self) (h_fill_mat self) (t_h self) (max_vert self)
    (max_horiz self) (min_fiss self) (f self).

Definition set_tcc_dist (v : float) (self : ETA_Parameters) :=
  Build_ETA_Parameters (spectrum_type self) (spectrum self)
    (max_weight self) (src self) v (t_ds self) (t_w self) (snout_dist self)
    (t_c self) (t_m self) (r_f self) (r_o self) (theta self) (ds_mat self)
    (struct_mat self) (fill_mat self) (fissile_mat self) (t_nas self)
    (r_nas self) (nas_mat self) (t_nas_f self) (r_nas_f self)
    (nas_mat_f self) (toad_loc self) (toad_mat self) (t_toad self)
    (r_toad self) (toad_mat_f self) (holder_mat self) (h_fill_mat self)
    (t_h self) (max_vert self) (max_horiz self) (min_fiss self) (f self).

Definition set_t_ds (v : float) (self : ETA_Parameters) :=
  Build_ETA_Parameters (spectrum_type self) (spectrum self)
    (max_weight self) (src self) (tcc_dist self) v (t_w self)
    (snout_dist self) (t_c self) (t_m self) (r_f self) (r_o self)
    (theta self) (ds_mat self) (struct_mat self) (fill_mat self)
    (fissile_mat self) (t_nas self) (r_nas self) (nas_mat self)
    (t_nas_f self) (r_nas_f self) (nas_mat_f self) (toad_loc self)
    (toad_mat self) (t_toad self) (r_toad self) (toad_mat_f self)
    (holder_mat self) (h_fill_mat self) (t_h self) (max_vert self)
    (max_horiz self) (min_fiss self) (f self).

Definition set_t_w (v : float) (self : ETA_Parameters) :=
  Build_ETA_Parameters (spectrum_type self) (spectrum self)
    (max_weight self) (src self) (tcc_dist self) (t_ds self) v
    (snout_dist self) (t_c self) (t_m self) (r_f self) (r_o self)
    (theta self) (ds_mat self) (struct_mat self) (fill_mat self)
    (fissile_mat self) (t_nas self) (r_nas self) (nas_mat self)
    (t_nas_f self) (r_nas_f self) (nas_mat_f self) (toad_loc self)
    (toad_mat self) (t_toad self) (r_toad self) (toad_mat_f self)
    (holder_mat self) (h_fill_mat self) (t_h self) (max_vert self)
    (max_horiz self) (min_fiss self) (f self).

Definition set_snout_dist (v : float) (self : ETA_Parameters) :=
  Build_ETA_Parameters (spectrum_type self) (spectrum self)
    (max_weight self) (src self) (tcc_dist self) (t_ds self) (t_w self) v
    (t_c self) (t_m self) (r_f self) (r_o self) (theta self) (ds_mat self)
    (struct_mat self) (fill_mat self) (fissile_mat self) (t_nas self)
    (r_nas self) (nas_mat self) (t_nas_f self) (r_nas_f self)
    (nas_mat_f self) (toad_loc self) (toad_mat self) (t_toad self)
    (r_toad self) (toad_mat_f self) (holder_mat self) (h_fill_mat self)
    (t_h self) (max_vert self) (max_horiz self) (min_fiss self) (f self).

Definition set_t_c (v : float) (self : ETA_Parameters) :=
  Build_ETA_Parameters (spectrum_type self) (spectrum self)
    (max_weight self) (src self) (tcc_dist self) (t_ds self) (t_w self)
    (snout_dist self) v (t_m self) (r_f self) (r_o self) (theta self)
    (ds_mat self) (struct_mat self) (fill_mat self) (fissile_mat self)
    (t_nas self) (r_nas self) (nas_mat self) (t_nas_f self) (r_nas_f self)
    (nas_mat_f self) (toad_loc self) (toad_mat self) (t_toad self)
    (r_toad self) (toad_mat_f self) (holder_mat self) (h_fill_mat self)
    (t_h self) (max_vert self) (max_horiz self) (min_fiss self) (f self).

Definition set_t_m (v : float) (self : ETA_Parameters) :=
  Build_ETA_Parameters (spectrum_type self) (spectrum self)
    (max_weight self) (src self) (tcc_dist self) (t_ds self) (t_w self)
    (snout_dist self) (t_c self) v (r_f self) (r_o self) (theta self)
    (ds_mat self) (struct_mat self) (fill_mat self) (fissile_mat self)
    (t_nas self) (r_nas self) (nas_mat self) (t_nas_f self) (r_nas_f self)
    (nas_mat_f self) (toad_loc self) (toad_mat self) (t_toad self)
    (r_toad self) (toad_mat_f self) (holder_mat self) (h_fill_mat self)
    (t_h self) (max_vert self) (max_horiz self) (min_fiss self) (f self).

Definition set_r_f (v : float) (self : ETA_Parameters) :=
  Build_ETA_Parameters (spectrum_type self) (spectrum self)
    (max_weight self) (src self) (tcc_dist self) (t_ds self) (t_w self)
    (snout_dist self) (t_c self) (t_m self) v (r_o self) (theta self)
    (ds_mat self) (struct_mat self) (fill_mat self) (fissile_mat self)
    (t_nas self) (r_nas self) (nas_mat self) (t_nas_f self) (r_nas_f self)
    (nas_mat_f self) (toad_loc self) (toad_mat self) (t_toad self)
    (r_toad self) (toad_mat_f self) (holder_mat self) (h_fill_mat self)
    (t_h self) (max_vert self) (max_horiz self) (min_fiss self) (f self).

Definition set_r_o (v : float) (self : ETA_Parameters) :=
  Build_ETA_Parameters (spectrum_type self) (spectrum self)
    (max_weight self) (src self) (tcc_dist self) (t_ds self) (t_w self)
    (snout_dist self) (t_c self) (t_m self) (r_f self) v (theta self)
    (ds_mat self) (struct_mat self) (fill_mat self) (fissile_mat self)
    (t_nas self) (r_nas self) (nas_mat self) (t_nas_f self) (r_nas_f self)
    (nas_mat_f self) (toad_loc self) (toad_mat self) (t_toad self)
    (r_toad self) (toad_mat_f self) (holder_mat self) (h_fill_mat self)
    (t_h self) (max_vert self) (max_horiz self) (min_fiss self) (f self).

Definition set_theta (v : float) (self : ETA_Parameters) :=
  Build_ETA_Parameters (spectrum_type self) (spectrum self)
    (max_weight self) (src self) (tcc_dist self) (t_ds self) (t_w self)
    (snout_dist self) (t_c self) (t_m self) (r_f self) (r_o self) v
    (ds_mat self) (struct_mat self) (fill_mat self) (fissile_mat self)
    (t_nas self) (r_nas self) (nas_mat self) (t_nas_f self) (r_nas_f self)
    (nas_mat_f self) (toad_loc self) (toad_mat self) (t_toad self)
    (r_toad self) (toad_mat_f self) (holder_mat self) (h_fill_mat self)
    (t_h self) (max_vert self) (max_horiz self) (min_fiss self) (f self).

Definition set_ds_mat (v : string) (self : ETA_Parameters) :=
  Build_ETA_Parameters (spectrum_type self) (spectrum self)
    (max_weight self) (src self) (tcc_dist self) (t_ds self) (t_w self)
    (snout_dist self) (t_c self) (t_m self) (r_f self) (r_o self)
    (theta self) v (struct_mat self) (fill_mat self) (fissile_mat self)
    (t_nas self) (r_nas self) (nas_mat self) (t_nas_f self) (r_nas_f self)
    (nas_mat_f self) (toad_loc self) (toad_mat self) (t_toad self)
    (r_toad self) (toad_mat_f self) (holder_mat self) (h_fill_mat self)
    (t_h self) (max_vert self) (max_horiz self) (min_fiss self) (f self).

Definition set_struct_mat (v : string) (self : ETA_Parameters) :=
  Build_ETA_Parameters (spectrum_type self) (spectrum self)
    (max_weight self) (src self) (tcc_dist self) (t_ds self) (t_w self)
    (snout_dist self) (t_c self) (t_m self) (r_f self) (r_o self)
    (theta self) (ds_mat self) v (fill_mat self) (fissile_mat self)
    (t_nas self) (r_nas self) (nas_mat self) (t_nas_f self) (r_nas_f self)
    (nas_mat_f self) (toad_loc self) (toad_mat self) (t_toad self)
    (r_toad self) (toad_mat_f self) (holder_mat self) (h_fill_mat self)
    (t_h self) (max_vert self) (max_horiz self) (min_fiss self) (f self).

Definition set_fill_mat (v : string) (self : ETA_Parameters) :=
  Build_ETA_Parameters (spectrum_type self) (spectrum self)
    (max_weight self) (src self) (tcc_dist self) (t_ds self) (t_w self)
    (snout_dist self) (t_c self) (t_m self) (r_f self) (r_o self)
    (theta self) (ds_mat self) (struct_mat self) v (fissile_mat self)
    (t_nas self) (r_nas self) (nas_mat self) (t_nas_f self) (r_nas_f self)
    (nas_mat_f self) (toad_loc self) (toad_mat self) (t_toad self)
    (r_toad self) (toad_mat_f self) (holder_mat self) (h_fill_mat self)
    (t_h self) (max_vert self) (max_horiz self) (min_fiss self) (f self).

Definition set_fissile_mat (v : string) (self : ETA_Parameters) :=
  Build_ETA_Parameters (spectrum_type self) (spectrum self)
    (max_weight self) (src self) (tcc_dist self) (t_ds self) (t_w self)
    (snout_dist self) (t_c self) (t_m self) (r_f self) (r_o self)
    (theta self) (ds_mat self) (struct_mat self) (fill_mat self) v
    (t_nas self) (r_nas self) (nas_mat self) (t_nas_f self) (r_nas_f self)
    (nas_mat_f self) (toad_loc self) (toad_mat self) (t_toad self)
    (r_toad self) (toad_mat_f self) (holder_mat self) (h_fill_mat self)
    (t_h self) (max_vert self) (max_horiz self) (min_fiss self) (f self).

Definition set_t_nas (v : float) (self : ETA_Parameters) :=
  Build_ETA_Parameters (spectrum_type self) (spectrum self)
    (max_weight self) (src self) (tcc_dist self) (t_ds self) (t_w self)
    (snout_dist self) (t_c self) (t_m self) (r_f self) (r_o self)
    (theta self) (ds_mat self) (struct_mat self) (fill_mat self)
    (fissile_mat self) v (r_nas self) (nas_mat self) (t_nas_f self)
    (r_nas_f self) (nas_mat_f self) (toad_loc self) (toad_mat self)
    (t_toad self) (r_toad self) (toad_mat_f self) (holder_mat self)
    (h_fill_mat self) (t_h self) (max_vert self) (max_horiz self)
    (min_fiss self) (f self).

Definition set_r_nas (v : float) (self : ETA_Parameters) :=
  Build_ETA_Parameters (spectrum_type self) (spectrum self)
    (max_weight self) (src self) (tcc_dist self) (t_ds self) (t_w self)
    (snout_dist self) (t_c self) (t_m self) (r_f self) (r_o self)
    (theta self) (ds_mat self) (struct_mat self) (fill_mat self)
    (fissile_mat self) (t_nas self) v (nas_mat self) (t_nas_f self)
    (r_nas_f self) (nas_mat_f self) (toad_loc self) (toad_mat self)
    (t_toad self) (r_toad self) (toad_mat_f self) (holder_mat self)
    (h_fill_mat self) (t_h self) (max_vert self) (max_horiz self)
    (min_fiss self) (f self).

Definition set_nas_mat (v : string) (self : ETA_Parameters) :=
  Build_ETA_Parameters (spectrum_type self) (spectrum self)
    (max_weight self) (src self) (tcc_dist self) (t_ds self) (t_w self)
    (snout_dist self) (t_c self) (t_m self) (r_f self) (r_o self)
    (theta self) (ds_mat self) (struct_mat self) (fill_mat self)
    (fissile_mat self) (t_nas self) (r_nas self) v (t_nas_f self)
    (r_nas_f self) (nas_mat_f self) (toad_loc self) (toad_mat self)
    (t_toad self) (r_toad self) (toad_mat_f self) (holder_mat self)
    (h_fill_mat self) (t_h self) (max_vert self) (max_horiz self)
    (min_fiss self) (f self).

Definition set_t_nas_f (v : list float) (self : ETA_Parameters) :=
  Build_ETA_Parameters (spectrum_type self) (spectrum self)
    (max_weight self) (src self) (tcc_dist self) (t_ds self) (t_w self)
    (snout_dist self) (t_c self) (t_m self) (r_f self) (r_o self)
    (theta self) (ds_mat self) (struct_mat self) (fill_mat self)
    (fissile_mat self) (t_nas self) (r_nas self) (nas_mat self) v
    (r_nas_f self) (nas_mat_f self) (toad_loc self) (toad_mat self)
    (t_toad self) (r_toad self) (toad_mat_f self) (holder_mat self)
    (h_fill_mat self) (t_h self) (max_vert self) (max_horiz self)
    (min_fiss self) (f self).

Definition set_r_nas_f (v : float) (self : ETA_Parameters) :=
  Build_ETA_Parameters (spectrum_type self) (spectrum self)
    (max_weight self) (src self) (tcc_dist self) (t_ds self) (t_w self)
    (snout_dist self) (t_c self) (t_m self) (r_f self) (r_o self)
    (theta self) (ds_mat self) (struct_mat self) (fill_mat self)
    (fissile_mat self) (t_nas self) (r_nas self) (nas_mat self)
    (t_nas_f self) v (nas_mat_f self) (toad_loc self) (toad_mat self)
    (t_toad self) (r_toad self) (toad_mat_f self) (holder_mat self)
    (h_fill_mat self) (t_h self) (max_vert self) (max_horiz self)
    (min_fiss self) (f self).

Definition set_nas_mat_f (v : list string) (self : ETA_Parameters) :=
  Build_ETA_Parameters (spectrum_type self) (spectrum self)
    (max_weight self) (src self) (tcc_dist self) (t_ds self) (t_w self)
    (snout_dist self) (t_c self) (t_m self) (r_f self) (r_o self)
    (theta self) (ds_mat self) (struct_mat self) (fill_mat self)
    (fissile_mat self) (t_nas self) (r_nas self) (nas_mat self)
    (t_nas_f self) (r_nas_f self) v (toad_loc self) (toad_mat self)
    (t_toad self) (r_toad self) (toad_mat_f self) (holder_mat self)
    (h_fill_mat self) (t_h self) (max_vert self) (max_horiz self)
    (min_fiss self) (f self).

Definition set_toad_loc (v : string) (self : ETA_Parameters) :=
  Build_ETA_Parameters (spectrum_type self) (spectrum self)
    (max_weight self) (src self) (tcc_dist self) (t_ds self) (t_w self)
    (snout_dist self) (t_c self) (t_m self) (r_f self) (r_o self)
    (theta self) (ds_mat self) (struct_mat self) (fill_mat self)
    (fissile_mat self) (t_nas self) (r_nas self) (nas_mat self)
    (t_nas_f self) (r_nas_f self) (nas_mat_f self) v (toad_mat self)
    (t_toad self) (r_toad self) (toad_mat_f self) (holder_mat self)
    (h_fill_mat self) (t_h self) (max_vert self) (max_horiz self)
    (min_fiss self) (f self).

Definition set_toad_mat (v : string) (self : ETA_Parameters) :=
  Build_ETA_Parameters (spectrum_type self) (spectrum self)
    (max_weight self) (src self) (tcc_dist self) (t_ds self) (t_w self)
    (snout_dist self) (t_c self) (t_m self) (r_f self) (r_o self)
    (theta self) (ds_mat self) (struct_mat self) (fill_mat self)
    (fissile_mat self) (t_nas self) (r_nas self) (nas_mat self)
    (t_nas_f self) (r_nas_f self) (nas_mat_f self) (toad_loc self) v
    (t_toad self) (r_toad self) (toad_mat_f self) (holder_mat self)
    (h_fill_mat self) (t_h self) (max_vert self) (max_horiz self)
    (min_fiss self) (f self).

Definition set_t_toad (v : list float) (self : ETA_Parameters) :=
  Build_ETA_Parameters (spectrum_type self) (spectrum self)
    (max_weight self) (src self) (tcc_dist self) (t_ds self) (t_w self)
    (snout_dist self) (t_c self) (t_m self) (r_f self) (r_o self)
    (theta self) (ds_mat self) (struct_mat self) (fill_mat self)
    (fissile_mat self) (t_nas self) (r_nas self) (nas_mat self)
    (t_nas_f self) (r_nas_f self) (nas_mat_f self) (toad_loc self)
    (toad_mat self) v (r_toad self) (toad_mat_f self) (holder_mat self)
    (h_fill_mat self) (t_h self) (max_vert self) (max_horiz self)
    (min_fiss self) (f self).

Definition set_r_toad (v : float) (self : ETA_Parameters) :=
  Build_ETA_Parameters (spectrum_type self) (spectrum self)
    (max_weight self) (src self) (tcc_dist self) (t_ds self) (t_w self)
    (snout_dist self) (t_c self) (t_m self) (r_f self) (r_o self)
    (theta self) (ds_mat self) (struct_mat self) (fill_mat self)
    (fissile_mat self) (t_nas self) (r_nas self) (nas_mat self)
    (t_nas_f self) (r_nas_f self) (nas_mat_f self) (toad_loc self)
    (toad_mat self) (t_toad self) v (toad_mat_f self) (holder_mat self)
    (h_fill_mat self) (t_h self) (max_vert self) (max_horiz self)
    (min_fiss self) (f self).

Definition set_toad_mat_f (v : list string) (self : ETA_Parameters) :=
  Build_ETA_Parameters (spectrum_type self) (spectrum self)
    (max_weight self) (src self) (tcc_dist self) (t_ds self) (t_w self)
    (snout_dist self) (t_c self) (t_m self) (r_f self) (r_o self)
    (theta self) (ds_mat self) (struct_mat self) (fill_mat self)
    (fissile_mat self) (t_nas self) (r_nas self) (nas_mat self)
    (t_nas_f self) (r_nas_f self) (nas_mat_f self) (toad_loc self)
    (toad_mat self) (t_toad self) (r_toad self) v (holder_mat self)
    (h_fill_mat self) (t_h self) (max_vert self) (max_horiz self)
    (min_fiss self) (f self).

Definition set_holder_mat (v : string) (self : ETA_Parameters) :=
  Build_ETA_Parameters (spectrum_type self) (spectrum self)
    (max_weight self) (src self) (tcc_dist self) (t_ds self) (t_w self)
    (snout_dist self) (t_c self) (t_m self) (r_f self) (r_o self)
    (theta self) (ds_mat self) (struct_mat self) (fill_mat self)
    (fissile_mat self) (t_nas self) (r_nas self) (nas_mat self)
    (t_nas_f self) (r_nas_f self) (nas_mat_f self) (toad_loc self)
    (toad_mat self) (t_toad self) (r_toad self) (toad_mat_f self) v
    (h_fill_mat self) (t_h self) (max_vert self) (max_horiz self)
    (min_fiss self) (f self).

Definition set_h_fill_mat (v : string) (self : ETA_Parameters) :=
  Build_ETA_Parameters (spectrum_type self) (spectrum self)
    (max_weight self) (src self) (tcc_dist self) (t_ds self) (t_w self)
    (snout_dist self) (t_c self) (t_m self) (r_f self) (r_o self)
    (theta self) (ds_mat self) (struct_mat self) (fill_mat self)
    (fissile_mat self) (t_nas self) (r_nas self) (nas_mat self)
    (t_nas_f self) (r_nas_f self) (nas_mat_f self) (toad_loc self)
    (toad_mat self) (t_toad self) (r_toad self) (toad_mat_f self)
    (holder_mat self) v (t_h self) (max_vert self) (max_horiz self)
    (min_fiss self) (f self).

Definition set_t_h (v : float) (self : ETA_Parameters) :=
  Build_ETA_Parameters (spectrum_type self) (spectrum self)
    (max_weight self) (src self) (tcc_dist self) (t_ds self) (t_w self)
    (snout_dist self) (t_c self) (t_m self) (r_f self) (r_o self)
    (theta self) (ds_mat self) (struct_mat self) (fill_mat self)
    (fissile_mat self) (t_nas self) (r_nas self) (nas_mat self)
    (t_nas_f self) (r_nas_f self) (nas_mat_f self) (toad_loc self)
    (toad_mat self) (t_toad self) (r_toad self) (toad_mat_f self)
    (holder_mat self) (h_fill_mat self) v (max_vert self) (max_horiz self)
    (min_fiss self) (f self).

Definition set_max_vert (v : Z) (self : ETA_Parameters) :=
  Build_ETA_Parameters (spectrum_type self) (spectrum self)
    (max_weight self) (src self) (tcc_dist self) (t_ds self) (t_w self)
    (snout_dist self) (t_c self) (t_m self) (r_f self) (r_o self)
    (theta self) (ds_mat self) (struct_mat self) (fill_mat self)
    (fissile_mat self) (t_nas self) (r_nas self) (nas_mat self)
    (t_nas_f self) (r_nas_f self) (nas_mat_f self) (toad_loc self)
    (toad_mat self) (t_toad self) (r_toad self) (toad_mat_f self)
    (holder_mat self) (h_fill_mat self) (t_h self) v (max_horiz self)
    (min_fiss self) (f self).

Definition set_max_horiz (v : Z) (self : ETA_Parameters) :=
  Build_ETA_Parameters (spectrum_type self) (spectrum self)
    (max_weight self) (src self) (tcc_dist self) (t_ds self) (t_w self)
    (snout_dist self) (t_c self) (t_m self) (r_f self) (r_o self)
    (theta self) (ds_mat self) (struct_mat self) (fill_mat self)
    (fissile_mat self) (t_nas self) (r_nas self) (nas_mat self)
    (t_nas_f self) (r_nas_f self) (nas_mat_f self) (toad_loc self)
    (toad_mat self) (t_toad self) (r_toad self) (toad_mat_f self)
    (holder_mat self) (h_fill_mat self) (t_h self) (max_vert self) v
    (min_fiss self) (f self).

Definition set_min_fiss (v : float) (self : ETA_Parameters) :=
  Build_ETA_Parameters (spectrum_type self) (spectrum self)
    (max_weight self) (src self) (tcc_dist self) (t_ds self) (t_w self)
    (snout_dist self) (t_c self) (t_m self) (r_f self) (r_o self)
    (theta self) (ds_mat self) (struct_mat self) (fill_mat self)
    (fissile_mat self) (t_nas self) (r_nas self) (nas_mat self)
    (t_nas_f self) (r_nas_f self) (nas_mat_f self) (toad_loc self)
    (toad_mat self) (t_toad self) (r_toad self) (toad_mat_f self)
    (holder_mat self) (h_fill_mat self) (t_h self) (max_vert self)
    (max_horiz self) v (f self).

Definition set_f (v : option Py.file) (self : ETA_Parameters) :=
  Build_ETA_Parameters (spectrum_type self) (spectrum self)
    (max_weight self) (src self) (tcc_dist self) (t_ds self) (t_w self)
    (snout_dist self) (t_c self) (t_m self) (r_f self) (r_o self)
    (theta self) (ds_mat self) (struct_mat self) (fill_mat self)
    (fissile_mat self) (t_nas self) (r_nas self) (nas_mat self)
    (t_nas_f self) (r_nas_f self) (nas_mat_f self) (toad_loc self)
    (toad_mat self) (t_toad self) (r_toad self) (toad_mat_f self)
    (holder_mat self) (h_fill_mat self) (t_h self) (max_vert self)
    (max_horiz self) (min_fiss self) v.

(** The keyword arguments of the constructor and their default values. *)
Module kw.

Record args : Type := {
  spectrum_type : string;
  spectrum : list (float * float);
  min_fiss : float;
  max_weight : float;
  src : float;
  tcc_dist : float;
  debris_shield_thickness : float;
  wall_thickness : float;
  snout_dist : float;
  cover_thickness : float;
  mount_thickness : float;
  face_radius : float;
  eta_or : float;
  cone_angle : float;
  debris_shield_mat : string;
  struct_mat : string;
  fill_mat : string;
  fissile_mat : string;
  nas_th : float;
  nas_r : float;
  nas_mat : string;
  nas_foil_th : list float;
  nas_foil_r : float;
  nas_foil_mat : list string;
  toad_loc : string;
  toad_mat : string;
  toad_foil_th : list float;
  toad_foil_r : float;
  toad_foil_mat : list string;
  holder_mat : string;
  holder_fill_mat : string;
  holder_thickness : float;
  max_vert : Z;
  max_horiz : Z
}.

Definition defaults : args := {|
  spectrum_type := "normalized differential";
  spectrum := [];
  min_fiss := 5E8;
  max_weight := 125.0;
  src := 5E15;
  tcc_dist := 15.24;
  debris_shield_thickness := 0.3;
  wall_thickness := 0.5;
  snout_dist := 52.14;
  cover_thickness := 1.0;
  mount_thickness := 2.4;
  face_radius := 5.48;
  eta_or := 9.39;
  cone_angle := 70.22;
  debris_shield_mat := "Al";
  struct_mat := "Al";
  fill_mat := "Air (dry near sea level)";
  fissile_mat := "Pb";
  nas_th := 0.014;
  nas_r := 2.69;
  nas_mat := "Al";
  nas_foil_th := [0.1; 0.1; 0.1; 0.1; 0.01]%float;
  nas_foil_r := 2.5;
  nas_foil_mat := ["Zr"; "Zn"; "In"; "Al"; "Ta"];
  toad_loc := "In";
  toad_mat := "Al";
  toad_foil_th := [0.0254; 0.0127]%float;
  toad_foil_r := 1.252;
  toad_foil_mat := ["Au"; "Pb"];
  holder_mat := "Al";
  holder_fill_mat := "Fe";
  holder_thickness := 2.0;
  max_vert := 3;
  max_horiz := 7
|}.

End kw.

(** *** The constructor *)

(** The index the constructor looks up:
    [next((i for i in enumerate(self.toad_mat_f) if i == self.fissile_mat), -1)].
    The generator's variable [i] ranges over the pairs of [enumerate]. *)
Definition init_ind (toad_mat_f : list string) (fissile_mat : string) : Py.object :=
  Py.next
    (filter (fun i => Py.eq i (Py.PyStr fissile_mat)) (Py.enumerate toad_mat_f))
    (Py.PyInt (-1)).

(** [min_fiss/(src*r_toad**2*pi*t_toad[ind])], in Python's order of
    evaluation, for an index expression [ind] still to be evaluated. *)
Definition fissions_per_source {libm : Py.Libm} {I : Type} (subscript : list float -> I -> Py.outcome float)
    (min_fiss src r_toad : float) (t_toad : list float) (ind : Py.outcome I)
    : Py.outcome float :=
  r2 <~ Py.pow2 r_toad ;;
  i <~ ind ;;
  t <~ subscript t_toad i ;;
  Py.truediv min_fiss (src * r2 * Py.pi * t)%float.

Definition assert_ (cond : bool) (msg : string) : Py.outcome unit :=
  if cond then Py.Return tt else Py.Raise (Py.AssertionError msg).

Definition __init__ {libm : Py.Libm} (a : kw.args) : Py.outcome ETA_Parameters :=
  x_ <~ assert_ (Nat.eqb (List.length (kw.nas_foil_th a)) (List.length (kw.nas_foil_mat a)))
         "The number of thicknesses and materials for the NAS must be equal." ;;
  x_ <~ assert_ (Nat.eqb (List.length (kw.toad_foil_th a)) (List.length (kw.toad_foil_mat a)))
         "The number of thicknesses and materials for the TOAD must be equal." ;;
  let self := {|
    spectrum_type := kw.spectrum_type a;
    spectrum := kw.spectrum a;
    max_weight := kw.max_weight a;
    src := kw.src a;
    tcc_dist := kw.tcc_dist a;
    t_ds := kw.debris_shield_thickness a;
    t_w := kw.wall_thickness a;
    snout_dist := kw.snout_dist a;
    t_c := kw.cover_thickness a;
    t_m := kw.mount_thickness a;
    r_f := kw.face_radius a;
    r_o := kw.eta_or a;
    theta := kw.cone_angle a;
    ds_mat := kw.debris_shield_mat a;
    struct_mat := kw.struct_mat a;
    fill_mat := kw.fill_mat a;
    fissile_mat := kw.fissile_mat a;
    t_nas := kw.nas_th a;
    r_nas := kw.nas_r a;
    nas_mat := kw.nas_mat a;
    t_nas_f := kw.nas_foil_th a;
    r_nas_f := kw.nas_foil_r a;
    nas_mat_f := kw.nas_foil_mat a;
    toad_loc := kw.toad_loc a;
    toad_mat := kw.toad_mat a;
    t_toad := kw.toad_foil_th a;
    r_toad := kw.toad_foil_r a;
    toad_mat_f := kw.toad_foil_mat a;
    holder_mat := kw.holder_mat a;
    h_fill_mat := kw.holder_fill_mat a;
    t_h := kw.holder_thickness a;
    max_vert := kw.max_vert a;
    max_horiz := kw.max_horiz a;
    (* not assigned yet: the last statement of the constructor sets it *)
    min_fiss := kw.min_fiss a;
    f := None
  |} in
  let ind := init_ind (toad_mat_f self) (fissile_mat self) in
  v <~ fissions_per_source Py.getitem_obj (kw.min_fiss a) (src self) (r_toad self)
         (t_toad self) (Py.Return ind) ;;
  Py.Return (set_min_fiss v self).

(** *** Methods that mutate the object

    A method runs on the object and the records logged so far; it ends by
    returning or by raising, and what it has assigned before raising stays
    assigned. *)

Record state : Type := State {
  self : ETA_Parameters;
  log : list log_record
}.

Definition M (A : Type) : Type := state -> Py.outcome A * state.

Definition ret {A} (a : A) : M A := fun s => (Py.Return a, s).

Definition raise {A} (e : Py.exn) : M A := fun s => (Py.Raise e, s).

Definition bind {A B} (c : M A) (k : A -> M B) : M B :=
  fun s =>
    match c s with
    | (Py.Return a, s') => k a s'
    | (Py.Raise e, s') => (Py.Raise e, s')
    end.

Module Notations.
Notation "x <- c ;; k" := (bind c (fun x => k))
  (at level 61, c at next level, right associativity).
Notation "c ;; k" := (bind c (fun _ => k))
  (at level 61, right associativity).
End Notations.
Import Notations.

(** An expression evaluated inside a method. *)
Definition eval {A} (x : Py.outcome A) : M A := fun s => (x, s).

(** Reading the object. *)
Definition get : M ETA_Parameters := fun s => (Py.Return (self s), s).

(** An attribute assignment. *)
Definition assign (upd : ETA_Parameters -> ETA_Parameters) : M unit :=
  fun s => (Py.Return tt, State (upd (self s)) (log s)).

(** [module_logger.error(...)], [module_logger.warning(...)] *)
Definition logging (r : log_record) : M unit :=
  fun s => (Py.Return tt, State (self s) (log s ++ [r])).

(** [for x in l: body] *)
Fixpoint for_each {A} (l : list A) (body : A -> M unit) : M unit :=
  match l with
  | [] => ret tt
  | x :: l' => body x ;; for_each l' body
  end.

(** [range(a, b)] *)
Definition range (a b : Z) : list Z :=
  map (fun k => a + Z.of_nat k) (seq 0 (Z.to_nat (b - a))).

(** [try: body / except IOError as e: handler(e.errno, e.strerror)] *)
Definition try_except_IOError (body : M unit) (handler : Z -> string -> M unit) : M unit :=
  fun s =>
    match body s with
    | (Py.Raise (Py.IOError errno strerror), s') => handler errno strerror s'
    | r => r
    end.

(** [self.f = open(filename, 'r')]: yields the text to be read. *)
Definition open (fs : Py.filesystem) (filename : string) : M string :=
  match fs filename with
  | Py.Opened content => assign (set_f (Some (Py.File false))) ;; ret content
  | Py.Failed errno strerror => raise (Py.IOError errno strerror)
  end.

(** [self.f.close()] *)
Definition close : M unit :=
  o <- get ;;
  match f o with
  | Some _ => assign (set_f (Some (Py.File true)))
  | None => raise Py.AttributeError
  end.

(** [assert self.f.closed==True, "File did not close properly."] *)
Definition assert_closed : M unit :=
  o <- get ;;
  match f o with
  | Some file => eval (assert_ (Py.closed file) "File did not close properly.")
  | None => raise Py.AttributeError
  end.

(** [split_list[i].strip()], [float(split_list[i].strip())] and
    [int(split_list[i].strip())] *)
Definition item (split_list : list string) (i : Z) : M string :=
  eval (s <~ Py.getitem split_list i ;; Py.Return (Py.strip s)).

Definition item_float (split_list : list string) (i : Z) : M float :=
  eval (s <~ Py.getitem split_list i ;; Py.float (Py.strip s)).

Definition item_int (split_list : list string) (i : Z) : M Z :=
  eval (s <~ Py.getitem split_list i ;; Py.int (Py.strip s)).

(** *** read_obj *)

(** The body of the loop over the rows of the spectrum file; [spectrum] is
    the local list the rows are appended to. *)
Fixpoint read_obj_rows (lines : list string) (spectrum : list (float * float))
    : M (list (float * float)) :=
  match lines with
  | [] => ret spectrum
  | line :: lines' =>
      let split_list := Py.split "," line in
      e <- item_float split_list 0 ;;
      flux <- item_float split_list 1 ;;
      read_obj_rows lines' (spectrum ++ [(e, flux)])
  end.

(** [self.f.readline()] on a file just opened, and what is left to read. *)
Definition readline (content : string) : string * list string :=
  match Py.readlines content with
  | line :: rest => (line, rest)
  | [] => (EmptyString, [])
  end.

(** The [try] block of [read_obj]; it yields the local variable [spectrum]. *)
Definition read_obj_try (fs : Py.filesystem) (filename : string)
    : M (list (float * float)) :=
  content <- open fs filename ;;
  let (first, rest) := readline content in
  assign (set_spectrum_type (Py.strip first)) ;;
  spectrum <- read_obj_rows rest [] ;;
  close ;;
  ret spectrum.

(** The [try] statement of [read_obj].  The local [spectrum] is bound only if
    the [try] block got as far as binding it: the handler, which runs when
    [open] fails, leaves it unbound. *)
Definition read_obj_try_except (fs : Py.filesystem) (filename : string)
    : M (option (list (float * float))) :=
  fun s =>
    match read_obj_try fs filename s with
    | (Py.Return spectrum, s') => (Py.Return (Some spectrum), s')
    | (Py.Raise (Py.IOError errno strerror), s') =>
        (logging (error_io errno strerror) ;;
         logging (error_file filename) ;;
         ret None) s'
    | (Py.Raise e, s') => (Py.Raise e, s')
    end.

Definition read_obj (fs : Py.filesystem) (filename : string) : M unit :=
  spectrum <- read_obj_try_except fs filename ;;
  assert_closed ;;
  match spectrum with
  | Some rows => assign (set_spectrum rows)     (* np.asarray(spectrum) *)
  | None => raise Py.UnboundLocalError
  end.

(** *** read_constraints *)

(** Modelled from the spec: [Utilities.Switch], which is not part of this
    module.  [for case in util.Switch(value)] runs its body once with [case]
    bound to a matcher; [case(k)] holds when [value] is exactly [k] (matching
    is exact, neither fuzzy nor by prefix), and [case()] always holds. *)
Definition Switch (value : string) : list (list string -> bool) :=
  [fun args =>
     match args with
     | [] => true
     | _ => existsb (String.eqb value) args
     end].

(** The body of [for case in util.Switch(...)]: every branch but the default
    ends in [break], so exactly one branch runs. *)
Definition read_constraints_case (split_list : list string)
    (case : list string -> bool) : M unit :=
  if case [Py.lower "Minimum Fissions"] then
    v <- item_float split_list 1 ;; assign (set_min_fiss v)
  else if case [Py.lower "ETA Max Weight"] then
    v <- item_float split_list 1 ;; assign (set_max_weight v)
  else if case [Py.lower "Source Strength"] then
    v <- item_float split_list 1 ;; assign (set_src v)

  else if case [Py.lower "TCC to ETA Distance"] then
    v <- item_float split_list 1 ;; assign (set_tcc_dist v)
  else if case [Py.lower "Debris Shield Thickness"] then
    v <- item_float split_list 1 ;; assign (set_t_ds v)
  else if case [Py.lower "ETA Wall Thickness"] then
    v <- item_float split_list 1 ;; assign (set_t_w v)
  else if case [Py.lower "Snout Distance"] then
    v <- item_float split_list 1 ;; assign (set_snout_dist v)
  else if case [Py.lower "ETA Back Cover Thickness"] then
    v <- item_float split_list 1 ;; assign (set_t_c v)
  else if case [Py.lower "ETA to Snout Mount Thickness"] then
    v <- item_float split_list 1 ;; assign (set_t_m v)
  else if case [Py.lower "ETA Face Radius"] then
    v <- item_float split_list 1 ;; assign (set_r_f v)
  else if case [Py.lower "ETA Cone Outer Radius"] then
    v <- item_float split_list 1 ;; assign (set_r_o v)
  else if case [Py.lower "ETA Cone Opening Angle"] then
    v <- item_float split_list 1 ;; assign (set_theta v)

  else if case [Py.lower "Debris Shield Material"] then
    v <- item split_list 1 ;; assign (set_ds_mat v)
  else if case [Py.lower "ETA Structural Material"] then
    v <- item split_list 1 ;; assign (set_struct_mat v)
  else if case [Py.lower "ETA Void Fill Material"] then
    v <- item split_list 1 ;; assign (set_fill_mat v)
  else if case [Py.lower "Fissile Foil"] then
    v <- item split_list 1 ;; assign (set_fissile_mat v)

  else if case [Py.lower "NAS Thickness"] then
    v <- item_float split_list 1 ;; assign (set_t_nas v)
  else if case [Py.lower "NAS Radius"] then
    v <- item_float split_list 1 ;; assign (set_r_nas v)
  else if case [Py.lower "NAS Material"] then
    v <- item split_list 1 ;; assign (set_nas_mat v)

  else if case [Py.lower "NAS Activation Foils"] then
    assign (set_nas_mat_f []) ;;
    for_each (range 1 (Z.of_nat (List.length split_list))) (fun i =>
      v <- item split_list i ;;
      assign (fun o => set_nas_mat_f (nas_mat_f o ++ [v]) o))
  else if case [Py.lower "NAS Activation Foil Thickness"] then
    assign (set_t_nas_f []) ;;
    for_each (range 1 (Z.of_nat (List.length split_list))) (fun i =>
      v <- item_float split_list i ;;
      assign (fun o => set_t_nas_f (t_nas_f o ++ [v]) o))
  else if case [Py.lower "NAS Activation Foil Radius"] then
    v <- item_float split_list 1 ;; assign (set_r_nas_f v)
  else if case [Py.lower "TOAD Follows Material"] then
    v <- item split_list 1 ;; assign (set_toad_loc v)

  else if case [Py.lower "TOAD Material"] then
    v <- item split_list 1 ;; assign (set_toad_mat v)
  else if case [Py.lower "TOAD Activation Foils"] then
    assign (set_toad_mat_f []) ;;
    for_each (range 1 (Z.of_nat (List.length split_list))) (fun i =>
      v <- item split_list i ;;
      assign (fun o => set_toad_mat_f (toad_mat_f o ++ [v]) o))
  else if case [Py.lower "TOAD Activation Foil Thickness"] then
    assign (set_t_toad []) ;;
    for_each (range 1 (Z.of_nat (List.length split_list))) (fun i =>
      v <- item_float split_list i ;;
      assign (fun o => set_t_toad (t_toad o ++ [v]) o))
  else if case [Py.lower "TOAD Activation Foil Radius"] then
    v <- item_float split_list 1 ;; assign (set_r_toad v)

  else if case [Py.lower "Holder Material"] then
    v <- item split_list 1 ;; assign (set_holder_mat v)
  else if case [Py.lower "Holder Fill Material"] then
    v <- item split_list 1 ;; assign (set_h_fill_mat v)
  else if case [Py.lower "Holder Wall Thickness"] then
    v <- item_float split_list 1 ;; assign (set_t_h v)

  else if case [Py.lower "Max Vertical Components"] then
    v <- item_int split_list 1 ;; assign (set_max_vert v)
  else if case [Py.lower "Max Horizontal Components"] then
    v <- item_int split_list 1 ;; assign (set_max_horiz v)

  else if case ["/"] then
    ret tt
  else if case [] then
    token <- item split_list 0 ;; logging (warning_input token)
  else
    ret tt.

(** One line of the constraints file. *)
Definition read_constraints_line (line : string) : M unit :=
  let split_list := Py.split "," line in
  value <- item split_list 0 ;;
  for_each (Switch (Py.lower value)) (read_constraints_case split_list).

(** The [try] block of [read_constraints]. *)
Definition read_constraints_try (fs : Py.filesystem) (filename : string) : M unit :=
  content <- open fs filename ;;
  for_each (Py.readlines content) read_constraints_line ;;
  close.

(** The loop that looks the fissile material up among the TOAD foils,
    [for i in range(0,len(self.toad_mat_f)): if self.toad_mat_f[i]==self.fissile_mat: ind=i];
    [ind] is [None] while the local variable is unbound. *)
Fixpoint find_ind (toad_mat_f : list string) (fissile_mat : string) (i : Z)
    (ind : option Z) : option Z :=
  match toad_mat_f with
  | [] => ind
  | x :: rest =>
      find_ind rest fissile_mat (i + 1) (if String.eqb x fissile_mat then Some i else ind)
  end.

(** Reading the local variable [ind]. *)
Definition load_ind (ind : option Z) : Py.outcome Z :=
  match ind with
  | Some i => Py.Return i
  | None => Py.Raise Py.UnboundLocalError
  end.

(** The last four lines of [read_constraints]. *)
Definition calculate_fissions {libm : Py.Libm} : M unit :=
  o <- get ;;
  let ind := find_ind (toad_mat_f o) (fissile_mat o) 0 None in
  v <- eval (fissions_per_source Py.getitem (min_fiss o) (src o) (r_toad o)
               (t_toad o) (load_ind ind)) ;;
  assign (set_min_fiss v).

Definition read_constraints {libm : Py.Libm} (fs : Py.filesystem) (filename : string) : M unit :=
  try_except_IOError
    (read_constraints_try fs filename)
    (fun errno strerror =>
       logging (error_io errno strerror) ;;
       logging (error_file filename)) ;;
  assert_closed ;;
  calculate_fissions.

End ETA_Utilities.

(** * Vocabulary of the properties

    The definitions below do not come from the code: they name what the
    properties talk about. *)

Import ETA_Utilities.
Import ETA_Utilities.Notations.
Import Py.Notations.

(** ** Lines and tokens *)

(** The first token of a line, trimmed: [split_list[0].strip()]. *)
Definition first_token (line : string) : string :=
  Py.strip (hd EmptyString (Py.split "," line)).

(** The keyword a line carries: its first token, trimmed and case-folded. *)
Definition line_keyword (line : string) : string := Py.lower (first_token line).

(** ** The dispatch table

    The design document describes [read_constraints] as a table from
    keywords to attributes.  The table is written down here, one entry per
    keyword, to state what a line assigns; the chain of cases of the code is
    compared with it in the proofs. *)

Inductive keyword : Type :=
| Minimum_Fissions
| ETA_Max_Weight
| Source_Strength
| TCC_to_ETA_Distance
| Debris_Shield_Thickness
| ETA_Wall_Thickness
| Snout_Distance
| ETA_Back_Cover_Thickness
| ETA_to_Snout_Mount_Thickness
| ETA_Face_Radius
| ETA_Cone_Outer_Radius
| ETA_Cone_Opening_Angle
| Debris_Shield_Material
| ETA_Structural_Material
| ETA_Void_Fill_Material
| Fissile_Foil
| NAS_Thickness
| NAS_Radius
| NAS_Material
| NAS_Activation_Foils
| NAS_Activation_Foil_Thickness
| NAS_Activation_Foil_Radius
| TOAD_Follows_Material
| TOAD_Material
| TOAD_Activation_Foils
| TOAD_Activation_Foil_Thickness
| TOAD_Activation_Foil_Radius
| Holder_Material
| Holder_Fill_Material
| Holder_Wall_Thickness
| Max_Vertical_Components
| Max_Horizontal_Components.

Definition all_keywords : list keyword := [
  Minimum_Fissions; ETA_Max_Weight; Source_Strength; TCC_to_ETA_Distance;
  Debris_Shield_Thickness; ETA_Wall_Thickness; Snout_Distance;
  ETA_Back_Cover_Thickness; ETA_to_Snout_Mount_Thickness; ETA_Face_Radius;
  ETA_Cone_Outer_Radius; ETA_Cone_Opening_Angle; Debris_Shield_Material;
  ETA_Structural_Material; ETA_Void_Fill_Material; Fissile_Foil;
  NAS_Thickness; NAS_Radius; NAS_Material; NAS_Activation_Foils;
  NAS_Activation_Foil_Thickness; NAS_Activation_Foil_Radius;
  TOAD_Follows_Material; TOAD_Material; TOAD_Activation_Foils;
  TOAD_Activation_Foil_Thickness; TOAD_Activation_Foil_Radius;
  Holder_Material; Holder_Fill_Material; Holder_Wall_Thickness;
  Max_Vertical_Components; Max_Horizontal_Components
].

(** The keyword as the constraints file spells it. *)
Definition keyword_text (k : keyword) : string :=
  match k with
  | Minimum_Fissions => "Minimum Fissions"
  | ETA_Max_Weight => "ETA Max Weight"
  | Source_Strength => "Source Strength"
  | TCC_to_ETA_Distance => "TCC to ETA Distance"
  | Debris_Shield_Thickness => "Debris Shield Thickness"
  | ETA_Wall_Thickness => "ETA Wall Thickness"
  | Snout_Distance => "Snout Distance"
  | ETA_Back_Cover_Thickness => "ETA Back Cover Thickness"
  | ETA_to_Snout_Mount_Thickness => "ETA to Snout Mount Thickness"
  | ETA_Face_Radius => "ETA Face Radius"
  | ETA_Cone_Outer_Radius => "ETA Cone Outer Radius"
  | ETA_Cone_Opening_Angle => "ETA Cone Opening Angle"
  | Debris_Shield_Material => "Debris Shield Material"
  | ETA_Structural_Material => "ETA Structural Material"
  | ETA_Void_Fill_Material => "ETA Void Fill Material"
  | Fissile_Foil => "Fissile Foil"
  | NAS_Thickness => "NAS Thickness"
  | NAS_Radius => "NAS Radius"
  | NAS_Material => "NAS Material"
  | NAS_Activation_Foils => "NAS Activation Foils"
  | NAS_Activation_Foil_Thickness => "NAS Activation Foil Thickness"
  | NAS_Activation_Foil_Radius => "NAS Activation Foil Radius"
  | TOAD_Follows_Material => "TOAD Follows Material"
  | TOAD_Material => "TOAD Material"
  | TOAD_Activation_Foils => "TOAD Activation Foils"
  | TOAD_Activation_Foil_Thickness => "TOAD Activation Foil Thickness"
  | TOAD_Activation_Foil_Radius => "TOAD Activation Foil Radius"
  | Holder_Material => "Holder Material"
  | Holder_Fill_Material => "Holder Fill Material"
  | Holder_Wall_Thickness => "Holder Wall Thickness"
  | Max_Vertical_Components => "Max Vertical Components"
  | Max_Horizontal_Components => "Max Horizontal Components"
  end.

(** The values the attributes named by keywords take. *)
Inductive value : Type :=
| VFloat (x : float)
| VInt (z : Z)
| VStr (s : string)
| VFloats (l : list float)
| VStrs (l : list string).

(** The attribute a keyword names. *)
Definition attribute (k : keyword) (o : ETA_Parameters) : value :=
  match k with
  | Minimum_Fissions => VFloat (min_fiss o)
  | ETA_Max_Weight => VFloat (max_weight o)
  | Source_Strength => VFloat (src o)
  | TCC_to_ETA_Distance => VFloat (tcc_dist o)
  | Debris_Shield_Thickness => VFloat (t_ds o)
  | ETA_Wall_Thickness => VFloat (t_w o)
  | Snout_Distance => VFloat (snout_dist o)
  | ETA_Back_Cover_Thickness => VFloat (t_c o)
  | ETA_to_Snout_Mount_Thickness => VFloat (t_m o)
  | ETA_Face_Radius => VFloat (r_f o)
  | ETA_Cone_Outer_Radius => VFloat (r_o o)
  | ETA_Cone_Opening_Angle => VFloat (theta o)
  | Debris_Shield_Material => VStr (ds_mat o)
  | ETA_Structural_Material => VStr (struct_mat o)
  | ETA_Void_Fill_Material => VStr (fill_mat o)
  | Fissile_Foil => VStr (fissile_mat o)
  | NAS_Thickness => VFloat (t_nas o)
  | NAS_Radius => VFloat (r_nas o)
  | NAS_Material => VStr (nas_mat o)
  | NAS_Activation_Foils => VStrs (nas_mat_f o)
  | NAS_Activation_Foil_Thickness => VFloats (t_nas_f o)
  | NAS_Activation_Foil_Radius => VFloat (r_nas_f o)
  | TOAD_Follows_Material => VStr (toad_loc o)
  | TOAD_Material => VStr (toad_mat o)
  | TOAD_Activation_Foils => VStrs (toad_mat_f o)
  | TOAD_Activation_Foil_Thickness => VFloats (t_toad o)
  | TOAD_Activation_Foil_Radius => VFloat (r_toad o)
  | Holder_Material => VStr (holder_mat o)
  | Holder_Fill_Material => VStr (h_fill_mat o)
  | Holder_Wall_Thickness => VFloat (t_h o)
  | Max_Vertical_Components => VInt (max_vert o)
  | Max_Horizontal_Components => VInt (max_horiz o)
  end.

(** The kinds of value a line can carry: one number, one integer, one name,
    or a list of numbers or names as long as the line has tokens left. *)
Inductive kind : Type := KFloat | KInt | KStr | KFloats | KStrs.

Definition keyword_kind (k : keyword) : kind :=
  match k with
  | Max_Vertical_Components | Max_Horizontal_Components => KInt
  | Debris_Shield_Material | ETA_Structural_Material | ETA_Void_Fill_Material
  | Fissile_Foil | NAS_Material | TOAD_Follows_Material | TOAD_Material
  | Holder_Material | Holder_Fill_Material => KStr
  | NAS_Activation_Foil_Thickness | TOAD_Activation_Foil_Thickness => KFloats
  | NAS_Activation_Foils | TOAD_Activation_Foils => KStrs
  | _ => KFloat
  end.

(** Converting every token of a list, stopping at the first that fails. *)
Fixpoint traverse {X : Type} (conv : string -> Py.outcome X) (tokens : list string)
    : Py.outcome (list X) :=
  match tokens with
  | [] => Py.Return []
  | t :: tokens' =>
      x <~ conv t ;;
      xs <~ traverse conv tokens' ;;
      Py.Return (x :: xs)
  end.

(** What the value tokens of a line denote for a keyword: for a scalar the
    token after the keyword, for a list every token after the keyword. *)
Definition line_value (k : keyword) (split_list : list string) : Py.outcome value :=
  match keyword_kind k with
  | KFloat =>
      t <~ Py.getitem split_list 1 ;; x <~ Py.float (Py.strip t) ;; Py.Return (VFloat x)
  | KInt =>
      t <~ Py.getitem split_list 1 ;; z <~ Py.int (Py.strip t) ;; Py.Return (VInt z)
  | KStr =>
      t <~ Py.getitem split_list 1 ;; Py.Return (VStr (Py.strip t))
  | KFloats =>
      l <~ traverse (fun t => Py.float (Py.strip t)) (tl split_list) ;;
      Py.Return (VFloats l)
  | KStrs =>
      Py.Return (VStrs (map Py.strip (tl split_list)))
  end.

(** Whether a line carries the keyword [k]. *)
Definition carries (k : keyword) (line : string) : bool :=
  String.eqb (line_keyword line) (Py.lower (keyword_text k)).

(** Whether a trimmed, case-folded first token names a keyword. *)
Definition recognized (value : string) : bool :=
  existsb (fun k => String.eqb value (Py.lower (keyword_text k))) all_keywords.

(** The number of entries of a list-valued attribute. *)
Definition entries (v : value) : nat :=
  match v with
  | VFloats l => List.length l
  | VStrs l => List.length l
  | _ => 0%nat
  end.

(** The number of value tokens on the last of the lines that carry [k], or
    [before] if none does. *)
Definition value_tokens (k : keyword) (lines : list string) (before : nat) : nat :=
  fold_left
    (fun n line => if carries k line then List.length (tl (Py.split "," line)) else n)
    lines before.

(** ** The states of a parse *)

(** A computation that never raises [IOError]: the [except] clause of the
    readers does not apply to it. *)
Definition no_IOError {A} (c : M A) : Prop :=
  forall s e s',
    c s = (Py.Raise e, s') -> forall errno strerror, e <> Py.IOError errno strerror.

(** The state once the handler has logged that the file could not be
    opened: the object is untouched. *)
Definition logged_failure (errno : Z) (strerror filename : string) (s : state) : state :=
  State (self s) (log s ++ [error_io errno strerror; error_file filename]).


(** The index [read_constraints] resolves, when it resolves one: the last
    at which the fissile material stands among the TOAD foil materials. *)
Definition last_index (toad_mat_f : list string) (fissile_mat : string) (n : nat) : Prop :=
  nth_error toad_mat_f n = Some fissile_mat /\
  forall j, (n < j)%nat -> nth_error toad_mat_f j <> Some fissile_mat.

(** The closed form of the closing computation,
    [min_fiss/(src*r_toad**2*pi*t)], for the value [r2] of [r_toad**2]. *)
Definition normalized (min_fiss src r2 t : float) : float :=
  (min_fiss / (src * r2 * Py.pi * t))%float.

(** ** Scaling by two in binary64 *)






(** ** Example inputs *)

(** A text file with the given lines, each ended by a line feed. *)
Fixpoint unlines (l : list string) : string :=
  match l with
  | [] => EmptyString
  | x :: l' => (x ++ String "010" (unlines l'))%string
  end.

(** A file system that holds one file. *)
Definition single_file (name content : string) : Py.filesystem :=
  fun filename =>
    if String.eqb filename name then Py.Opened content
    else Py.Failed 2 "No such file or directory".

(** A constraints file that names the NAS foils twice. *)
Definition foils_twice : string :=
  unlines ["NAS Activation Foils,Zr,Zn"; "ETA Max Weight,90";
           "NAS Activation Foils,In,Al,Ta"; "Source Strength,1e15"].



(** The constructor called with its defaults except for the foil lists:
    [ETA_Parameters(nas_foil_mat=..., toad_foil_th=..., toad_foil_mat=...)]. *)
Definition with_foils (nas_foil_mat : list string) (toad_foil_th : list float)
    (toad_foil_mat : list string) : kw.args :=
  let d := kw.defaults in
  kw.Build_args
    (kw.spectrum_type d) (kw.spectrum d) (kw.min_fiss d) (kw.max_weight d)
    (kw.src d) (kw.tcc_dist d) (kw.debris_shield_thickness d)
    (kw.wall_thickness d) (kw.snout_dist d) (kw.cover_thickness d)
    (kw.mount_thickness d) (kw.face_radius d) (kw.eta_or d) (kw.cone_angle d)
    (kw.debris_shield_mat d) (kw.struct_mat d) (kw.fill_mat d)
    (kw.fissile_mat d) (kw.nas_th d) (kw.nas_r d) (kw.nas_mat d)
    (kw.nas_foil_th d) (kw.nas_foil_r d) nas_foil_mat (kw.toad_loc d)
    (kw.toad_mat d) toad_foil_th (kw.toad_foil_r d) toad_foil_mat
    (kw.holder_mat d) (kw.holder_fill_mat d) (kw.holder_thickness d)
    (kw.max_vert d) (kw.max_horiz d).

(** [ETA_Parameters(toad_foil_mat=['Pb','Au'])]: the default fissile
    material ['Pb'] is the first of the two TOAD foils. *)
Definition fissile_foil_first : kw.args :=
  with_foils (kw.nas_foil_mat kw.defaults) (kw.toad_foil_th kw.defaults) ["Pb"; "Au"].

(** [ETA_Parameters(toad_foil_th=[0.01,0.02,0.03], toad_foil_mat=['Pb','Au','In'])]:
    the default fissile material ['Pb'] is the first of three TOAD foils. *)
Definition fissile_foil_of_three : kw.args :=
  with_foils (kw.nas_foil_mat kw.defaults) [0.01; 0.02; 0.03]%float ["Pb"; "Au"; "In"].

(** [ETA_Parameters(toad_foil_th=[], toad_foil_mat=[])]: no TOAD foils. *)
Definition no_toad_foils : kw.args :=
  with_foils (kw.nas_foil_mat kw.defaults) [] [].

(** [ETA_Parameters(nas_foil_mat=['Zr'])]: one NAS material for five NAS
    thicknesses. *)
Definition one_nas_material : kw.args :=
  with_foils ["Zr"] (kw.toad_foil_th kw.defaults) (kw.toad_foil_mat kw.defaults).

(** The object the constructor builds from its arguments and the value [v]
    it computes for [min_fiss]. *)
Definition constructed (a : kw.args) (v : float) : ETA_Parameters :=
  Build_ETA_Parameters
    (kw.spectrum_type a) (kw.spectrum a) (kw.max_weight a) (kw.src a)
    (kw.tcc_dist a) (kw.debris_shield_thickness a) (kw.wall_thickness a)
    (kw.snout_dist a) (kw.cover_thickness a) (kw.mount_thickness a)
    (kw.face_radius a) (kw.eta_or a) (kw.cone_angle a)
    (kw.debris_shield_mat a) (kw.struct_mat a) (kw.fill_mat a)
    (kw.fissile_mat a) (kw.nas_th a) (kw.nas_r a) (kw.nas_mat a)
    (kw.nas_foil_th a) (kw.nas_foil_r a) (kw.nas_foil_mat a) (kw.toad_loc a)
    (kw.toad_mat a) (kw.toad_foil_th a) (kw.toad_foil_r a)
    (kw.toad_foil_mat a) (kw.holder_mat a) (kw.holder_fill_mat a)
    (kw.holder_thickness a) (kw.max_vert a) (kw.max_horiz a)
    v None.

(** The object [ETA_Parameters()] returns, written out. *)
Definition default_object {libm : Py.Libm} : ETA_Parameters := {|
  spectrum_type := "normalized differential";
  spectrum := [];
  max_weight := 125.0;
  src := 5E15;
  tcc_dist := 15.24;
  t_ds := 0.3;
  t_w := 0.5;
  snout_dist := 52.14;
  t_c := 1.0;
  t_m := 2.4;
  r_f := 5.48;
  r_o := 9.39;
  theta := 70.22;
  ds_mat := "Al";
  struct_mat := "Al";
  fill_mat := "Air (dry near sea level)";
  fissile_mat := "Pb";
  t_nas := 0.014;
  r_nas := 2.69;
  nas_mat := "Al";
  t_nas_f := [0.1; 0.1; 0.1; 0.1; 0.01]%float;
  r_nas_f := 2.5;
  nas_mat_f := ["Zr"; "Zn"; "In"; "Al"; "Ta"];
  toad_loc := "In";
  toad_mat := "Al";
  t_toad := [0.0254; 0.0127]%float;
  r_toad := 1.252;
  toad_mat_f := ["Au"; "Pb"];
  holder_mat := "Al";
  h_fill_mat := "Fe";
  t_h := 2.0;
  max_vert := 3;
  max_horiz := 7;
  min_fiss := (5E8 / (5E15 * Py.pow 1.252 2 * Py.pi * 0.0127))%float;
  f := None
|}.

(** * Vocabulary of the further properties *)

(** ** The table reading of a line *)

(** Assigning a value to the attribute a keyword names; a value of another
    kind than the attribute's assigns nothing. *)
Definition put (k : keyword) (v : value) (o : ETA_Parameters) : ETA_Parameters :=
  match k, v with
  | Minimum_Fissions, VFloat x => set_min_fiss x o
  | ETA_Max_Weight, VFloat x => set_max_weight x o
  | Source_Strength, VFloat x => set_src x o
  | TCC_to_ETA_Distance, VFloat x => set_tcc_dist x o
  | Debris_Shield_Thickness, VFloat x => set_t_ds x o
  | ETA_Wall_Thickness, VFloat x => set_t_w x o
  | Snout_Distance, VFloat x => set_snout_dist x o
  | ETA_Back_Cover_Thickness, VFloat x => set_t_c x o
  | ETA_to_Snout_Mount_Thickness, VFloat x => set_t_m x o
  | ETA_Face_Radius, VFloat x => set_r_f x o
  | ETA_Cone_Outer_Radius, VFloat x => set_r_o x o
  | ETA_Cone_Opening_Angle, VFloat x => set_theta x o
  | Debris_Shield_Material, VStr x => set_ds_mat x o
  | ETA_Structural_Material, VStr x => set_struct_mat x o
  | ETA_Void_Fill_Material, VStr x => set_fill_mat x o
  | Fissile_Foil, VStr x => set_fissile_mat x o
  | NAS_Thickness, VFloat x => set_t_nas x o
  | NAS_Radius, VFloat x => set_r_nas x o
  | NAS_Material, VStr x => set_nas_mat x o
  | NAS_Activation_Foils, VStrs x => set_nas_mat_f x o
  | NAS_Activation_Foil_Thickness, VFloats x => set_t_nas_f x o
  | NAS_Activation_Foil_Radius, VFloat x => set_r_nas_f x o
  | TOAD_Follows_Material, VStr x => set_toad_loc x o
  | TOAD_Material, VStr x => set_toad_mat x o
  | TOAD_Activation_Foils, VStrs x => set_toad_mat_f x o
  | TOAD_Activation_Foil_Thickness, VFloats x => set_t_toad x o
  | TOAD_Activation_Foil_Radius, VFloat x => set_r_toad x o
  | Holder_Material, VStr x => set_holder_mat x o
  | Holder_Fill_Material, VStr x => set_h_fill_mat x o
  | Holder_Wall_Thickness, VFloat x => set_t_h x o
  | Max_Vertical_Components, VInt x => set_max_vert x o
  | Max_Horizontal_Components, VInt x => set_max_horiz x o
  | _, _ => o
  end.

(** Converting the tokens of a list one after the other: the values
    converted before the first token that fails, and that failure if there
    is one. *)
Fixpoint convert_until {X : Type} (conv : string -> Py.outcome X) (tokens : list string)
    : list X * option Py.exn :=
  match tokens with
  | [] => ([], None)
  | t :: tokens' =>
      match conv t with
      | Py.Return x =>
          let (xs, e) := convert_until conv tokens' in (x :: xs, e)
      | Py.Raise e => ([], Some e)
      end
  end.

(** How a loop that stopped at a failure, or did not, ends. *)
Definition ended (e : option Py.exn) : Py.outcome unit :=
  match e with
  | None => Py.Return tt
  | Some e => Py.Raise e
  end.

(** What a table from keywords to attributes does with the line of keyword
    [k]: a scalar is converted and then assigned, or nothing is assigned; a
    list is emptied and filled token by token, as far as the tokens
    convert. *)
Definition table_line (k : keyword) (split_list : list string) : M unit :=
  fun s =>
    match keyword_kind k with
    | KFloats =>
        let (vs, e) := convert_until (fun t => Py.float (Py.strip t)) (tl split_list) in
        (ended e, State (put k (VFloats vs) (self s)) (log s))
    | KStrs =>
        (Py.Return tt, State (put k (VStrs (map Py.strip (tl split_list))) (self s)) (log s))
    | _ =>
        match line_value k split_list with
        | Py.Return v => (Py.Return tt, State (put k v (self s)) (log s))
        | Py.Raise e => (Py.Raise e, s)
        end
    end.

(** The keyword of the table a line carries, if any. *)
Definition lookup (line : string) : option keyword :=
  find (fun k => carries k line) all_keywords.

(** The whole table: the line of a keyword, a comment, or anything else,
    which is reported. *)
Definition table_dispatch (line : string) : M unit :=
  fun s =>
    match lookup line with
    | Some k => table_line k (Py.split "," line) s
    | None =>
        if String.eqb (line_keyword line) "/" then (Py.Return tt, s)
        else (Py.Return tt, State (self s) (log s ++ [warning_input (first_token line)]))
    end.

(** The warnings a list of lines earns: one for each line that carries
    neither a keyword nor the comment mark, in order. *)
Definition warnings (lines : list string) : list log_record :=
  map (fun line => warning_input (first_token line))
    (filter (fun line =>
               negb (recognized (line_keyword line))
               && negb (String.eqb (line_keyword line) "/"))
       lines).

(** ** Rows of the spectrum file *)

(** What a row of the spectrum file denotes: its first two tokens as
    numbers. *)
Definition row_value (line : string) : Py.outcome (float * float) :=
  let split_list := Py.split "," line in
  t0 <~ Py.getitem split_list 0 ;;
  e <~ Py.float (Py.strip t0) ;;
  t1 <~ Py.getitem split_list 1 ;;
  flux <~ Py.float (Py.strip t1) ;;
  Py.Return (e, flux).

(** ** Numbers *)

(** Zero or a finite number: neither an infinity nor a NaN. *)
Definition is_finite_value (x : float) : bool :=
  match Prim2SF x with
  | S754_zero _ | S754_finite _ _ _ => true
  | _ => false
  end.

(** Whether the attribute of a keyword holds one value rather than a list. *)
Definition scalar (k : keyword) : bool :=
  match keyword_kind k with
  | KFloats | KStrs => false
  | _ => true
  end.

(** ** Further example inputs *)

(** [ETA_Parameters(nas_foil_mat=['Zr'], toad_foil_mat=['Au'])]: one NAS
    material for five NAS thicknesses, and one TOAD material for two TOAD
    thicknesses. *)
Definition lists_both_unequal : kw.args :=
  with_foils ["Zr"] (kw.toad_foil_th kw.defaults) ["Au"].

(** [ETA_Parameters(src=0.0)] *)
Definition zero_source : kw.args :=
  let d := kw.defaults in
  kw.Build_args
    (kw.spectrum_type d) (kw.spectrum d) (kw.min_fiss d) (kw.max_weight d)
    0 (kw.tcc_dist d) (kw.debris_shield_thickness d)
    (kw.wall_thickness d) (kw.snout_dist d) (kw.cover_thickness d)
    (kw.mount_thickness d) (kw.face_radius d) (kw.eta_or d) (kw.cone_angle d)
    (kw.debris_shield_mat d) (kw.struct_mat d) (kw.fill_mat d)
    (kw.fissile_mat d) (kw.nas_th d) (kw.nas_r d) (kw.nas_mat d)
    (kw.nas_foil_th d) (kw.nas_foil_r d) (kw.nas_foil_mat d) (kw.toad_loc d)
    (kw.toad_mat d) (kw.toad_foil_th d) (kw.toad_foil_r d) (kw.toad_foil_mat d)
    (kw.holder_mat d) (kw.holder_fill_mat d) (kw.holder_thickness d)
    (kw.max_vert d) (kw.max_horiz d).

(** * Properties *)

Local Open Scope float_scope.
Local Open Scope string_scope.
Local Open Scope list_scope.
Local Open Scope Z_scope.

(** ** The built-ins on small inputs *)

Example strip_then_lower : Py.lower (Py.strip "  ETA Max Weight ") = "eta max weight".
Proof. reflexivity. Qed.

Example split_on_commas :
  Py.split "," "TOAD Activation Foils,Au,Pb" = ["TOAD Activation Foils"; "Au"; "Pb"] /\
  Py.split "," "" = [""].
Proof. split; reflexivity. Qed.

Example strip_takes_separators_and_blanks :
  Py.strip (String "031" "ETA Max Weight" ++ String "133" (String "160" ""))%string
  = "ETA Max Weight" /\
  Py.lower (String "192" "B") = String "224" "b".
Proof. split; reflexivity. Qed.

Example readlines_keeps_line_feeds :
  Py.readlines (unlines ["a,1"; ""] ++ "b")%string = [unlines ["a,1"]; unlines [""]; "b"].
Proof. reflexivity. Qed.

Example readlines_universal_newlines :
  Py.readlines (String "a" (String "013" (String "b" (String "013" (String "010" "c")))))
  = [unlines ["a"]; unlines ["b"]; "c"].
Proof. reflexivity. Qed.

Example float_accepts :
  map Py.float ["100.0"; " 1.0 "; "5E15"; ".5"; "2."; "-Inf"; "2e308"; "0.1"]
  = map Py.Return
      [100; 1; 5e15; 0.5; 2; neg_infinity; infinity; 0x1.999999999999ap-4]%float.
Proof. vm_compute. reflexivity. Qed.

Example float_rejects :
  map Py.float [""; "."; "1e"; "1 0"; "0x10"; "Al"; "1__0"; "1_"; "_1"; "1_.5";
                String "1" (String "031" "")]
  = map (fun _ => Py.Raise Py.ValueError) [1; 2; 3; 4; 5; 6; 7; 8; 9; 10; 11].
Proof. vm_compute. reflexivity. Qed.

Example float_digit_grouping :
  map Py.float ["1_0.5"; "1e1_0"; String "160" "1_000"]
  = map Py.Return [10.5; 1e10; 1000]%float.
Proof. vm_compute. reflexivity. Qed.

Example int_accepts_and_rejects :
  map Py.int [" 7"; "-12"; "1_000"; "3.0"; ""; "1__0"]
  = [Py.Return 7; Py.Return (-12); Py.Return 1000;
     Py.Raise Py.ValueError; Py.Raise Py.ValueError; Py.Raise Py.ValueError].
Proof. reflexivity. Qed.

Example getitem_counts_from_the_end :
  Py.getitem [10; 20; 30] (-1) = Py.Return 30 /\
  Py.getitem [10; 20; 30] 3 = Py.Raise Py.IndexError /\
  Py.getitem (@nil Z) (-1) = Py.Raise Py.IndexError.
Proof. repeat split; reflexivity. Qed.

Example pow2_and_truediv :
  Py.pow2 (libm := Py.correctly_rounded) 1.252 = Py.Return 1.567504%float /\
  Py.pow2 (libm := Py.correctly_rounded) (-1.252) = Py.Return 1.567504%float /\
  Py.pow2 (libm := Py.correctly_rounded) 1e200 = Py.Raise Py.OverflowError /\
  Py.pow2 (libm := Py.correctly_rounded) neg_infinity = Py.Return infinity /\
  Py.truediv 1 0 = Py.Raise Py.ZeroDivisionError.
Proof. repeat split; vm_compute; reflexivity. Qed.

(** ** Helper lemmas: Python built-ins *)

Lemma obind_Return {A B} (x : Py.outcome A) (k : A -> Py.outcome B) (b : B) :
  Py.obind x k = Py.Return b -> exists a, x = Py.Return a /\ k a = Py.Return b.
Proof.
  destruct x as [a|e]; simpl; intros H; [exists a; auto | discriminate].
Qed.

Lemma getitem_Return {A} (l : list A) (i : Z) (a : A) :
  Py.getitem l i = Py.Return a ->
  let j := if i <? 0 then i + Z.of_nat (List.length l) else i in
  0 <= j < Z.of_nat (List.length l) /\ nth_error l (Z.to_nat j) = Some a.
Proof.
  unfold Py.getitem. cbv zeta.
  destruct (_ || _) eqn:Hrange; [discriminate|].
  apply orb_false_iff in Hrange. destruct Hrange as [H1 H2].
  destruct (nth_error _ _) eqn:Hnth; [|discriminate].
  intros [= ->]. split; [lia | reflexivity].
Qed.

Lemma getitem_last {A} (l : list A) (a : A) :
  Py.getitem l (-1) = Py.Return a -> exists front, l = front ++ [a].
Proof.
  intros H. apply getitem_Return in H. cbv zeta in H.
  change (-1 <? 0) with true in H. cbv iota in H. destruct H as [Hj Hnth].
  destruct (exists_last (l := l)) as (front & x & ->).
  { intros ->. simpl in Hj. lia. }
  exists front. f_equal.
  rewrite length_app in Hnth. simpl List.length in Hnth.
  replace (Z.to_nat (-1 + Z.of_nat (List.length front + 1))) with (List.length front) in Hnth by lia.
  rewrite nth_error_app2, Nat.sub_diag in Hnth by lia.
  simpl in Hnth. congruence.
Qed.

Lemma truediv_Return (x y q : float) :
  Py.truediv x y = Py.Return q -> q = (x / y)%float /\ (y =? 0)%float = false.
Proof.
  unfold Py.truediv. destruct (y =? 0)%float; [discriminate | intros [= <-]; auto].
Qed.

Lemma truediv_nonzero (x y : float) :
  (y =? 0)%float = false -> Py.truediv x y = Py.Return (x / y)%float.
Proof. unfold Py.truediv. intros ->. reflexivity. Qed.

(** Two concrete floats differ: their comparison evaluates to [false]. *)
Ltac float_neq :=
  let H := fresh "H" in
  intro H;
  match type of H with
  | ?x = ?y => apply (f_equal (fun v => PrimFloat.eqb v y)) in H
  end;
  vm_compute in H; discriminate H.

(** ** The square of the foil radius *)

Section Square.

Context {libm : Py.Libm}.

(** Away from nan, the infinities, zero and one, [x ** 2] is what [pow]
    gives for the absolute value, unless that overflowed. *)
Lemma pow2_calls_pow (x : float) :
  is_nan x = false -> is_infinity x = false ->
  (x =? 0)%float = false -> (abs x =? 1)%float = false ->
  is_infinity (Py.pow (abs x) 2) = false ->
  Py.pow2 x = Py.Return (Py.pow (abs x) 2).
Proof.
  unfold Py.pow2. intros -> -> -> ->. cbv zeta. intros ->. reflexivity.
Qed.

(** The square of the default TOAD foil radius: one of three numbers,
    whichever the C library is. *)
Lemma pow2_default_radius :
  Py.pow2 1.252 = Py.Return (Py.pow 1.252 2) /\
  (Py.pow 1.252 2 = 0x1.9147f13059642p+0 \/
   Py.pow 1.252 2 = 0x1.9147f13059643p+0 \/
   Py.pow 1.252 2 = 0x1.9147f13059641p+0)%float.
Proof.
  assert (Hcases :
    (Py.pow 1.252 2 = 0x1.9147f13059642p+0 \/
     Py.pow 1.252 2 = 0x1.9147f13059643p+0 \/
     Py.pow 1.252 2 = 0x1.9147f13059641p+0)%float).
  { destruct (Py.pow_square 1.252) as [H | [H | H]]; rewrite H;
      [left | right; left | right; right]; vm_compute; reflexivity. }
  split; [|exact Hcases].
  change 1.252%float with (abs 1.252) at 2.
  apply pow2_calls_pow; try (vm_compute; reflexivity).
  change (abs 1.252) with 1.252%float.
  destruct Hcases as [H | [H | H]]; rewrite H; vm_compute; reflexivity.
Qed.

End Square.

(** ** The constructor *)

(** No pair produced by [enumerate] equals a string, so the generator in the
    constructor is always empty. *)
Lemma enumerate_never_matches (fissile_mat : string) (l : list string) (i : Z) :
  filter (fun p => Py.eq p (Py.PyStr fissile_mat)) (Py.enumerate_from i l) = [].
Proof.
  revert i. induction l as [|x l IH]; intros i; simpl; [reflexivity | apply IH].
Qed.

Lemma init_ind_default (toad_mat_f : list string) (fissile_mat : string) :
  init_ind toad_mat_f fissile_mat = Py.PyInt (-1).
Proof.
  unfold init_ind, Py.enumerate. rewrite enumerate_never_matches. reflexivity.
Qed.

Section Constructor.

Context {libm : Py.Libm}.

(** What a successful construction has computed. *)
Lemma init_Return (a : kw.args) (o : ETA_Parameters) :
  __init__ a = Py.Return o ->
  List.length (kw.nas_foil_th a) = List.length (kw.nas_foil_mat a) /\
  List.length (kw.toad_foil_th a) = List.length (kw.toad_foil_mat a) /\
  exists front t r2,
    kw.toad_foil_th a = front ++ [t] /\
    Py.pow2 (kw.toad_foil_r a) = Py.Return r2 /\
    o = constructed a (kw.min_fiss a / (kw.src a * r2 * Py.pi * t))%float.
Proof.
  unfold __init__, assert_. intros H.
  destruct (Nat.eqb _ _) eqn:Hnas in H; [|discriminate].
  destruct (Nat.eqb _ _) eqn:Htoad in H; [|discriminate].
  apply Nat.eqb_eq in Hnas, Htoad. simpl in H.
  rewrite init_ind_default in H.
  apply obind_Return in H. destruct H as (v & Hv & [= <-]).
  unfold fissions_per_source in Hv.
  apply obind_Return in Hv. destruct Hv as (r2 & Hr2 & Hv).
  simpl in Hv.
  apply obind_Return in Hv. destruct Hv as (t & Ht & Hv).
  apply getitem_last in Ht. destruct Ht as (front & Hfront).
  apply truediv_Return in Hv. destruct Hv as [-> _].
  repeat split; try assumption.
  exists front, t, r2. repeat split; assumption.
Qed.

(** A construction that goes through: the lists of each pair are equally
    long, the square of the radius does not overflow, there is a last TOAD
    foil thickness, and the divisor is not zero. *)
Lemma init_runs (a : kw.args) (r2 t : float) :
  List.length (kw.nas_foil_th a) = List.length (kw.nas_foil_mat a) ->
  List.length (kw.toad_foil_th a) = List.length (kw.toad_foil_mat a) ->
  Py.pow2 (kw.toad_foil_r a) = Py.Return r2 ->
  Py.getitem (kw.toad_foil_th a) (-1) = Py.Return t ->
  (kw.src a * r2 * Py.pi * t =? 0)%float = false ->
  __init__ a = Py.Return (constructed a (kw.min_fiss a / (kw.src a * r2 * Py.pi * t))%float).
Proof.
  intros Hnas Htoad Hr2 Ht Hd. unfold __init__, assert_.
  apply Nat.eqb_eq in Hnas, Htoad. rewrite Hnas, Htoad. cbn [Py.obind].
  rewrite init_ind_default. unfold fissions_per_source.
  cbn [src r_toad t_toad]. rewrite Hr2. cbn [Py.obind Py.getitem_obj].
  rewrite Ht. cbn [Py.obind]. rewrite (truediv_nonzero _ _ Hd). reflexivity.
Qed.

(** The divisor of the default construction is not zero, whichever of the
    three numbers the square of the radius is. *)
Lemma default_divisor_nonzero (t : float) :
  t = 0.0127%float \/ t = 0.0254%float \/ t = 0.03%float ->
  (5E15 * Py.pow 1.252 2 * Py.pi * t =? 0)%float = false.
Proof.
  intros Ht. destruct pow2_default_radius as [_ [H | [H | H]]]; rewrite H;
    destruct Ht as [-> | [-> | ->]]; vm_compute; reflexivity.
Qed.

Lemma init_defaults : __init__ kw.defaults = Py.Return default_object.
Proof.
  rewrite (init_runs kw.defaults (Py.pow 1.252 2) 0.0127);
    first [reflexivity | apply pow2_default_radius | apply default_divisor_nonzero; auto].
Qed.

(** C10: whatever the arguments, the constructor's lookup of the fissile
    material yields the fallback index -1, because it compares the pairs of
    [enumerate] with a string; a construction that succeeds has therefore
    divided by the last TOAD foil thickness, wherever (and whether) the
    fissile material occurs among the TOAD foil materials: [min_fiss] is the
    argument [min_fiss] divided by [src * r2 * pi * t], with [r2] the value
    of [toad_foil_r**2] and [t] the last element of [toad_foil_th]. *)
Theorem init_divides_by_last_thickness (a : kw.args) :
  init_ind (kw.toad_foil_mat a) (kw.fissile_mat a) = Py.PyInt (-1) /\
  forall o : ETA_Parameters,
    __init__ a = Py.Return o ->
    exists (front : list float) (t r2 : float),
      kw.toad_foil_th a = front ++ [t] /\
      Py.pow2 (kw.toad_foil_r a) = Py.Return r2 /\
      min_fiss o = (kw.min_fiss a / (kw.src a * r2 * Py.pi * t))%float.
Proof.
  split; [apply init_ind_default|].
  intros o H. apply init_Return in H.
  destruct H as (_ & _ & front & t & r2 & Hth & Hr2 & ->).
  exists front, t, r2. repeat split; assumption.
Qed.

End Constructor.

Section ConstructorExample.

#[local] Existing Instance Py.correctly_rounded.

(** [ETA_Parameters(toad_foil_th=[0.01,0.02,0.03], toad_foil_mat=['Pb','Au','In'])]:
    the fissile material is the first TOAD foil, 0.01 thick, and the
    constructor divides by the thickness 0.03 of the last. *)
Lemma init_divides_by_last_thickness_witness :
  nth_error (kw.toad_foil_mat fissile_foil_of_three) 0
    = Some (kw.fissile_mat fissile_foil_of_three) /\
  nth_error (kw.toad_foil_th fissile_foil_of_three) 0 = Some 0.01%float /\
  exists (o : ETA_Parameters) (r2 : float),
    __init__ fissile_foil_of_three = Py.Return o /\
    Py.pow2 (kw.toad_foil_r fissile_foil_of_three) = Py.Return r2 /\
    min_fiss o
    = (kw.min_fiss fissile_foil_of_three
       / (kw.src fissile_foil_of_three * r2 * Py.pi * 0.03))%float.
Proof.
  split; [reflexivity|]. split; [reflexivity|].
  assert (Hinit : exists o, __init__ fissile_foil_of_three = Py.Return o)
    by (eexists; vm_compute; reflexivity).
  destruct Hinit as [o Hinit]. exists o.
  destruct (proj2 (init_divides_by_last_thickness fissile_foil_of_three) o Hinit)
    as (front & t & r2 & Hth & Hr2 & Hmin).
  exists r2. split; [exact Hinit|]. split; [exact Hr2|].
  change (kw.toad_foil_th fissile_foil_of_three)
    with ([0.01; 0.02]%float ++ [0.03%float]) in Hth.
  apply app_inj_tail in Hth. destruct Hth as [_ Ht].
  rewrite Ht. exact Hmin.
Defined.

End ConstructorExample.

Section FissilePosition.

Context {libm : Py.Libm}.

(** C1, at [ETA_Parameters(toad_foil_mat=['Pb','Au'])]: the fissile material
    is the TOAD foil of index 0, whose thickness is 0.0254, and the
    constructor normalises by the thickness 0.0127 of the last foil,
    whichever of its values the C library gives the square [r2] of the
    radius 1.252. *)
Theorem init_ignores_fissile_position :
  nth_error (kw.toad_foil_mat fissile_foil_first) 0
    = Some (kw.fissile_mat fissile_foil_first) /\
  nth_error (kw.toad_foil_th fissile_foil_first) 0 = Some 0.0254%float /\
  exists (o : ETA_Parameters) (r2 : float),
    Py.pow2 1.252 = Py.Return r2 /\
    __init__ fissile_foil_first = Py.Return o /\
    min_fiss o = (5E8 / (5E15 * r2 * Py.pi * 0.0127))%float /\
    min_fiss o <> (5E8 / (5E15 * r2 * Py.pi * 0.0254))%float.
Proof.
  split; [reflexivity|]. split; [reflexivity|].
  destruct pow2_default_radius as [Hr2 Hcases].
  eexists. exists (Py.pow 1.252 2). split; [exact Hr2|].
  split.
  - apply (init_runs fissile_foil_first (Py.pow 1.252 2) 0.0127);
      first [reflexivity | exact Hr2 | apply default_divisor_nonzero; auto].
  - split; [reflexivity|].
    cbn [constructed min_fiss]. change (kw.min_fiss fissile_foil_first) with 5E8%float.
    change (kw.src fissile_foil_first) with 5E15%float.
    destruct Hcases as [H | [H | H]]; rewrite H; float_neq.
Qed.

End FissilePosition.

(** With a C library that rounds the square correctly, as the GNU C library
    does at the radius 1.252, the two numbers of C1 are 5E8 divided by
    5E15 * (1.252 * 1.252) * pi * 0.0127 and by the same with 0.0254. *)
Example init_ignores_fissile_position_rounded :
  exists o : ETA_Parameters,
    __init__ (libm := Py.correctly_rounded) fissile_foil_first = Py.Return o /\
    min_fiss o = (5E8 / (5E15 * (1.252 * 1.252) * Py.pi * 0.0127))%float /\
    min_fiss o <> (5E8 / (5E15 * (1.252 * 1.252) * Py.pi * 0.0254))%float.
Proof.
  eexists. split; [vm_compute; reflexivity|].
  split; [vm_compute; reflexivity | float_neq].
Qed.

(** ** Lines of the constraints file *)

Arguments item : simpl never.
Arguments item_float : simpl never.
Arguments item_int : simpl never.

Lemma bind_Return {A B} (c : M A) (k : A -> M B) (s s' : state) (b : B) :
  bind c k s = (Py.Return b, s') ->
  exists a s1, c s = (Py.Return a, s1) /\ k a s1 = (Py.Return b, s').
Proof.
  unfold bind. destruct (c s) as [[a|e] s1]; intros H; [eauto | discriminate].
Qed.

Lemma split_cons (sep : ascii) (s : string) :
  exists h t, Py.split sep s = h :: t.
Proof.
  destruct s as [|c s]; simpl; [eauto|].
  destruct (Ascii.eqb c sep); [eauto|].
  destruct (Py.split sep s); eauto.
Qed.

Lemma getitem_0 {A} (h : A) (t : list A) : Py.getitem (h :: t) 0 = Py.Return h.
Proof.
  unfold Py.getitem. cbv zeta.
  change (0 <? 0) with false. cbv iota.
  replace (Z.of_nat (List.length (h :: t)) <=? 0) with false
    by (symmetry; apply Z.leb_gt; simpl List.length; lia).
  reflexivity.
Qed.

(** The first token of a line always exists. *)
Lemma item_first_token (line : string) (s : state) :
  item (Py.split "," line) 0 s = (Py.Return (first_token line), s).
Proof.
  unfold item, eval, first_token.
  destruct (split_cons "," line) as (h & t & ->).
  rewrite getitem_0. reflexivity.
Qed.

Lemma lower_slash (rest : string) :
  Py.lower (String "/" rest) = String "/" (Py.lower rest).
Proof. reflexivity. Qed.

(** The comment case: a line whose first token is exactly [/]. *)
Lemma comment_line (line : string) (s : state) :
  first_token line = "/" ->
  read_constraints_line line s = (Py.Return tt, s).
Proof.
  intros Htok.
  unfold read_constraints_line, bind. rewrite item_first_token, Htok.
  destruct s; reflexivity.
Qed.

(** C8: a line whose first token, once trimmed, begins with [/] changes no
    attribute of the object, whatever follows on the line: it is either the
    comment case or, when more than the [/] stands in the token, the default
    case, which only logs a warning.  Processing the line returns
    normally. *)
Theorem comment_line_mutates_nothing (line rest : string) (s : state) :
  first_token line = String "/" rest ->
  exists log', read_constraints_line line s = (Py.Return tt, State (self s) log').
Proof.
  intros Htok.
  unfold read_constraints_line, bind. rewrite item_first_token, Htok, lower_slash.
  unfold Switch, for_each, bind, read_constraints_case.
  cbn [existsb Py.lower Py.lower_char String.eqb Ascii.eqb Bool.eqb N_of_ascii
       ascii_of_N N.leb N.compare Pos.compare Pos.compare_cont andb orb].
  destruct (String.eqb (Py.lower rest) "") eqn:Hrest.
  - exists (log s). destruct s; reflexivity.
  - cbn. unfold bind. rewrite item_first_token.
    exists (log s ++ [warning_input (first_token line)]). reflexivity.
Qed.

Section CommentExample.

#[local] Existing Instance Py.correctly_rounded.

Lemma comment_line_mutates_nothing_witness :
  first_token "/ heavier,ETA Max Weight,500" = String "/" " heavier" /\
  exists log',
    read_constraints_line "/ heavier,ETA Max Weight,500" (State default_object [])
      = (Py.Return tt, State default_object log').
Proof.
  split; [reflexivity|].
  exact (comment_line_mutates_nothing "/ heavier,ETA Max Weight,500" " heavier"
           (State default_object []) eq_refl).
Defined.

End CommentExample.

(** A line whose first token is neither a keyword nor the comment mark is
    reported once and changes nothing. *)
Lemma unrecognized_line (line : string) (s : state) :
  recognized (Py.lower (first_token line)) = false ->
  Py.lower (first_token line) <> "/" ->
  read_constraints_line line s
    = (Py.Return tt, State (self s) (log s ++ [warning_input (first_token line)])).
Proof.
  intros Hrec Hcomment.
  apply String.eqb_neq in Hcomment.
  unfold read_constraints_line, bind. rewrite item_first_token.
  unfold Switch, for_each, bind, read_constraints_case.
  unfold recognized, all_keywords in Hrec.
  cbn [keyword_text map existsb Py.lower Py.lower_char N_of_ascii ascii_of_N N.leb N.compare
       Pos.compare Pos.compare_cont andb N.add Pos.add Pos.succ] in Hrec |- *.
  repeat (apply orb_false_elim in Hrec; destruct Hrec as [? Hrec]).
  repeat match goal with
         | Hk : String.eqb _ _ = false |- _ => rewrite Hk; clear Hk
         end.
  cbn [orb]. unfold bind. rewrite item_first_token. reflexivity.
Qed.

(** ** Opening files *)

Lemma open_Opened (fs : Py.filesystem) (filename content : string) (s : state) :
  fs filename = Py.Opened content ->
  open fs filename s
    = (Py.Return content, State (set_f (Some (Py.File false)) (self s)) (log s)).
Proof. unfold open. intros ->. reflexivity. Qed.

Lemma open_Failed (fs : Py.filesystem) (filename : string) (errno : Z)
    (strerror : string) (s : state) :
  fs filename = Py.Failed errno strerror ->
  open fs filename s = (Py.Raise (Py.IOError errno strerror), s).
Proof. unfold open. intros ->. reflexivity. Qed.

(** ** read_obj *)

(** C7: a spectrum file whose first line is [normalized] and whose rows are
    [1.0,0.1] and [2.0,0.05], the last row ended by a line feed or not, is
    parsed to the end: afterwards [spectrum_type] is "normalized" and
    [spectrum] holds the two rows in file order; with the rows the other way
    round the spectrum is the other way round as well, so nothing is sorted.
    The file is left closed in [f]; no attribute named by a keyword changes
    and nothing is logged. *)
Theorem read_obj_keeps_file_order (fs : Py.filesystem) (filename content : string)
    (s : state) :
  fs filename = Py.Opened content ->
  (content = unlines ["normalized"; "1.0,0.1"; "2.0,0.05"] \/
   content = (unlines ["normalized"; "1.0,0.1"] ++ "2.0,0.05")%string ->
   exists s' : state,
     read_obj fs filename s = (Py.Return tt, s') /\
     spectrum_type (self s') = "normalized" /\
     spectrum (self s') = [(1.0, 0.1); (2.0, 0.05)]%float /\
     f (self s') = Some (Py.File true) /\
     (forall k, attribute k (self s') = attribute k (self s)) /\
     log s' = log s) /\
  (content = unlines ["normalized"; "2.0,0.05"; "1.0,0.1"] ->
   exists s' : state,
     read_obj fs filename s = (Py.Return tt, s') /\
     spectrum_type (self s') = "normalized" /\
     spectrum (self s') = [(2.0, 0.05); (1.0, 0.1)]%float /\
     f (self s') = Some (Py.File true) /\
     (forall k, attribute k (self s') = attribute k (self s)) /\
     log s' = log s).
Proof.
  intros Hopen.
  split; [intros [Hcontent | Hcontent] | intros Hcontent]; subst content;
    (eexists; split;
     [ unfold read_obj, read_obj_try_except, read_obj_try, bind;
       rewrite (open_Opened _ _ _ _ Hopen); reflexivity
     | cbn [self log]; repeat split; intros k; destruct k; reflexivity ]).
Qed.

Section SpectrumExample.

#[local] Existing Instance Py.correctly_rounded.

Lemma read_obj_keeps_file_order_witness :
  exists s' : state,
    read_obj (single_file "spectrum.csv" (unlines ["normalized"; "1.0,0.1"; "2.0,0.05"]))
      "spectrum.csv" (State default_object [])
    = (Py.Return tt, s') /\
    spectrum_type (self s') = "normalized" /\
    spectrum (self s') = [(1.0, 0.1); (2.0, 0.05)]%float /\
    f (self s') = Some (Py.File true) /\
    (forall k, attribute k (self s') = attribute k default_object) /\
    log s' = [].
Proof.
  exact (proj1 (read_obj_keeps_file_order
                  (single_file "spectrum.csv"
                     (unlines ["normalized"; "1.0,0.1"; "2.0,0.05"]))
                  "spectrum.csv" (unlines ["normalized"; "1.0,0.1"; "2.0,0.05"])
                  (State default_object []) eq_refl)
           (or_introl eq_refl)).
Defined.

End SpectrumExample.

(** ** A file that cannot be opened *)

Lemma read_obj_try_except_Failed (fs : Py.filesystem) (filename : string)
    (errno : Z) (strerror : string) (s : state) :
  fs filename = Py.Failed errno strerror ->
  read_obj_try_except fs filename s
    = (Py.Return None, logged_failure errno strerror filename s).
Proof.
  intros Hopen. unfold read_obj_try_except, read_obj_try, bind.
  rewrite (open_Failed _ _ _ _ _ Hopen).
  unfold logging, ret, logged_failure. simpl. rewrite <- app_assoc. reflexivity.
Qed.

Section OpenFailure.

Context {libm : Py.Libm}.

Lemma read_constraints_Failed (fs : Py.filesystem) (filename : string)
    (errno : Z) (strerror : string) (s : state) :
  fs filename = Py.Failed errno strerror ->
  read_constraints fs filename s
    = (assert_closed ;; calculate_fissions) (logged_failure errno strerror filename s).
Proof.
  intros Hopen.
  assert (Htry : read_constraints_try fs filename s
                 = (Py.Raise (Py.IOError errno strerror), s)).
  { unfold read_constraints_try, bind. rewrite (open_Failed _ _ _ _ _ Hopen).
    reflexivity. }
  unfold read_constraints. unfold bind at 1. unfold try_except_IOError.
  rewrite Htry. unfold bind at 1. unfold logging, logged_failure. simpl.
  rewrite <- app_assoc. reflexivity.
Qed.

(** C6, as the code has it: when the file cannot be opened, the operating
    system's error code and message and the path are logged and the object
    is left as it was; then the check that [self.f] is closed looks at
    whatever an earlier call left in [self.f].  With no such attribute the
    check raises [AttributeError]; with a file left open by a parse that
    failed it raises [AssertionError]; with the closed file of an earlier
    successful parse it passes, and then [read_obj] raises
    [UnboundLocalError] for its unassigned local [spectrum], while
    [read_constraints] goes on to recompute [min_fiss]. *)
Theorem open_failure (fs : Py.filesystem) (filename : string) (errno : Z)
    (strerror : string) (s : state) :
  fs filename = Py.Failed errno strerror ->
  let s1 := logged_failure errno strerror filename s in
  match f (self s) with
  | None =>
      read_obj fs filename s = (Py.Raise Py.AttributeError, s1) /\
      read_constraints fs filename s = (Py.Raise Py.AttributeError, s1)
  | Some (Py.File false) =>
      read_obj fs filename s
        = (Py.Raise (Py.AssertionError "File did not close properly."), s1) /\
      read_constraints fs filename s
        = (Py.Raise (Py.AssertionError "File did not close properly."), s1)
  | Some (Py.File true) =>
      read_obj fs filename s = (Py.Raise Py.UnboundLocalError, s1) /\
      read_constraints fs filename s = calculate_fissions s1
  end.
Proof.
  intros Hopen s1.
  pose proof (read_obj_try_except_Failed fs filename errno strerror s Hopen) as Hobj.
  pose proof (read_constraints_Failed fs filename errno strerror s Hopen) as Hcon.
  fold s1 in Hobj, Hcon.
  assert (Hf : f (self s1) = f (self s)) by reflexivity.
  assert (Hobj' : read_obj fs filename s
                  = (assert_closed ;; raise Py.UnboundLocalError) s1).
  { unfold read_obj. unfold bind at 1. rewrite Hobj. reflexivity. }
  rewrite Hobj', Hcon. clear Hobj Hobj' Hcon.
  unfold bind, assert_closed, get, bind, eval, raise. cbn beta iota. rewrite Hf.
  destruct (f (self s)) as [[[|]]|]; split; reflexivity.
Qed.

End OpenFailure.

Section OpenFailureExample.

#[local] Existing Instance Py.correctly_rounded.

Lemma open_failure_witness :
  read_obj (single_file "spectrum.csv" "normalized") "missing.csv" (State default_object [])
    = (Py.Raise Py.AttributeError,
       State default_object
         [error_io 2 "No such file or directory"; error_file "missing.csv"]) /\
  read_constraints (single_file "spectrum.csv" "normalized") "missing.csv"
      (State default_object [])
    = (Py.Raise Py.AttributeError,
       State default_object
         [error_io 2 "No such file or directory"; error_file "missing.csv"]).
Proof.
  exact (open_failure (single_file "spectrum.csv" "normalized") "missing.csv" 2
           "No such file or directory" (State default_object []) eq_refl).
Defined.

(** Against C6 as stated: after one successful parse has left its closed
    file in [self.f], a constraints file that cannot be opened makes
    [read_constraints] log the failure and return normally. *)
Lemma open_failure_can_return_normally :
  let fs := single_file "constraints.csv" (unlines ["ETA Max Weight,100.0"]) in
  exists s1 s2,
    read_constraints fs "constraints.csv" (State default_object []) = (Py.Return tt, s1) /\
    fs "missing.csv" = Py.Failed 2 "No such file or directory" /\
    read_constraints fs "missing.csv" s1 = (Py.Return tt, s2) /\
    log s2 = [error_io 2 "No such file or directory"; error_file "missing.csv"].
Proof.
  intros fs. eexists. eexists.
  split; [vm_compute; reflexivity|].
  split; [reflexivity|].
  split; [vm_compute; reflexivity | reflexivity].
Qed.

End OpenFailureExample.

(** ** A file that can be opened *)

Section Opened.

Context {libm : Py.Libm}.

Lemma read_constraints_Opened (fs : Py.filesystem) (filename content : string)
    (s : state) :
  fs filename = Py.Opened content ->
  read_constraints fs filename s
    = (try_except_IOError
         (for_each (Py.readlines content) read_constraints_line ;; close)
         (fun errno strerror =>
            logging (error_io errno strerror) ;; logging (error_file filename)) ;;
       assert_closed ;;
       calculate_fissions)
        (State (set_f (Some (Py.File false)) (self s)) (log s)).
Proof.
  intros Hopen. unfold read_constraints. unfold bind at 1 3.
  unfold try_except_IOError, read_constraints_try. unfold bind at 1 3.
  rewrite (open_Opened _ _ _ _ Hopen). reflexivity.
Qed.

End Opened.

(** ** The loops over the value tokens of a list keyword *)

Lemma range_nil (a b : Z) : b <= a -> range a b = [].
Proof.
  intros H. unfold range. replace (Z.to_nat (b - a)) with 0%nat by lia. reflexivity.
Qed.

Lemma range_cons (a b : Z) : a < b -> range a b = a :: range (a + 1) b.
Proof.
  intros H. unfold range.
  replace (Z.to_nat (b - a)) with (S (Z.to_nat (b - (a + 1)))) by lia.
  cbn [seq map]. f_equal; [lia|].
  rewrite <- seq_shift, map_map. apply map_ext. intros k. lia.
Qed.

Lemma getitem_middle {A} (pre rest : list A) (x : A) :
  Py.getitem (pre ++ x :: rest) (Z.of_nat (List.length pre)) = Py.Return x.
Proof.
  unfold Py.getitem. cbv zeta.
  replace (Z.of_nat (List.length pre) <? 0) with false by (symmetry; apply Z.ltb_ge; lia).
  rewrite Nat2Z.id, nth_error_app2, Nat.sub_diag by lia.
  replace (_ || _) with false; [reflexivity|].
  symmetry. apply orb_false_iff. split; [apply Z.ltb_ge; lia|].
  apply Z.leb_gt. rewrite length_app. simpl List.length. lia.
Qed.

Section ListLoop.

Context {X : Type}.
Variable get : ETA_Parameters -> list X.
Variable set : list X -> ETA_Parameters -> ETA_Parameters.
Variable conv : string -> Py.outcome X.

Hypothesis get_set : forall l o, get (set l o) = l.
Hypothesis set_set : forall l l' o, set l (set l' o) = set l o.
Hypothesis set_get : forall o, set (get o) o = o.

(** [for i in range(a, len(split_list)): self.x.append(conv(split_list[i]))],
    once the tokens before index [a] are behind: if the loop completes, every
    remaining token has been converted and appended, in order. *)
Lemma append_loop_Return (rest pre : list string) (s s' : state) :
  for_each (range (Z.of_nat (List.length pre)) (Z.of_nat (List.length (pre ++ rest))))
    (fun i =>
       v <- eval (t <~ Py.getitem (pre ++ rest) i ;; conv t) ;;
       assign (fun o => set (get o ++ [v]) o)) s
  = (Py.Return tt, s') ->
  exists vs,
    traverse conv rest = Py.Return vs /\
    s' = State (set (get (self s) ++ vs) (self s)) (log s).
Proof.
  revert pre s. induction rest as [|x rest IH]; intros pre s Hrun.
  - rewrite app_nil_r, range_nil in Hrun by lia. injection Hrun as <-.
    exists []. split; [reflexivity|].
    rewrite app_nil_r, set_get. destruct s; reflexivity.
  - rewrite range_cons in Hrun by (rewrite length_app; simpl List.length; lia).
    cbn [for_each] in Hrun. unfold bind at 1 2 in Hrun. unfold eval in Hrun.
    rewrite getitem_middle in Hrun. cbn [Py.obind] in Hrun.
    destruct (conv x) as [v|e] eqn:Hconv; [|discriminate].
    unfold assign at 1 in Hrun.
    replace (pre ++ x :: rest) with ((pre ++ [x]) ++ rest) in Hrun
      by (rewrite <- app_assoc; reflexivity).
    replace (Z.of_nat (List.length pre) + 1) with (Z.of_nat (List.length (pre ++ [x])))
      in Hrun by (rewrite length_app; simpl List.length; lia).
    apply IH in Hrun. destruct Hrun as (vs & Hvs & ->).
    exists (v :: vs). cbn [traverse self log]. rewrite Hconv, Hvs. split; [reflexivity|].
    rewrite get_set, set_set, <- app_assoc. reflexivity.
Qed.

(** The whole case of a list keyword: [self.x = []] and then the loop from
    index 1. *)
Lemma list_case_Return (split_list : list string) (s s' : state) :
  (assign (set []) ;;
   for_each (range 1 (Z.of_nat (List.length split_list)))
     (fun i =>
        v <- eval (t <~ Py.getitem split_list i ;; conv t) ;;
        assign (fun o => set (get o ++ [v]) o))) s
  = (Py.Return tt, s') ->
  split_list <> [] ->
  exists vs,
    traverse conv (tl split_list) = Py.Return vs /\
    s' = State (set vs (self s)) (log s).
Proof.
  intros Hrun Hne. destruct split_list as [|h t]; [congruence|].
  unfold bind at 1 in Hrun. unfold assign at 1 in Hrun.
  change (h :: t) with ([h] ++ t) in Hrun.
  change 1 with (Z.of_nat (List.length [h])) in Hrun.
  apply append_loop_Return in Hrun. destruct Hrun as (vs & Hvs & ->).
  exists vs. split; [exact Hvs|].
  cbn [self log]. rewrite get_set, set_set. reflexivity.
Qed.

End ListLoop.

Lemma traverse_strip (tokens : list string) :
  traverse (fun t => Py.Return (Py.strip t)) tokens = Py.Return (map Py.strip tokens).
Proof.
  induction tokens as [|t tokens IH]; [reflexivity|].
  cbn [traverse map Py.obind]. rewrite IH. reflexivity.
Qed.

Lemma traverse_length {X} (conv : string -> Py.outcome X) (tokens : list string)
    (vs : list X) :
  traverse conv tokens = Py.Return vs -> List.length vs = List.length tokens.
Proof.
  revert vs. induction tokens as [|t tokens IH]; intros vs H.
  - injection H as <-. reflexivity.
  - cbn [traverse] in H.
    destruct (conv t); [|discriminate]. cbn [Py.obind] in H.
    destruct (traverse conv tokens) as [xs|]; [|discriminate].
    injection H as <-. simpl. f_equal. apply IH. reflexivity.
Qed.

Lemma split_not_nil (sep : ascii) (s : string) : Py.split sep s <> [].
Proof. destruct (split_cons sep s) as (h & t & ->). discriminate. Qed.

(** ** The chain of cases against the table *)

(** Evaluates the chain of cases once the keyword of the line is known. *)
Ltac run_cases H :=
  unfold Switch, for_each, read_constraints_case in H;
  cbn [keyword_text existsb] in H;
  repeat match type of H with
         | context [Py.lower ?a] =>
             let x := eval vm_compute in (Py.lower a) in
             change (Py.lower a) with x in H
         end;
  repeat match type of H with
         | context [String.eqb ?a ?b] =>
             let x := eval vm_compute in (String.eqb a b) in
             change (String.eqb a b) with x in H
         end;
  cbn [orb] in H.

(** Reads a completed scalar case off its run. *)
Ltac scalar_case H :=
  unfold bind, item, item_float, item_int, eval, assign, ret in H;
  match type of H with
  | context [Py.getitem ?l ?i] => destruct (Py.getitem l i) as [?t|?e] eqn:?Hget
  end;
  cbn [Py.obind] in H; try discriminate H;
  try match type of H with
      | context [Py.float ?x] => destruct (Py.float x) as [?v|?e] eqn:?Hconv
      | context [Py.int ?x] => destruct (Py.int x) as [?v|?e] eqn:?Hconv
      end;
  try discriminate H;
  injection H as <-.

Lemma set_nas_mat_f_get o : set_nas_mat_f (nas_mat_f o) o = o.
Proof. destruct o; reflexivity. Qed.
Lemma set_t_nas_f_get o : set_t_nas_f (t_nas_f o) o = o.
Proof. destruct o; reflexivity. Qed.
Lemma set_toad_mat_f_get o : set_toad_mat_f (toad_mat_f o) o = o.
Proof. destruct o; reflexivity. Qed.
Lemma set_t_toad_get o : set_t_toad (t_toad o) o = o.
Proof. destruct o; reflexivity. Qed.

(** A line that carries the keyword [k] and is processed to the end has
    assigned to the attribute of [k] what its value tokens denote, has left
    the attributes of the other keywords alone, and has logged nothing. *)
Lemma line_of_keyword (k : keyword) (line : string) (s s' : state) :
  line_keyword line = Py.lower (keyword_text k) ->
  read_constraints_line line s = (Py.Return tt, s') ->
  line_value k (Py.split "," line) = Py.Return (attribute k (self s')) /\
  (forall k', k' <> k -> attribute k' (self s') = attribute k' (self s)) /\
  spectrum_type (self s') = spectrum_type (self s) /\
  spectrum (self s') = spectrum (self s) /\
  f (self s') = f (self s) /\
  log s' = log s.
Proof.
  unfold line_keyword. intros Hkey Hrun.
  unfold read_constraints_line in Hrun. unfold bind at 1 in Hrun.
  rewrite item_first_token, Hkey in Hrun.
  pose proof (split_not_nil "," line) as Hne.
  destruct k; run_cases Hrun; unfold bind at 1 in Hrun.
  all: try (scalar_case Hrun; unfold line_value; cbn [keyword_kind attribute];
            rewrite Hget; cbn [Py.obind]; try rewrite Hconv;
            repeat split; try reflexivity;
            intros k' Hk'; destruct k'; try reflexivity; congruence).
  all: match type of Hrun with
       | (let (_, _) := ?c ?s0 in _) = _ =>
           destruct (c s0) as [[[]|e] s1] eqn:Hloop; [|discriminate]
       end;
       injection Hrun as <-.
  - apply (list_case_Return nas_mat_f set_nas_mat_f (fun t => Py.Return (Py.strip t)))
      in Hloop; auto using set_nas_mat_f_get.
    destruct Hloop as (vs & Hvs & ->). rewrite traverse_strip in Hvs. injection Hvs as <-.
    repeat split; try reflexivity.
    intros k' Hk'; destruct k'; try reflexivity; congruence.
  - apply (list_case_Return t_nas_f set_t_nas_f (fun t => Py.float (Py.strip t)))
      in Hloop; auto using set_t_nas_f_get.
    destruct Hloop as (vs & Hvs & ->).
    unfold line_value; cbn [keyword_kind attribute]. rewrite Hvs.
    repeat split; try reflexivity.
    intros k' Hk'; destruct k'; try reflexivity; congruence.
  - apply (list_case_Return toad_mat_f set_toad_mat_f (fun t => Py.Return (Py.strip t)))
      in Hloop; auto using set_toad_mat_f_get.
    destruct Hloop as (vs & Hvs & ->). rewrite traverse_strip in Hvs. injection Hvs as <-.
    repeat split; try reflexivity.
    intros k' Hk'; destruct k'; try reflexivity; congruence.
  - apply (list_case_Return t_toad set_t_toad (fun t => Py.float (Py.strip t)))
      in Hloop; auto using set_t_toad_get.
    destruct Hloop as (vs & Hvs & ->).
    unfold line_value; cbn [keyword_kind attribute]. rewrite Hvs.
    repeat split; try reflexivity.
    intros k' Hk'; destruct k'; try reflexivity; congruence.
Qed.

(** ** Lines that do not carry a keyword *)

Lemma all_keywords_complete (k : keyword) : In k all_keywords.
Proof. destruct k; simpl; tauto. Qed.

Lemma recognized_true (value : string) :
  recognized value = true -> exists k, value = Py.lower (keyword_text k).
Proof.
  unfold recognized. intros H. apply existsb_exists in H.
  destruct H as (k & _ & Hk). apply String.eqb_eq in Hk. eauto.
Qed.

Lemma lower_char_slash (c : ascii) : Py.lower_char c = "/"%char -> c = "/"%char.
Proof.
  destruct c as [[] [] [] [] [] [] [] []]; vm_compute; intros H;
    first [reflexivity | discriminate H].
Qed.

Lemma lower_is_slash (token : string) : Py.lower token = "/" -> token = "/".
Proof.
  destruct token as [|c [|c' rest]]; simpl; intros H; try discriminate H.
  injection H as H. apply lower_char_slash in H. subst c. reflexivity.
Qed.

(** A line that is processed to the end and does not carry the keyword [k]
    leaves the attribute of [k] as it was. *)
Lemma line_frame (k : keyword) (line : string) (s s' : state) :
  carries k line = false ->
  read_constraints_line line s = (Py.Return tt, s') ->
  attribute k (self s') = attribute k (self s).
Proof.
  unfold carries. intros Hk Hrun. apply String.eqb_neq in Hk.
  destruct (recognized (line_keyword line)) eqn:Hrec.
  - apply recognized_true in Hrec. destruct Hrec as (k0 & Hk0).
    destruct (line_of_keyword k0 line s s' Hk0 Hrun) as (_ & Hframe & _).
    apply Hframe. intros ->. contradiction.
  - destruct (String.eqb (line_keyword line) "/") eqn:Hslash.
    + apply String.eqb_eq, lower_is_slash in Hslash.
      rewrite (comment_line line s Hslash) in Hrun.
      injection Hrun as <-. reflexivity.
    + apply String.eqb_neq in Hslash.
      rewrite (unrecognized_line line s Hrec Hslash) in Hrun.
      injection Hrun as <-. reflexivity.
Qed.

(** ** The loop over the lines *)

Lemma for_each_app {A} (l1 l2 : list A) (body : A -> M unit) (s s' : state) :
  for_each (l1 ++ l2) body s = (Py.Return tt, s') ->
  exists s1,
    for_each l1 body s = (Py.Return tt, s1) /\
    for_each l2 body s1 = (Py.Return tt, s').
Proof.
  revert s. induction l1 as [|x l1 IH]; intros s H.
  - exists s. split; [reflexivity | exact H].
  - cbn [app for_each] in H. apply bind_Return in H.
    destruct H as ([] & s0 & Hx & Hrest).
    apply IH in Hrest. destruct Hrest as (s1 & Hl1 & Hl2).
    exists s1. split; [|exact Hl2].
    cbn [for_each]. unfold bind. rewrite Hx. exact Hl1.
Qed.

(** Lines none of which carries [k] leave the attribute of [k] alone. *)
Lemma lines_frame (k : keyword) (lines : list string) (s s' : state) :
  (forall l, In l lines -> carries k l = false) ->
  for_each lines read_constraints_line s = (Py.Return tt, s') ->
  attribute k (self s') = attribute k (self s).
Proof.
  revert s. induction lines as [|line lines IH]; intros s Hnone Hrun.
  - injection Hrun as <-. reflexivity.
  - cbn [for_each] in Hrun. apply bind_Return in Hrun.
    destruct Hrun as ([] & s1 & Hline & Hrest).
    rewrite (IH s1); [|intros l Hl; apply Hnone; right; exact Hl | exact Hrest].
    apply (line_frame k line s s1); [apply Hnone; left; reflexivity | exact Hline].
Qed.

(** Last write wins, for the loop over the lines: once every line has been
    processed, the attribute of [k] is what the last line carrying [k]
    denotes. *)
Lemma lines_last_write (k : keyword) (pre post : list string) (line : string)
    (s s' : state) :
  carries k line = true ->
  (forall l, In l post -> carries k l = false) ->
  for_each (pre ++ line :: post) read_constraints_line s = (Py.Return tt, s') ->
  line_value k (Py.split "," line) = Py.Return (attribute k (self s')).
Proof.
  intros Hk Hpost Hrun.
  apply for_each_app in Hrun. destruct Hrun as (s1 & _ & Hrun).
  cbn [for_each] in Hrun. apply bind_Return in Hrun.
  destruct Hrun as ([] & s2 & Hline & Hrest).
  rewrite (lines_frame k post s2 s' Hpost Hrest).
  apply String.eqb_eq in Hk.
  apply (line_of_keyword k line s1 s2 Hk Hline).
Qed.

(** ** What the lines of a constraints file can raise *)

Create HintDb no_io.

Lemma no_IOError_ret {A} (a : A) : no_IOError (ret a).
Proof. intros s e s' H. discriminate H. Qed.

Lemma no_IOError_assign (upd : ETA_Parameters -> ETA_Parameters) : no_IOError (assign upd).
Proof. intros s e s' H. discriminate H. Qed.

Lemma no_IOError_logging (r : log_record) : no_IOError (logging r).
Proof. intros s e s' H. discriminate H. Qed.

Lemma no_IOError_bind {A B} (c : M A) (k : A -> M B) :
  no_IOError c -> (forall a, no_IOError (k a)) -> no_IOError (bind c k).
Proof.
  intros Hc Hk s e s' H. unfold bind in H.
  destruct (c s) as [[a|e0] s0] eqn:Hcs.
  - exact (Hk a s0 e s' H).
  - injection H as <- <-. exact (Hc s e0 s0 Hcs).
Qed.

Lemma no_IOError_for_each {A} (l : list A) (body : A -> M unit) :
  (forall x, no_IOError (body x)) -> no_IOError (for_each l body).
Proof.
  intros Hbody. induction l as [|x l IH]; cbn [for_each].
  - apply no_IOError_ret.
  - apply no_IOError_bind; [apply Hbody | intros _; exact IH].
Qed.

Lemma getitem_raises {A} (l : list A) (i : Z) (e : Py.exn) :
  Py.getitem l i = Py.Raise e -> e = Py.IndexError.
Proof.
  unfold Py.getitem. cbv zeta. destruct (_ || _).
  - intros [= <-]. reflexivity.
  - destruct (nth_error _ _); [discriminate | intros [= <-]; reflexivity].
Qed.

Lemma float_raises (t : string) (e : Py.exn) :
  Py.float t = Py.Raise e -> e = Py.ValueError.
Proof.
  unfold Py.float.
  destruct (Py.grouped None t); [|intros [= <-]; reflexivity].
  destruct (Py.take_sign _) as [neg s1].
  destruct (_ || _); [discriminate|].
  destruct (String.eqb _ _); [discriminate|].
  destruct (Py.take_digits s1 0 0) as [[ip icnt] s2].
  destruct (match s2 with String "." s2' => _ | _ => _ end) as [[m fcnt] s3].
  destruct (0 <? icnt + fcnt).
  - destruct (Py.take_exponent s3); [discriminate | intros [= <-]; reflexivity].
  - intros [= <-]. reflexivity.
Qed.

Lemma int_raises (t : string) (e : Py.exn) :
  Py.int t = Py.Raise e -> e = Py.ValueError.
Proof.
  unfold Py.int.
  destruct (Py.grouped None t); [|intros [= <-]; reflexivity].
  destruct (Py.take_sign _) as [neg s1].
  destruct (Py.take_digits s1 0 0) as [[n cnt] [|c rest]].
  - destruct (_ && _); [discriminate | intros [= <-]; reflexivity].
  - intros [= <-]. reflexivity.
Qed.

Lemma no_IOError_item (split_list : list string) (i : Z) : no_IOError (item split_list i).
Proof.
  intros s e s' H. unfold item, eval in H. injection H as H _.
  destruct (Py.getitem split_list i) eqn:Hget; [discriminate H|].
  injection H as <-. apply getitem_raises in Hget. subst. discriminate.
Qed.

Lemma no_IOError_item_float (split_list : list string) (i : Z) :
  no_IOError (item_float split_list i).
Proof.
  intros s e s' H. unfold item_float, eval in H. injection H as H _.
  destruct (Py.getitem split_list i) eqn:Hget; cbn [Py.obind] in H.
  - apply float_raises in H. subst. discriminate.
  - injection H as <-. apply getitem_raises in Hget. subst. discriminate.
Qed.

Lemma no_IOError_item_int (split_list : list string) (i : Z) :
  no_IOError (item_int split_list i).
Proof.
  intros s e s' H. unfold item_int, eval in H. injection H as H _.
  destruct (Py.getitem split_list i) eqn:Hget; cbn [Py.obind] in H.
  - apply int_raises in H. subst. discriminate.
  - injection H as <-. apply getitem_raises in Hget. subst. discriminate.
Qed.

#[local] Hint Resolve no_IOError_ret no_IOError_assign no_IOError_logging
  no_IOError_item no_IOError_item_float no_IOError_item_int : no_io.
#[local] Hint Extern 2 (no_IOError (bind _ _)) =>
  apply no_IOError_bind; [|intro] : no_io.
#[local] Hint Extern 2 (no_IOError (for_each _ _)) =>
  apply no_IOError_for_each; intro : no_io.

(** Whatever the matcher answers, a case of the chain raises at most what
    indexing and the conversions raise. *)
Lemma no_IOError_case (split_list : list string) (case : list string -> bool) :
  no_IOError (read_constraints_case split_list case).
Proof.
  unfold read_constraints_case.
  repeat match goal with
         | |- no_IOError (if ?c then _ else _) => destruct c
         end;
    auto 6 with no_io.
Qed.

Lemma no_IOError_line (line : string) : no_IOError (read_constraints_line line).
Proof.
  unfold read_constraints_line.
  apply no_IOError_bind; [apply no_IOError_item|]. intros value.
  apply no_IOError_for_each. intros case. apply no_IOError_case.
Qed.

Lemma no_IOError_close : no_IOError close.
Proof.
  intros s e s' H. unfold close, bind, get in H.
  destruct (f (self s)); [discriminate H|].
  injection H as <- _. discriminate.
Qed.

(** ** read_constraints on a file that opens *)

Section OpenedReturn.

Context {libm : Py.Libm}.

(** What [read_constraints] has done when it returns on a file that opened:
    every line was processed, the file was closed, and the closing
    computation ran on the object as the lines left it. *)
Lemma read_constraints_Opened_Return (fs : Py.filesystem) (filename content : string)
    (s s' : state) :
  fs filename = Py.Opened content ->
  read_constraints fs filename s = (Py.Return tt, s') ->
  exists s1,
    for_each (Py.readlines content) read_constraints_line
      (State (set_f (Some (Py.File false)) (self s)) (log s))
    = (Py.Return tt, s1) /\
    calculate_fissions (State (set_f (Some (Py.File true)) (self s1)) (log s1))
    = (Py.Return tt, s').
Proof.
  intros Hopen Hrun. rewrite (read_constraints_Opened _ _ _ _ Hopen) in Hrun.
  set (s0 := State (set_f (Some (Py.File false)) (self s)) (log s)) in *.
  apply bind_Return in Hrun. destruct Hrun as ([] & s2 & Htry & Hrest).
  unfold try_except_IOError in Htry.
  destruct ((for_each (Py.readlines content) read_constraints_line ;; close) s0)
    as [[[]|e] s3] eqn:Hbody.
  - injection Htry as <-.
    apply bind_Return in Hbody. destruct Hbody as ([] & s1 & Hlines & Hclose).
    exists s1. split; [exact Hlines|].
    unfold close, bind, get in Hclose.
    destruct (f (self s1)) eqn:Hf; [|discriminate Hclose].
    injection Hclose as <-.
    apply bind_Return in Hrest. destruct Hrest as ([] & s4 & Hassert & Hcalc).
    unfold assert_closed, bind, get in Hassert. cbn in Hassert.
    injection Hassert as <-. exact Hcalc.
  - exfalso.
    assert (Hno : no_IOError
                    (for_each (Py.readlines content) read_constraints_line ;; close)).
    { apply no_IOError_bind.
      - apply no_IOError_for_each. intros line. apply no_IOError_line.
      - intros _. apply no_IOError_close. }
    specialize (Hno s0 e s3 Hbody).
    destruct e; try discriminate Htry.
    exact (Hno errno strerror eq_refl).
Qed.

End OpenedReturn.

(** ** The closing computation of read_constraints *)

(** The loop over the TOAD foil materials ends with the last index at which
    the fissile material stands, or leaves [ind] as it was. *)
Lemma find_ind_spec (toad_mat_f : list string) (fissile_mat : string) (i0 : Z)
    (ind0 : option Z) :
  (find_ind toad_mat_f fissile_mat i0 ind0 = ind0 /\
   forall j, nth_error toad_mat_f j <> Some fissile_mat) \/
  (exists n : nat,
     find_ind toad_mat_f fissile_mat i0 ind0 = Some (i0 + Z.of_nat n) /\
     nth_error toad_mat_f n = Some fissile_mat /\
     forall j, (n < j)%nat -> nth_error toad_mat_f j <> Some fissile_mat).
Proof.
  revert i0 ind0. induction toad_mat_f as [|x l IH]; intros i0 ind0.
  - left. split; [reflexivity|]. intros [|j]; discriminate.
  - cbn [find_ind].
    destruct (IH (i0 + 1) (if String.eqb x fissile_mat then Some i0 else ind0))
      as [[Hsame Hnone] | (n & Hfound & Hnth & Hlast)].
    + destruct (String.eqb x fissile_mat) eqn:Hx.
      * right. exists 0%nat. apply String.eqb_eq in Hx. subst x.
        rewrite Hsame. split; [f_equal; lia|]. split; [reflexivity|].
        intros [|j] Hj; [lia | apply Hnone].
      * left. split; [exact Hsame|].
        apply String.eqb_neq in Hx.
        intros [|j]; [cbn; congruence | apply Hnone].
    + right. exists (S n). rewrite Hfound. split; [f_equal; lia|].
      split; [exact Hnth|].
      intros [|j] Hj; [lia | apply Hlast; lia].
Qed.

Lemma find_ind_Some (toad_mat_f : list string) (fissile_mat : string) (i : Z) :
  find_ind toad_mat_f fissile_mat 0 None = Some i ->
  exists n, i = Z.of_nat n /\ last_index toad_mat_f fissile_mat n.
Proof.
  intros H.
  destruct (find_ind_spec toad_mat_f fissile_mat 0 None)
    as [[Hsame _] | (n & Hfound & Hnth & Hlast)].
  - congruence.
  - exists n. rewrite Hfound in H. injection H as <-. split; [lia|].
    split; assumption.
Qed.

Lemma getitem_nat {A} (l : list A) (n : nat) (a : A) :
  Py.getitem l (Z.of_nat n) = Py.Return a -> nth_error l n = Some a.
Proof.
  intros H. apply getitem_Return in H. cbv zeta in H.
  replace (Z.of_nat n <? 0) with false in H by (symmetry; apply Z.ltb_ge; lia).
  cbv iota in H. rewrite Nat2Z.id in H. apply H.
Qed.

Section ClosingComputation.

Context {libm : Py.Libm}.

(** What the closing computation has done when it returns. *)
Lemma calculate_fissions_Return (s s' : state) :
  calculate_fissions s = (Py.Return tt, s') ->
  exists (n : nat) (t r2 : float),
    last_index (toad_mat_f (self s)) (fissile_mat (self s)) n /\
    nth_error (t_toad (self s)) n = Some t /\
    Py.pow2 (r_toad (self s)) = Py.Return r2 /\
    (src (self s) * r2 * Py.pi * t =? 0)%float = false /\
    s' = State
           (set_min_fiss (normalized (min_fiss (self s)) (src (self s)) r2 t) (self s))
           (log s).
Proof.
  unfold calculate_fissions, bind, get, eval, assign. intros H.
  destruct (fissions_per_source _ _ _ _ _ _) as [v|e] eqn:Hv; [|discriminate H].
  injection H as <-.
  unfold fissions_per_source in Hv.
  apply obind_Return in Hv. destruct Hv as (r2 & Hr2 & Hv).
  apply obind_Return in Hv. destruct Hv as (i & Hi & Hv).
  apply obind_Return in Hv. destruct Hv as (t & Ht & Hv).
  apply truediv_Return in Hv. destruct Hv as [-> Hd].
  unfold load_ind in Hi.
  destruct (find_ind _ _ 0 None) as [i'|] eqn:Hfind; [|discriminate Hi].
  injection Hi as ->.
  apply find_ind_Some in Hfind. destruct Hfind as (n & -> & Hlast).
  apply getitem_nat in Ht.
  exists n, t, r2. repeat split; try assumption; apply Hlast.
Qed.


End ClosingComputation.
(** ** Constraints files of one line *)

Section OneLine.

Context {libm : Py.Libm}.




End OneLine.

Section OneLineExamples.

#[local] Existing Instance Py.correctly_rounded.





End OneLineExamples.

(** ** Last write wins *)

Lemma attribute_after_calculation (k : keyword) (v : float) (file : option Py.file)
    (o : ETA_Parameters) :
  k <> Minimum_Fissions ->
  attribute k (set_min_fiss v (set_f file o)) = attribute k o.
Proof. intros Hk. destruct k; try reflexivity. congruence. Qed.

Lemma line_value_entries (k : keyword) (split_list : list string) (v : value) :
  keyword_kind k = KFloats \/ keyword_kind k = KStrs ->
  line_value k split_list = Py.Return v ->
  entries v = List.length (tl split_list).
Proof.
  unfold line_value. intros [Hk | Hk]; rewrite Hk; intros H.
  - destruct (traverse _ _) as [l|] eqn:Hl; [|discriminate H].
    injection H as <-. apply traverse_length in Hl. exact Hl.
  - injection H as <-. cbn [entries]. apply length_map.
Qed.

Section LastWrite.

Context {libm : Py.Libm}.

(** C9, as the code has it: when [read_constraints] returns, the attribute of
    every keyword other than [Minimum Fissions] is what the last line
    carrying that keyword denotes, earlier lines with the same keyword
    notwithstanding; a list keyword takes every token after the keyword, so
    its list has as many entries as that last line has value tokens.  For
    [Minimum Fissions] the last line wins as well, but what [min_fiss] holds
    in the end is that value divided by [src*r_toad**2*pi*t_toad[ind]], with
    [r2] the value of [r_toad**2]. *)
Theorem last_write_wins (fs : Py.filesystem) (filename content line : string)
    (pre post : list string) (k : keyword) (s s' : state) :
  fs filename = Py.Opened content ->
  Py.readlines content = pre ++ line :: post ->
  carries k line = true ->
  (forall l, In l post -> carries k l = false) ->
  read_constraints fs filename s = (Py.Return tt, s') ->
  (k <> Minimum_Fissions ->
   line_value k (Py.split "," line) = Py.Return (attribute k (self s'))) /\
  (keyword_kind k = KFloats \/ keyword_kind k = KStrs ->
   entries (attribute k (self s')) = List.length (tl (Py.split "," line))) /\
  (k = Minimum_Fissions ->
   exists (x t r2 : float) (n : nat),
     line_value k (Py.split "," line) = Py.Return (VFloat x) /\
     last_index (toad_mat_f (self s')) (fissile_mat (self s')) n /\
     nth_error (t_toad (self s')) n = Some t /\
     Py.pow2 (r_toad (self s')) = Py.Return r2 /\
     min_fiss (self s') = (x / (src (self s') * r2 * Py.pi * t))%float).
Proof.
  intros Hopen Hlines Hk Hpost Hrun.
  apply (read_constraints_Opened_Return _ _ _ _ _ Hopen) in Hrun.
  destruct Hrun as (s1 & Hloop & Hcalc). rewrite Hlines in Hloop.
  pose proof (lines_last_write k pre post line _ _ Hk Hpost Hloop) as Hlast.
  apply calculate_fissions_Return in Hcalc.
  destruct Hcalc as (n & t & r2 & Hind & Ht & Hr2 & _ & ->). cbn [self log] in *.
  assert (Hother : k <> Minimum_Fissions ->
            line_value k (Py.split "," line)
            = Py.Return (attribute k
                (set_min_fiss
                   (normalized (min_fiss (set_f (Some (Py.File true)) (self s1)))
                      (src (set_f (Some (Py.File true)) (self s1))) r2 t)
                   (set_f (Some (Py.File true)) (self s1))))).
  { intros Hne. rewrite attribute_after_calculation by exact Hne. exact Hlast. }
  split; [exact Hother|]. split.
  - intros Hkind. apply (line_value_entries k); [exact Hkind|].
    apply Hother. intros ->. destruct Hkind as [Hkind | Hkind]; discriminate Hkind.
  - intros ->. exists (min_fiss (self s1)), t, r2, n.
    split; [exact Hlast|]. split; [exact Hind|]. split; [exact Ht|].
    split; [exact Hr2 | reflexivity].
Qed.

End LastWrite.

Section LastWriteExamples.

#[local] Existing Instance Py.correctly_rounded.

Lemma last_write_wins_witness :
  let s' := snd (read_constraints (single_file "constraints.csv" foils_twice)
                   "constraints.csv" (State default_object [])) in
  line_value NAS_Activation_Foils (Py.split "," (unlines ["NAS Activation Foils,In,Al,Ta"]))
  = Py.Return (VStrs (nas_mat_f (self s'))) /\
  List.length (nas_mat_f (self s')) = 3%nat.
Proof.
  intros s'.
  assert (Hpost : forall l, In l [unlines ["Source Strength,1e15"]] ->
                            carries NAS_Activation_Foils l = false).
  { intros l [<- | []]. reflexivity. }
  assert (Hrun : read_constraints (single_file "constraints.csv" foils_twice)
                   "constraints.csv" (State default_object [])
                 = (Py.Return tt, s')).
  { vm_compute. reflexivity. }
  destruct (last_write_wins
              (single_file "constraints.csv" foils_twice)
              "constraints.csv" foils_twice (unlines ["NAS Activation Foils,In,Al,Ta"])
              [unlines ["NAS Activation Foils,Zr,Zn"]; unlines ["ETA Max Weight,90"]]
              [unlines ["Source Strength,1e15"]]
              NAS_Activation_Foils (State default_object []) s'
              eq_refl eq_refl eq_refl Hpost Hrun)
    as (Hvalue & Hentries & _).
  split.
  - apply Hvalue. discriminate.
  - exact (Hentries (or_intror eq_refl)).
Defined.

(** Against C9 as stated: with two [Minimum Fissions] lines the last value
    assigned in file order is 2.0, and [min_fiss] after the parse is not. *)
Lemma minimum_fissions_is_renormalised :
  exists s',
    read_constraints
      (single_file "constraints.csv"
         (unlines ["Minimum Fissions,1.0"; "Minimum Fissions,2.0"]))
      "constraints.csv" (State default_object [])
    = (Py.Return tt, s') /\
    line_value Minimum_Fissions (Py.split "," (unlines ["Minimum Fissions,2.0"]))
    = Py.Return (VFloat 2.0) /\
    attribute Minimum_Fissions (self s') = VFloat (min_fiss (self s')) /\
    min_fiss (self s') <> 2.0%float.
Proof.
  eexists. split; [vm_compute; reflexivity|].
  split; [vm_compute; reflexivity|].
  split; [reflexivity | float_neq].
Qed.

End LastWriteExamples.

(** ** The equal-length invariants *)

Section EqualLength.

Context {libm : Py.Libm}.

Lemma pow2_raises (x : float) (e : Py.exn) :
  Py.pow2 x = Py.Raise e -> e = Py.OverflowError.
Proof.
  unfold Py.pow2.
  repeat match goal with
         | |- context [if ?b then _ else _] => destruct b; try discriminate
         end.
  cbv zeta.
  repeat match goal with
         | |- context [if ?b then _ else _] => destruct b; try discriminate
         end.
  intros [= <-]. reflexivity.
Qed.

Lemma fissions_per_source_raises {I : Type}
    (subscript : list float -> I -> Py.outcome float)
    (min_fiss src r_toad : float) (t_toad : list float) (ind : Py.outcome I)
    (e : Py.exn) (msg : string) :
  (forall e', ind = Py.Raise e' -> e' <> Py.AssertionError msg) ->
  (forall i e', subscript t_toad i = Py.Raise e' -> e' <> Py.AssertionError msg) ->
  fissions_per_source subscript min_fiss src r_toad t_toad ind = Py.Raise e ->
  e <> Py.AssertionError msg.
Proof.
  intros Hind Hsub. unfold fissions_per_source.
  destruct (Py.pow2 r_toad) as [r2|e0] eqn:Hr2; cbn [Py.obind];
    [|intros [= <-]; apply pow2_raises in Hr2; subst e0; discriminate].
  destruct ind as [i|e0]; cbn [Py.obind]; [|intros [= <-]; apply Hind; reflexivity].
  destruct (subscript t_toad i) as [t|e1] eqn:Ht; cbn [Py.obind];
    [|intros [= <-]; apply (Hsub i); exact Ht].
  unfold Py.truediv. destruct (_ =? _)%float; [intros [= <-]|]; discriminate.
Qed.

Lemma getitem_obj_raises {A} (l : list A) (ind : Py.object) (e : Py.exn) (msg : string) :
  Py.getitem_obj l ind = Py.Raise e -> e <> Py.AssertionError msg.
Proof.
  destruct ind; cbn [Py.getitem_obj]; try (intros [= <-]; discriminate).
  intros H. apply getitem_raises in H. subst. discriminate.
Qed.

(** The constructor raises [AssertionError] exactly when one of the two
    pairs of lists has unequal lengths. *)
Lemma init_AssertionError (a : kw.args) :
  (exists msg, __init__ a = Py.Raise (Py.AssertionError msg)) <->
  (List.length (kw.nas_foil_th a) <> List.length (kw.nas_foil_mat a) \/
   List.length (kw.toad_foil_th a) <> List.length (kw.toad_foil_mat a)).
Proof.
  unfold __init__, assert_.
  destruct (Nat.eqb (List.length (kw.nas_foil_th a)) (List.length (kw.nas_foil_mat a)))
    eqn:Hnas.
  - destruct (Nat.eqb (List.length (kw.toad_foil_th a)) (List.length (kw.toad_foil_mat a)))
      eqn:Htoad.
    + apply Nat.eqb_eq in Hnas, Htoad. cbn [Py.obind]. split.
      * intros (msg & H). exfalso.
        destruct (fissions_per_source _ _ _ _ _ _) as [v|e] eqn:Hv;
          cbn [Py.obind] in H; [discriminate H|].
        injection H as ->.
        refine (fissions_per_source_raises _ _ _ _ _ _ _ msg _ _ Hv eq_refl).
        -- intros e' [=].
        -- intros i e'. apply getitem_obj_raises.
      * intros [H | H]; contradiction.
    + apply Nat.eqb_neq in Htoad. cbn [Py.obind]. split; [auto | eauto].
  - apply Nat.eqb_neq in Hnas. cbn [Py.obind]. split; [auto | eauto].
Qed.

(** The lengths of the four lists after the loop over the lines. *)
Lemma lines_entries (k : keyword) (lines : list string) (s s' : state) :
  keyword_kind k = KFloats \/ keyword_kind k = KStrs ->
  for_each lines read_constraints_line s = (Py.Return tt, s') ->
  entries (attribute k (self s'))
  = value_tokens k lines (entries (attribute k (self s))).
Proof.
  intros Hkind. revert s. induction lines as [|line lines IH]; intros s Hrun.
  - injection Hrun as <-. reflexivity.
  - cbn [for_each] in Hrun. apply bind_Return in Hrun.
    destruct Hrun as ([] & s1 & Hline & Hrest).
    rewrite (IH s1 Hrest). unfold value_tokens. cbn [fold_left]. f_equal.
    destruct (carries k line) eqn:Hk.
    + apply String.eqb_eq in Hk.
      destruct (line_of_keyword k line s s1 Hk Hline) as (Hvalue & _).
      apply (line_value_entries k _ _ Hkind Hvalue).
    + rewrite (line_frame k line s s1 Hk Hline). reflexivity.
Qed.

(** C3, as the code has it: the constructor raises its assertion error
    exactly when the NAS or the TOAD thicknesses and materials differ in
    number, and then returns no object; an object it returns satisfies both
    equal-length invariants.  [read_constraints] neither checks nor restores
    them: when it returns, each of the four lists has as many entries as the
    last line naming it has value tokens, or as it had if no line names
    it. *)
Theorem equal_length_invariants :
  (forall a : kw.args,
     (exists msg, __init__ a = Py.Raise (Py.AssertionError msg)) <->
     (List.length (kw.nas_foil_th a) <> List.length (kw.nas_foil_mat a) \/
      List.length (kw.toad_foil_th a) <> List.length (kw.toad_foil_mat a))) /\
  (forall (a : kw.args) (o : ETA_Parameters),
     __init__ a = Py.Return o ->
     List.length (t_nas_f o) = List.length (nas_mat_f o) /\
     List.length (t_toad o) = List.length (toad_mat_f o)) /\
  (forall (fs : Py.filesystem) (filename content : string) (s s' : state),
     fs filename = Py.Opened content ->
     read_constraints fs filename s = (Py.Return tt, s') ->
     let lines := Py.readlines content in
     List.length (t_nas_f (self s'))
     = value_tokens NAS_Activation_Foil_Thickness lines (List.length (t_nas_f (self s))) /\
     List.length (nas_mat_f (self s'))
     = value_tokens NAS_Activation_Foils lines (List.length (nas_mat_f (self s))) /\
     List.length (t_toad (self s'))
     = value_tokens TOAD_Activation_Foil_Thickness lines (List.length (t_toad (self s))) /\
     List.length (toad_mat_f (self s'))
     = value_tokens TOAD_Activation_Foils lines (List.length (toad_mat_f (self s)))).
Proof.
  split; [exact init_AssertionError|]. split.
  - intros a o H. apply init_Return in H.
    destruct H as (Hnas & Htoad & front & t & r2 & _ & _ & ->). split; assumption.
  - intros fs filename content s s' Hopen Hrun lines.
    apply (read_constraints_Opened_Return _ _ _ _ _ Hopen) in Hrun.
    destruct Hrun as (s1 & Hloop & Hcalc).
    apply calculate_fissions_Return in Hcalc.
    destruct Hcalc as (n & t & r2 & _ & _ & _ & _ & ->). cbn [self log].
    pose proof (lines_entries NAS_Activation_Foil_Thickness _ _ _
                  (or_introl eq_refl) Hloop) as H1.
    pose proof (lines_entries NAS_Activation_Foils _ _ _
                  (or_intror eq_refl) Hloop) as H2.
    pose proof (lines_entries TOAD_Activation_Foil_Thickness _ _ _
                  (or_introl eq_refl) Hloop) as H3.
    pose proof (lines_entries TOAD_Activation_Foils _ _ _
                  (or_intror eq_refl) Hloop) as H4.
    repeat split; assumption.
Qed.

End EqualLength.

Section EqualLengthExamples.

#[local] Existing Instance Py.correctly_rounded.

Lemma equal_length_invariants_witness :
  (exists msg, __init__ one_nas_material = Py.Raise (Py.AssertionError msg)) /\
  List.length (t_nas_f default_object) = List.length (nas_mat_f default_object) /\
  List.length (t_toad default_object) = List.length (toad_mat_f default_object) /\
  let s' := snd (read_constraints (single_file "constraints.csv" foils_twice)
                   "constraints.csv" (State default_object [])) in
  List.length (nas_mat_f (self s')) = 3%nat.
Proof.
  destruct equal_length_invariants as (Hraise & Hinit & Hparse).
  split; [apply Hraise; left; vm_compute; discriminate|].
  split; [apply (Hinit kw.defaults default_object init_defaults)|].
  split; [apply (Hinit kw.defaults default_object init_defaults)|].
  intros s'.
  assert (Hrun : read_constraints (single_file "constraints.csv" foils_twice)
                   "constraints.csv" (State default_object [])
                 = (Py.Return tt, s')).
  { vm_compute. reflexivity. }
  destruct (Hparse (single_file "constraints.csv" foils_twice) "constraints.csv"
              foils_twice (State default_object []) s' eq_refl Hrun)
    as (_ & Hmat & _).
  exact Hmat.
Defined.

(** Against C3 as stated: a constructor call with equally long lists that
    raises all the same (there is no last TOAD foil thickness to divide by),
    and a parse that returns with two NAS materials for five NAS
    thicknesses. *)
Lemma equal_length_counterexample :
  (List.length (kw.nas_foil_th no_toad_foils) = List.length (kw.nas_foil_mat no_toad_foils) /\
   List.length (kw.toad_foil_th no_toad_foils) = List.length (kw.toad_foil_mat no_toad_foils) /\
   __init__ no_toad_foils = Py.Raise Py.IndexError) /\
  (exists s',
     __init__ kw.defaults = Py.Return default_object /\
     read_constraints (single_file "constraints.csv" (unlines ["NAS Activation Foils,Zr,Zn"]))
       "constraints.csv" (State default_object [])
     = (Py.Return tt, s') /\
     List.length (t_nas_f (self s')) = 5%nat /\
     List.length (nas_mat_f (self s')) = 2%nat).
Proof.
  split.
  - split; [reflexivity|]. split; [reflexivity | vm_compute; reflexivity].
  - eexists. split; [apply init_defaults|].
    split; [vm_compute; reflexivity|]. split; reflexivity.
Qed.

End EqualLengthExamples.

(** ** Binary64 arithmetic: scaling by two *)










(** *** Multiplication *)




(** *** Division *)



(** *** Primitive floats *)













(** ** The derived min_fiss *)


Lemma last_index_unique (l : list string) (x : string) (n n' : nat) :
  last_index l x n -> last_index l x n' -> n = n'.
Proof.
  intros [Hn Hafter] [Hn' Hafter'].
  destruct (Nat.lt_trichotomy n n') as [Hlt | [Heq | Hgt]]; [|exact Heq|].
  - exfalso. exact (Hafter n' Hlt Hn').
  - exfalso. exact (Hafter' n Hgt Hn).
Qed.


Section AfterParse.

Context {libm : Py.Libm}.




End AfterParse.

Section AfterParseExamples.

#[local] Existing Instance Py.correctly_rounded.



End AfterParseExamples.

(** * Further properties *)

(** ** The chain of cases is a table *)

Lemma convert_until_strip (tokens : list string) :
  convert_until (fun t => Py.Return (Py.strip t)) tokens = (map Py.strip tokens, None).
Proof.
  induction tokens as [|t tokens IH]; [reflexivity|].
  cbn [convert_until map]. rewrite IH. reflexivity.
Qed.

Lemma convert_until_traverse {X} (conv : string -> Py.outcome X) (tokens : list string)
    (vs : list X) :
  traverse conv tokens = Py.Return vs <-> convert_until conv tokens = (vs, None).
Proof.
  revert vs. induction tokens as [|t tokens IH]; intros vs; cbn [traverse convert_until].
  - split; intros [= <-]; reflexivity.
  - destruct (conv t) as [x|e]; cbn [Py.obind]; [|split; discriminate].
    destruct (traverse conv tokens) as [xs|e] eqn:Htr; cbn [Py.obind].
    + rewrite (proj1 (IH xs) eq_refl). split; intros [= <-]; reflexivity.
    + destruct (convert_until conv tokens) as [xs [e'|]] eqn:Hcu.
      * split; discriminate.
      * pose proof (proj2 (IH xs) eq_refl). discriminate.
Qed.

Section ListLoopRun.

Context {X : Type}.
Variable get : ETA_Parameters -> list X.
Variable set : list X -> ETA_Parameters -> ETA_Parameters.
Variable conv : string -> Py.outcome X.

Hypothesis get_set : forall l o, get (set l o) = l.
Hypothesis set_set : forall l l' o, set l (set l' o) = set l o.
Hypothesis set_get : forall o, set (get o) o = o.

(** The loop over the value tokens, however it ends: the values converted
    so far have been appended. *)
Lemma append_loop_run (rest pre : list string) (s : state) :
  for_each (range (Z.of_nat (List.length pre)) (Z.of_nat (List.length (pre ++ rest))))
    (fun i =>
       v <- eval (t <~ Py.getitem (pre ++ rest) i ;; conv t) ;;
       assign (fun o => set (get o ++ [v]) o)) s
  = (ended (snd (convert_until conv rest)),
     State (set (get (self s) ++ fst (convert_until conv rest)) (self s)) (log s)).
Proof.
  revert pre s. induction rest as [|x rest IH]; intros pre s.
  - rewrite app_nil_r, range_nil by lia. cbn [for_each convert_until fst snd ended].
    rewrite app_nil_r, set_get. destruct s; reflexivity.
  - rewrite range_cons by (rewrite length_app; simpl List.length; lia).
    cbn [for_each convert_until]. unfold bind at 1 2. unfold eval.
    rewrite getitem_middle. cbn [Py.obind].
    destruct (conv x) as [v|e] eqn:Hconv.
    + unfold assign at 1.
      replace (pre ++ x :: rest) with ((pre ++ [x]) ++ rest)
        by (rewrite <- app_assoc; reflexivity).
      replace (Z.of_nat (List.length pre) + 1) with (Z.of_nat (List.length (pre ++ [x])))
        by (rewrite length_app; simpl List.length; lia).
      rewrite IH. destruct (convert_until conv rest) as [vs e].
      cbn [fst snd self log]. rewrite get_set, set_set, <- app_assoc. reflexivity.
    + cbn [fst snd ended]. rewrite app_nil_r, set_get. destruct s; reflexivity.
Qed.

Lemma list_case_run (split_list : list string) (s : state) :
  split_list <> [] ->
  (assign (set []) ;;
   for_each (range 1 (Z.of_nat (List.length split_list)))
     (fun i =>
        v <- eval (t <~ Py.getitem split_list i ;; conv t) ;;
        assign (fun o => set (get o ++ [v]) o))) s
  = (ended (snd (convert_until conv (tl split_list))),
     State (set (fst (convert_until conv (tl split_list))) (self s)) (log s)).
Proof.
  intros Hne. destruct split_list as [|h t]; [congruence|].
  unfold bind at 1. unfold assign at 1.
  change (h :: t) with ([h] ++ t) at 1 2.
  change 1 with (Z.of_nat (List.length [h])).
  rewrite append_loop_run. cbn [self log tl]. rewrite get_set, set_set. reflexivity.
Qed.

End ListLoopRun.

(** Evaluates the chain of cases in the goal once the keyword of the line is
    known. *)
Ltac run_cases_goal :=
  unfold Switch, for_each, read_constraints_case;
  cbn [keyword_text existsb];
  repeat match goal with
         | |- context [Py.lower ?a] =>
             let x := eval vm_compute in (Py.lower a) in
             change (Py.lower a) with x
         end;
  repeat match goal with
         | |- context [String.eqb ?a ?b] =>
             let x := eval vm_compute in (String.eqb a b) in
             change (String.eqb a b) with x
         end;
  cbn [orb].

(** A line that carries the keyword [k] is processed as the table says,
    whether it can be processed to the end or not. *)
Lemma line_runs_as_table (k : keyword) (line : string) (s : state) :
  line_keyword line = Py.lower (keyword_text k) ->
  read_constraints_line line s = table_line k (Py.split "," line) s.
Proof.
  unfold line_keyword. intros Hkey.
  unfold read_constraints_line. unfold bind at 1.
  rewrite item_first_token, Hkey.
  pose proof (split_not_nil "," line) as Hne.
  destruct k; run_cases_goal; unfold bind at 1; unfold table_line, line_value;
    cbn [keyword_kind].
  all: try (unfold bind, item, item_float, item_int, eval, assign, ret;
            destruct (Py.getitem (Py.split "," line) 1) as [t|e]; cbn [Py.obind];
            [|reflexivity];
            first [ destruct (Py.float (Py.strip t)) as [v|e]; reflexivity
                  | destruct (Py.int (Py.strip t)) as [v|e]; reflexivity
                  | reflexivity ]).
  - rewrite (list_case_run nas_mat_f set_nas_mat_f (fun t => Py.Return (Py.strip t)))
      by auto using set_nas_mat_f_get.
    rewrite convert_until_strip. reflexivity.
  - rewrite (list_case_run t_nas_f set_t_nas_f (fun t => Py.float (Py.strip t)))
      by auto using set_t_nas_f_get.
    destruct (convert_until _ _) as [vs [e|]]; reflexivity.
  - rewrite (list_case_run toad_mat_f set_toad_mat_f (fun t => Py.Return (Py.strip t)))
      by auto using set_toad_mat_f_get.
    rewrite convert_until_strip. reflexivity.
  - rewrite (list_case_run t_toad set_t_toad (fun t => Py.float (Py.strip t)))
      by auto using set_t_toad_get.
    destruct (convert_until _ _) as [vs [e|]]; reflexivity.
Qed.

Lemma lookup_Some (line : string) (k : keyword) :
  lookup line = Some k -> line_keyword line = Py.lower (keyword_text k).
Proof.
  unfold lookup. intros H. apply find_some in H. destruct H as [_ H].
  apply String.eqb_eq. exact H.
Qed.

Lemma lookup_None (line : string) :
  lookup line = None -> recognized (line_keyword line) = false.
Proof.
  unfold lookup. intros H.
  destruct (recognized (line_keyword line)) eqn:Hrec; [|reflexivity].
  apply recognized_true in Hrec. destruct Hrec as (k & Hk).
  pose proof (find_none _ _ H k (all_keywords_complete k)) as Hnone.
  unfold carries in Hnone. rewrite Hk, String.eqb_refl in Hnone. discriminate.
Qed.

(** No two keywords are spelt alike, whatever the case of the letters. *)
Lemma keyword_text_inj (k k' : keyword) :
  Py.lower (keyword_text k) = Py.lower (keyword_text k') -> k = k'.
Proof.
  intros H. apply String.eqb_eq in H.
  destruct k, k'; first [reflexivity | vm_compute in H; discriminate H].
Qed.

Lemma lookup_carries (line : string) (k : keyword) :
  carries k line = true -> lookup line = Some k.
Proof.
  intros Hk. apply String.eqb_eq in Hk.
  destruct (lookup line) as [k'|] eqn:Hl.
  - apply lookup_Some in Hl. rewrite Hk in Hl.
    apply keyword_text_inj in Hl. congruence.
  - apply lookup_None in Hl. rewrite Hk in Hl.
    unfold recognized in Hl.
    assert (existsb (fun k0 => String.eqb (Py.lower (keyword_text k))
                                 (Py.lower (keyword_text k0))) all_keywords = true) as Ht.
    { apply existsb_exists. exists k. split; [apply all_keywords_complete|].
      apply String.eqb_refl. }
    congruence.
Qed.

(** One line, as the chain of cases processes it and as the table does. *)
Lemma line_runs_as_dispatch (line : string) (s : state) :
  read_constraints_line line s = table_dispatch line s.
Proof.
  unfold table_dispatch. destruct (lookup line) as [k|] eqn:Hl.
  - apply line_runs_as_table, lookup_Some, Hl.
  - apply lookup_None in Hl.
    destruct (String.eqb (line_keyword line) "/") eqn:Hslash.
    + apply String.eqb_eq, lower_is_slash in Hslash. apply comment_line, Hslash.
    + apply String.eqb_neq in Hslash. apply unrecognized_line; assumption.
Qed.

Lemma for_each_ext {A} (l : list A) (body body' : A -> M unit) (s : state) :
  (forall x s0, body x s0 = body' x s0) ->
  for_each l body s = for_each l body' s.
Proof.
  intros Hext. revert s. induction l as [|x l IH]; intros s; [reflexivity|].
  cbn [for_each]. unfold bind. rewrite Hext.
  destruct (body' x s) as [[[]|e] s1]; [apply IH | reflexivity].
Qed.

(** X1: the chain of thirty-four cases of [read_constraints] behaves as a
    table from keywords to attributes does, on every list of lines and
    whether the lines can be processed to the end or not: a line whose first
    token, trimmed and case-folded, is a keyword assigns the attribute of
    that keyword (a scalar only once its value has been converted, a list
    token by token), a line whose first token is [/] does nothing, and any
    other line logs one warning that names its first token. *)
Theorem lines_run_as_table (lines : list string) (s : state) :
  for_each lines read_constraints_line s = for_each lines table_dispatch s.
Proof.
  revert s. induction lines as [|line lines IH]; intros s; [reflexivity|].
  cbn [for_each]. unfold bind. rewrite line_runs_as_dispatch.
  destruct (table_dispatch line s) as [[[]|e] s1]; [apply IH | reflexivity].
Qed.

(** ** Assignments through the table *)

Lemma put_other (k k' : keyword) (v : value) (o : ETA_Parameters) :
  k' <> k -> attribute k' (put k v o) = attribute k' o.
Proof.
  intros Hne. destruct k, v; try reflexivity; destruct k'; try reflexivity;
    exfalso; apply Hne; reflexivity.
Qed.

Lemma put_frame (k : keyword) (v : value) (o : ETA_Parameters) :
  spectrum_type (put k v o) = spectrum_type o /\
  spectrum (put k v o) = spectrum o /\
  f (put k v o) = f o.
Proof. destruct k, v; repeat split. Qed.

Lemma put_floats (k : keyword) (vs : list float) (o : ETA_Parameters) :
  keyword_kind k = KFloats -> attribute k (put k (VFloats vs) o) = VFloats vs.
Proof. destruct k; cbn [keyword_kind]; intros H; first [discriminate H | reflexivity]. Qed.

(** What one line of a keyword leaves of the object, however it ends: the
    file, the spectrum and the attributes of the other keywords. *)
Lemma table_line_frame (k : keyword) (split_list : list string) (s s' : state)
    (r : Py.outcome unit) :
  table_line k split_list s = (r, s') ->
  (forall k', k' <> k -> attribute k' (self s') = attribute k' (self s)) /\
  spectrum_type (self s') = spectrum_type (self s) /\
  spectrum (self s') = spectrum (self s) /\
  f (self s') = f (self s) /\
  log s' = log s.
Proof.
  unfold table_line. intros H.
  assert (Hput : forall v,
            (forall k', k' <> k ->
                        attribute k' (self (State (put k v (self s)) (log s)))
                        = attribute k' (self s)) /\
            spectrum_type (self (State (put k v (self s)) (log s))) = spectrum_type (self s) /\
            spectrum (self (State (put k v (self s)) (log s))) = spectrum (self s) /\
            f (self (State (put k v (self s)) (log s))) = f (self s) /\
            log (State (put k v (self s)) (log s)) = log s).
  { intros v. cbn [self log]. destruct (put_frame k v (self s)) as (H1 & H2 & H3).
    repeat split; try assumption. intros k' Hk'. apply put_other, Hk'. }
  destruct (keyword_kind k).
  1-3: destruct (line_value k split_list) as [v|e];
       injection H as _ <-; [apply Hput | repeat split].
  - destruct (convert_until _ _) as [vs e]. injection H as _ <-. apply Hput.
  - injection H as _ <-. apply Hput.
Qed.

(** One line, however it ends, leaves the file and the spectrum alone and
    logs at most one warning. *)
Lemma line_keeps_file (line : string) (s s' : state) (r : Py.outcome unit) :
  read_constraints_line line s = (r, s') ->
  spectrum_type (self s') = spectrum_type (self s) /\
  spectrum (self s') = spectrum (self s) /\
  f (self s') = f (self s).
Proof.
  rewrite line_runs_as_dispatch. unfold table_dispatch.
  destruct (lookup line) as [k|].
  - intros H. apply table_line_frame in H. tauto.
  - destruct (String.eqb _ _); intros H; injection H as _ <-; repeat split.
Qed.

Lemma lines_keep_file (lines : list string) (s s' : state) (r : Py.outcome unit) :
  for_each lines read_constraints_line s = (r, s') ->
  spectrum_type (self s') = spectrum_type (self s) /\
  spectrum (self s') = spectrum (self s) /\
  f (self s') = f (self s).
Proof.
  revert s. induction lines as [|line lines IH]; intros s H.
  - injection H as _ <-. repeat split.
  - cbn [for_each] in H. unfold bind in H.
    destruct (read_constraints_line line s) as [[[]|e] s1] eqn:Hline.
    + apply line_keeps_file in Hline. apply IH in H.
      destruct Hline as (H1 & H2 & H3), H as (H4 & H5 & H6).
      repeat split; congruence.
    + injection H as _ <-. apply line_keeps_file in Hline. exact Hline.
Qed.

(** ** Lines that cannot be processed *)

Lemma getitem_1 {A} (h : A) (t : list A) :
  Py.getitem (h :: t) 1
  = match t with
    | [] => Py.Raise Py.IndexError
    | x :: _ => Py.Return x
    end.
Proof.
  destruct t as [|x t]; [reflexivity|].
  change (h :: x :: t) with ([h] ++ x :: t).
  change 1 with (Z.of_nat (List.length [h])). apply getitem_middle.
Qed.

Lemma convert_until_app {X} (conv : string -> Py.outcome X) (good rest : list string)
    (bad : string) (vs : list X) (e : Py.exn) :
  traverse conv good = Py.Return vs ->
  conv bad = Py.Raise e ->
  convert_until conv (good ++ bad :: rest) = (vs, Some e).
Proof.
  revert vs. induction good as [|t good IH]; intros vs Hgood Hbad.
  - injection Hgood as <-. cbn [app convert_until]. rewrite Hbad. reflexivity.
  - cbn [traverse] in Hgood. cbn [app convert_until].
    destruct (conv t) as [x|e0]; [|discriminate Hgood]. cbn [Py.obind] in Hgood.
    destruct (traverse conv good) as [xs|e0]; [|discriminate Hgood].
    injection Hgood as <-. rewrite (IH xs eq_refl Hbad). reflexivity.
Qed.

Lemma convert_until_float_raises (tokens : list string) (vs : list float) (e : Py.exn) :
  convert_until (fun t => Py.float (Py.strip t)) tokens = (vs, Some e) ->
  e = Py.ValueError.
Proof.
  revert vs. induction tokens as [|t tokens IH]; intros vs H; [discriminate H|].
  cbn [convert_until] in H.
  destruct (Py.float (Py.strip t)) as [x|e0] eqn:Hconv.
  - destruct (convert_until _ tokens) as [xs e1]. injection H as _ ->.
    apply (IH xs). reflexivity.
  - injection H as _ <-. apply float_raises in Hconv. exact Hconv.
Qed.

(** X2: a line of the constraints file raises only for the value of a
    keyword: [IndexError] when a keyword that takes one value stands alone
    on its line, and [ValueError] when a token that is to be a number is not
    one.  Comments, unknown first tokens and lists of material names never
    raise.  Whatever the line raises, nothing is logged and the attributes
    of the other keywords are as before; unless the keyword is one of the
    two lists of thicknesses, the whole state is as before. *)
Theorem line_raises (line : string) (s s' : state) (e : Py.exn) :
  read_constraints_line line s = (Py.Raise e, s') ->
  exists k : keyword,
    carries k line = true /\
    log s' = log s /\
    (forall k', k' <> k -> attribute k' (self s') = attribute k' (self s)) /\
    ((e = Py.IndexError /\ tl (Py.split "," line) = [] /\ scalar k = true /\ s' = s) \/
     (e = Py.ValueError /\ (keyword_kind k = KFloat \/ keyword_kind k = KInt) /\ s' = s) \/
     (e = Py.ValueError /\ keyword_kind k = KFloats)).
Proof.
  rewrite line_runs_as_dispatch. unfold table_dispatch.
  destruct (lookup line) as [k|] eqn:Hlookup;
    [|destruct (String.eqb _ _); discriminate].
  intros Hrun. exists k.
  split; [apply String.eqb_eq, lookup_Some, Hlookup|].
  destruct (table_line_frame _ _ _ _ _ Hrun) as (Hother & _ & _ & _ & Hlog).
  split; [exact Hlog|]. split; [exact Hother|].
  unfold table_line in Hrun. unfold scalar.
  destruct (split_cons "," line) as (h & t & Hsplit). rewrite Hsplit in *.
  unfold line_value in Hrun.
  destruct (keyword_kind k) eqn:Hkind; rewrite ?Hkind in Hrun.
  - rewrite getitem_1 in Hrun. destruct t as [|x t]; cbn [Py.obind] in Hrun.
    + injection Hrun as <- <-. left. repeat split.
    + destruct (Py.float (Py.strip x)) as [v|e0] eqn:Hconv; cbn [Py.obind] in Hrun;
        [discriminate Hrun|].
      injection Hrun as <- <-. apply float_raises in Hconv. subst e0.
      right. left. repeat split. left. reflexivity.
  - rewrite getitem_1 in Hrun. destruct t as [|x t]; cbn [Py.obind] in Hrun.
    + injection Hrun as <- <-. left. repeat split.
    + destruct (Py.int (Py.strip x)) as [v|e0] eqn:Hconv; cbn [Py.obind] in Hrun;
        [discriminate Hrun|].
      injection Hrun as <- <-. apply int_raises in Hconv. subst e0.
      right. left. repeat split. right. reflexivity.
  - rewrite getitem_1 in Hrun. destruct t as [|x t]; cbn [Py.obind] in Hrun.
    + injection Hrun as <- <-. left. repeat split.
    + discriminate Hrun.
  - destruct (convert_until _ _) as [vs [e0|]] eqn:Hconv; cbn [ended] in Hrun;
      [|discriminate Hrun].
    injection Hrun as <- _. apply convert_until_float_raises in Hconv. subst e0.
    right. right. split; reflexivity.
  - discriminate Hrun.
Qed.

Section LineRaisesExample.

#[local] Existing Instance Py.correctly_rounded.

Lemma line_raises_witness :
  exists k : keyword,
    carries k "ETA Max Weight" = true /\
    scalar k = true /\
    tl (Py.split "," "ETA Max Weight") = [] /\
    read_constraints_line "ETA Max Weight" (State default_object [])
    = (Py.Raise Py.IndexError, State default_object []).
Proof.
  assert (Hrun : read_constraints_line "ETA Max Weight" (State default_object [])
                 = (Py.Raise Py.IndexError, State default_object []))
    by (vm_compute; reflexivity).
  destruct (line_raises _ _ _ _ Hrun)
    as (k & Hk & _ & _ & [(_ & Htl & Hscalar & _) | [(He & _) | (He & _)]]);
    [|discriminate He | discriminate He].
  exists k. repeat split; assumption.
Defined.

End LineRaisesExample.

(** X3: a line that names a list of foil thicknesses and has a token that
    is no number among its values raises [ValueError] and leaves the list
    cut short: it holds the values before that token, not the list it held
    before the line.  No other attribute changes. *)
Theorem thickness_line_cut_short (k : keyword) (line bad : string)
    (good rest : list string) (vs : list float) (e : Py.exn) (s : state) :
  carries k line = true ->
  keyword_kind k = KFloats ->
  tl (Py.split "," line) = good ++ bad :: rest ->
  traverse (fun t => Py.float (Py.strip t)) good = Py.Return vs ->
  Py.float (Py.strip bad) = Py.Raise e ->
  exists s' : state,
    read_constraints_line line s = (Py.Raise Py.ValueError, s') /\
    attribute k (self s') = VFloats vs /\
    (forall k', k' <> k -> attribute k' (self s') = attribute k' (self s)) /\
    log s' = log s.
Proof.
  intros Hk Hkind Htokens Hgood Hbad.
  pose proof (float_raises _ _ Hbad) as ->.
  rewrite line_runs_as_dispatch. unfold table_dispatch.
  rewrite (lookup_carries _ _ Hk). unfold table_line. rewrite Hkind, Htokens.
  rewrite (convert_until_app _ good rest bad vs Py.ValueError Hgood Hbad).
  eexists. split; [reflexivity|]. cbn [self log ended].
  split; [apply put_floats, Hkind|]. split; [|reflexivity].
  intros k' Hk'. apply put_other, Hk'.
Qed.

Section ThicknessExample.

#[local] Existing Instance Py.correctly_rounded.

Lemma thickness_line_cut_short_witness :
  exists s' : state,
    read_constraints_line "TOAD Activation Foil Thickness,0.1,thick,0.3"
      (State default_object [])
    = (Py.Raise Py.ValueError, s') /\
    attribute TOAD_Activation_Foil_Thickness (self s') = VFloats [0.1%float] /\
    (forall k', k' <> TOAD_Activation_Foil_Thickness ->
                attribute k' (self s') = attribute k' default_object) /\
    log s' = [].
Proof.
  apply (thickness_line_cut_short TOAD_Activation_Foil_Thickness
           "TOAD Activation Foil Thickness,0.1,thick,0.3" "thick" ["0.1"] ["0.3"]
           [0.1%float] Py.ValueError (State default_object []));
    vm_compute; reflexivity.
Defined.

End ThicknessExample.

(** ** read_constraints on a file that opens, however its lines end *)

Lemma find_ind_None (toad_mat_f : list string) (fissile_mat : string) :
  ~ In fissile_mat toad_mat_f ->
  find_ind toad_mat_f fissile_mat 0 None = None.
Proof.
  intros Hnot.
  destruct (find_ind_spec toad_mat_f fissile_mat 0 None)
    as [[Hsame _] | (n & _ & Hnth & _)]; [exact Hsame|].
  exfalso. apply Hnot. apply (nth_error_In _ _ Hnth).
Qed.

Lemma find_ind_last (toad_mat_f : list string) (fissile_mat : string) (n : nat) :
  last_index toad_mat_f fissile_mat n ->
  find_ind toad_mat_f fissile_mat 0 None = Some (Z.of_nat n).
Proof.
  intros Hlast.
  destruct (find_ind_spec toad_mat_f fissile_mat 0 None)
    as [[_ Hnone] | (n' & Hfound & Hnth & Hafter)].
  - exfalso. exact (Hnone n (proj1 Hlast)).
  - rewrite Hfound. f_equal.
    rewrite (last_index_unique _ _ _ _ Hlast (conj Hnth Hafter)). lia.
Qed.

Lemma getitem_beyond {A} (l : list A) (n : nat) :
  (List.length l <= n)%nat -> Py.getitem l (Z.of_nat n) = Py.Raise Py.IndexError.
Proof.
  intros H. unfold Py.getitem. cbv zeta.
  replace (Z.of_nat n <? 0) with false by (symmetry; apply Z.ltb_ge; lia).
  replace (Z.of_nat (List.length l) <=? Z.of_nat n) with true
    by (symmetry; apply Z.leb_le; lia).
  rewrite orb_true_r. reflexivity.
Qed.

Lemma warnings_app (l1 l2 : list string) : warnings (l1 ++ l2) = warnings l1 ++ warnings l2.
Proof. unfold warnings. rewrite filter_app, map_app. reflexivity. Qed.

(** The log after the lines: one warning for each line that is neither the
    line of a keyword nor a comment. *)
Lemma lines_log (lines : list string) (s s' : state) :
  for_each lines read_constraints_line s = (Py.Return tt, s') ->
  log s' = log s ++ warnings lines.
Proof.
  revert s. induction lines as [|line lines IH]; intros s H.
  - injection H as <-. unfold warnings. cbn [filter map]. rewrite app_nil_r. reflexivity.
  - cbn [for_each] in H. apply bind_Return in H. destruct H as ([] & s1 & Hline & Hrest).
    rewrite (IH s1 Hrest). change (line :: lines) with ([line] ++ lines).
    rewrite warnings_app, app_assoc. f_equal.
    rewrite line_runs_as_dispatch in Hline. unfold table_dispatch in Hline.
    unfold warnings. cbn [filter map].
    destruct (lookup line) as [k|] eqn:Hlookup.
    + apply table_line_frame in Hline. destruct Hline as (_ & _ & _ & _ & ->).
      apply lookup_Some in Hlookup. unfold recognized.
      replace (existsb _ all_keywords) with true.
      * cbn [negb andb map]. rewrite app_nil_r. reflexivity.
      * symmetry. apply existsb_exists. exists k.
        split; [apply all_keywords_complete|]. apply String.eqb_eq. exact Hlookup.
    + apply lookup_None in Hlookup. rewrite Hlookup. cbn [negb andb].
      destruct (String.eqb (line_keyword line) "/"); injection Hline as <-;
        cbn [negb map log]; [rewrite app_nil_r|]; reflexivity.
Qed.

(** What a line raises, and that it logs nothing then. *)
Lemma line_Raise (line : string) (s s' : state) (e : Py.exn) :
  read_constraints_line line s = (Py.Raise e, s') ->
  (e = Py.IndexError \/ e = Py.ValueError) /\ log s' = log s.
Proof.
  rewrite line_runs_as_dispatch. unfold table_dispatch.
  destruct (lookup line) as [k|]; [|destruct (String.eqb _ _); discriminate].
  intros Hrun. split; [|apply (table_line_frame _ _ _ _ _ Hrun)].
  unfold table_line, line_value in Hrun.
  destruct (keyword_kind k).
  1-3: destruct (Py.getitem (Py.split "," line) 1) as [t|e0] eqn:Hget;
       cbn [Py.obind] in Hrun;
       [|injection Hrun as <- _; left; apply (getitem_raises _ _ _ Hget)].
  - destruct (Py.float (Py.strip t)) as [v|e0] eqn:Hconv; cbn [Py.obind] in Hrun;
      [discriminate Hrun|].
    injection Hrun as <- _. right. apply (float_raises _ _ Hconv).
  - destruct (Py.int (Py.strip t)) as [v|e0] eqn:Hconv; cbn [Py.obind] in Hrun;
      [discriminate Hrun|].
    injection Hrun as <- _. right. apply (int_raises _ _ Hconv).
  - discriminate Hrun.
  - destruct (convert_until _ _) as [vs [e0|]] eqn:Hconv; cbn [ended] in Hrun;
      [|discriminate Hrun].
    injection Hrun as <- _. right. apply (convert_until_float_raises _ _ _ Hconv).
  - discriminate Hrun.
Qed.

Section OpenedRuns.

Context {libm : Py.Libm}.

(** On a file that opens, [read_constraints] is the loop over the lines
    and, if every line is processed, the closing computation on the object
    with the file closed; a line that raises ends the call there. *)
Lemma read_constraints_Opened_run (fs : Py.filesystem) (filename content : string)
    (s : state) :
  fs filename = Py.Opened content ->
  read_constraints fs filename s
  = match for_each (Py.readlines content) read_constraints_line
            (State (set_f (Some (Py.File false)) (self s)) (log s)) with
    | (Py.Return _, s1) =>
        calculate_fissions (State (set_f (Some (Py.File true)) (self s1)) (log s1))
    | (Py.Raise e, s1) => (Py.Raise e, s1)
    end.
Proof.
  intros Hopen. rewrite (read_constraints_Opened _ _ _ _ Hopen).
  set (s0 := State (set_f (Some (Py.File false)) (self s)) (log s)).
  unfold bind at 1. unfold try_except_IOError. unfold bind at 1.
  destruct (for_each (Py.readlines content) read_constraints_line s0)
    as [[[]|e] s1] eqn:Hloop.
  - apply lines_keep_file in Hloop. destruct Hloop as (_ & _ & Hf).
    unfold close, bind, get. rewrite Hf. cbn [s0 self f].
    unfold assign, assert_closed, bind, get, eval, assert_. cbn [self log f Py.closed].
    reflexivity.
  - pose proof (no_IOError_for_each (Py.readlines content) read_constraints_line
                  no_IOError_line s0 e s1 Hloop) as Hno.
    destruct e; try reflexivity. exfalso. exact (Hno errno strerror eq_refl).
Qed.

(** X4: when a line of the constraints file raises, [read_constraints]
    ends there with that exception, an [IndexError] or a [ValueError]: the
    lines before it have been applied, the lines after it are not read, the
    closing computation does not run, nothing is logged about the failure,
    and the file is left open in [f]. *)
Theorem failing_line_ends_the_parse (fs : Py.filesystem) (filename content bad : string)
    (pre post : list string) (s s1 s2 : state) (e : Py.exn) :
  fs filename = Py.Opened content ->
  Py.readlines content = pre ++ bad :: post ->
  for_each pre read_constraints_line
    (State (set_f (Some (Py.File false)) (self s)) (log s))
  = (Py.Return tt, s1) ->
  read_constraints_line bad s1 = (Py.Raise e, s2) ->
  read_constraints fs filename s = (Py.Raise e, s2) /\
  (e = Py.IndexError \/ e = Py.ValueError) /\
  f (self s2) = Some (Py.File false) /\
  log s2 = log s ++ warnings pre.
Proof.
  intros Hopen Hlines Hpre Hbad.
  assert (Hloop : for_each (pre ++ bad :: post) read_constraints_line
                    (State (set_f (Some (Py.File false)) (self s)) (log s))
                  = (Py.Raise e, s2)).
  { clear Hlines Hopen. revert Hpre.
    generalize (State (set_f (Some (Py.File false)) (self s)) (log s)).
    induction pre as [|line pre IH]; intros s0 Hpre.
    - injection Hpre as ->. cbn [app for_each]. unfold bind. rewrite Hbad. reflexivity.
    - cbn [for_each] in Hpre. apply bind_Return in Hpre.
      destruct Hpre as ([] & s0' & Hline & Hrest).
      cbn [app for_each]. unfold bind at 1. rewrite Hline. apply IH, Hrest. }
  split.
  - rewrite (read_constraints_Opened_run _ _ _ _ Hopen), Hlines, Hloop. reflexivity.
  - split.
    + apply (line_Raise _ _ _ _ Hbad).
    + apply lines_keep_file in Hloop. destruct Hloop as (_ & _ & Hf).
      split; [rewrite Hf; reflexivity|].
      rewrite (proj2 (line_Raise _ _ _ _ Hbad)). apply (lines_log _ _ _ Hpre).
Qed.

(** X5: when [read_constraints] returns on a file that opened, it has
    logged one warning for each line whose first token, trimmed and
    case-folded, is neither a keyword nor the comment mark, in file order,
    each naming the first token as written, and nothing else; and the file
    is closed. *)
Theorem parse_logs_the_unknown_lines (fs : Py.filesystem) (filename content : string)
    (s s' : state) :
  fs filename = Py.Opened content ->
  read_constraints fs filename s = (Py.Return tt, s') ->
  log s' = log s ++ warnings (Py.readlines content) /\
  f (self s') = Some (Py.File true).
Proof.
  intros Hopen Hrun.
  apply (read_constraints_Opened_Return _ _ _ _ _ Hopen) in Hrun.
  destruct Hrun as (s1 & Hloop & Hcalc).
  apply calculate_fissions_Return in Hcalc.
  destruct Hcalc as (n & t & r2 & _ & _ & _ & _ & ->). cbn [self log].
  split; [apply (lines_log _ _ _ Hloop) | reflexivity].
Qed.

(** X6: when the lines have been processed and the fissile material is
    none of the TOAD foil materials, [read_constraints] raises
    [UnboundLocalError]: the loop that looks the material up never assigns
    its index.  The lines have been applied and the file is closed, but
    [min_fiss] is left as the lines had it, not divided.  (The square of the
    foil radius is computed first; the hypothesis on it says that it does
    not overflow.) *)
Theorem fissile_material_not_a_foil (fs : Py.filesystem) (filename content : string)
    (s s1 : state) (r2 : float) :
  fs filename = Py.Opened content ->
  for_each (Py.readlines content) read_constraints_line
    (State (set_f (Some (Py.File false)) (self s)) (log s))
  = (Py.Return tt, s1) ->
  ~ In (fissile_mat (self s1)) (toad_mat_f (self s1)) ->
  Py.pow2 (r_toad (self s1)) = Py.Return r2 ->
  read_constraints fs filename s
  = (Py.Raise Py.UnboundLocalError,
     State (set_f (Some (Py.File true)) (self s1)) (log s1)).
Proof.
  intros Hopen Hloop Hnot Hr2.
  rewrite (read_constraints_Opened_run _ _ _ _ Hopen), Hloop.
  unfold calculate_fissions, bind, get, eval, fissions_per_source.
  cbn [self log toad_mat_f fissile_mat r_toad set_f].
  rewrite (find_ind_None _ _ Hnot), Hr2. reflexivity.
Qed.

(** X7: when the lines have been processed and the fissile material is a
    TOAD foil material, but the list of TOAD foil thicknesses has no entry
    at the last index at which it stands, [read_constraints] raises
    [IndexError]; the file is closed and [min_fiss] is not divided. *)
Theorem fissile_foil_without_thickness (fs : Py.filesystem) (filename content : string)
    (s s1 : state) (r2 : float) (n : nat) :
  fs filename = Py.Opened content ->
  for_each (Py.readlines content) read_constraints_line
    (State (set_f (Some (Py.File false)) (self s)) (log s))
  = (Py.Return tt, s1) ->
  last_index (toad_mat_f (self s1)) (fissile_mat (self s1)) n ->
  (List.length (t_toad (self s1)) <= n)%nat ->
  Py.pow2 (r_toad (self s1)) = Py.Return r2 ->
  read_constraints fs filename s
  = (Py.Raise Py.IndexError,
     State (set_f (Some (Py.File true)) (self s1)) (log s1)).
Proof.
  intros Hopen Hloop Hlast Hshort Hr2.
  rewrite (read_constraints_Opened_run _ _ _ _ Hopen), Hloop.
  unfold calculate_fissions, bind, get, eval, fissions_per_source.
  cbn [self log toad_mat_f fissile_mat r_toad t_toad set_f].
  rewrite (find_ind_last _ _ _ Hlast), Hr2. cbn [load_ind Py.obind].
  rewrite (getitem_beyond _ _ Hshort). reflexivity.
Qed.

End OpenedRuns.

Section OpenedRunsExamples.

#[local] Existing Instance Py.correctly_rounded.

Lemma failing_line_ends_the_parse_witness :
  let fs := single_file "constraints.csv"
              (unlines ["Foo,1"; "ETA Max Weight,90"; "Source Strength,strong";
                        "ETA Max Weight,100"]) in
  exists s2 : state,
    read_constraints fs "constraints.csv" (State default_object [])
    = (Py.Raise Py.ValueError, s2) /\
    max_weight (self s2) = 90%float /\
    f (self s2) = Some (Py.File false) /\
    log s2 = [warning_input "Foo"].
Proof.
  intros fs.
  pose (s1 := snd (for_each [unlines ["Foo,1"]; unlines ["ETA Max Weight,90"]]
                     read_constraints_line
                     (State (set_f (Some (Py.File false)) default_object) []))).
  pose (s2 := snd (read_constraints_line (unlines ["Source Strength,strong"]) s1)).
  exists s2.
  destruct (failing_line_ends_the_parse fs "constraints.csv"
              (unlines ["Foo,1"; "ETA Max Weight,90"; "Source Strength,strong";
                        "ETA Max Weight,100"])
              (unlines ["Source Strength,strong"])
              [unlines ["Foo,1"]; unlines ["ETA Max Weight,90"]]
              [unlines ["ETA Max Weight,100"]]
              (State default_object []) s1 s2 Py.ValueError)
    as (Hrun & _ & Hf & Hlog); try (vm_compute; reflexivity).
  split; [exact Hrun|]. split; [vm_compute; reflexivity|].
  split; [exact Hf | exact Hlog].
Defined.

Lemma parse_logs_the_unknown_lines_witness :
  let content := unlines ["Foo,1"; "/,a comment"; "ETA Max Weight,90"; "bar"] in
  let s' := snd (read_constraints (single_file "constraints.csv" content)
                   "constraints.csv" (State default_object [])) in
  log s' = [warning_input "Foo"; warning_input "bar"] /\
  f (self s') = Some (Py.File true).
Proof.
  intros content s'.
  assert (Hrun : read_constraints (single_file "constraints.csv" content)
                   "constraints.csv" (State default_object [])
                 = (Py.Return tt, s')) by (vm_compute; reflexivity).
  destruct (parse_logs_the_unknown_lines (single_file "constraints.csv" content)
              "constraints.csv" content (State default_object []) s' eq_refl Hrun)
    as [Hlog Hf].
  split; [rewrite Hlog; reflexivity | exact Hf].
Defined.

Lemma fissile_material_not_a_foil_witness :
  exists s1 : state,
    read_constraints (single_file "constraints.csv" (unlines ["Fissile Foil,U"]))
      "constraints.csv" (State default_object [])
    = (Py.Raise Py.UnboundLocalError, s1) /\
    fissile_mat (self s1) = "U" /\
    min_fiss (self s1) = min_fiss default_object.
Proof.
  eexists. split.
  - apply (fissile_material_not_a_foil
             (single_file "constraints.csv" (unlines ["Fissile Foil,U"]))
             "constraints.csv" (unlines ["Fissile Foil,U"]) (State default_object [])
             (State (set_fissile_mat "U" (set_f (Some (Py.File false)) default_object)) [])
             1.567504%float).
    + reflexivity.
    + vm_compute. reflexivity.
    + cbn. intros [H | [H | []]]; discriminate H.
    + vm_compute. reflexivity.
  - split; reflexivity.
Defined.

Lemma fissile_foil_without_thickness_witness :
  exists s1 : state,
    read_constraints
      (single_file "constraints.csv" (unlines ["TOAD Activation Foils,Au,In,Pb"]))
      "constraints.csv" (State default_object [])
    = (Py.Raise Py.IndexError, s1) /\
    toad_mat_f (self s1) = ["Au"; "In"; "Pb"] /\
    List.length (t_toad (self s1)) = 2%nat.
Proof.
  eexists. split.
  - apply (fissile_foil_without_thickness
             (single_file "constraints.csv" (unlines ["TOAD Activation Foils,Au,In,Pb"]))
             "constraints.csv" (unlines ["TOAD Activation Foils,Au,In,Pb"])
             (State default_object [])
             (State (set_toad_mat_f ["Au"; "In"; "Pb"]
                       (set_f (Some (Py.File false)) default_object)) [])
             1.567504%float 2).
    + reflexivity.
    + vm_compute. reflexivity.
    + split; [reflexivity|]. intros [|[|[|[|j]]]] Hj; try lia; discriminate.
    + cbn. lia.
    + vm_compute. reflexivity.
  - split; reflexivity.
Defined.

End OpenedRunsExamples.

(** ** read_obj on any spectrum file *)

Lemma row_value_raises (line : string) (e : Py.exn) :
  row_value line = Py.Raise e -> e = Py.IndexError \/ e = Py.ValueError.
Proof.
  unfold row_value. intros H.
  destruct (Py.getitem (Py.split "," line) 0) as [t0|e0] eqn:H0; cbn [Py.obind] in H;
    [|injection H as <-; left; apply (getitem_raises _ _ _ H0)].
  destruct (Py.float (Py.strip t0)) as [x|e0] eqn:Hx; cbn [Py.obind] in H;
    [|injection H as <-; right; apply (float_raises _ _ Hx)].
  destruct (Py.getitem (Py.split "," line) 1) as [t1|e0] eqn:H1; cbn [Py.obind] in H;
    [|injection H as <-; left; apply (getitem_raises _ _ _ H1)].
  destruct (Py.float (Py.strip t1)) as [y|e0] eqn:Hy; cbn [Py.obind] in H;
    [discriminate H|].
  injection H as <-. right. apply (float_raises _ _ Hy).
Qed.

Lemma convert_until_rows_raise (rows : list string) (vs : list (float * float))
    (e : Py.exn) :
  convert_until row_value rows = (vs, Some e) ->
  e = Py.IndexError \/ e = Py.ValueError.
Proof.
  revert vs. induction rows as [|row rows IH]; intros vs H; [discriminate H|].
  cbn [convert_until] in H.
  destruct (row_value row) as [x|e0] eqn:Hrow.
  - destruct (convert_until row_value rows) as [xs e1]. injection H as _ ->.
    apply (IH xs). reflexivity.
  - injection H as _ <-. apply (row_value_raises _ _ Hrow).
Qed.

(** The loop over the rows, however it ends: the rows converted before the
    first that fails have been appended to the local list, and the object
    is not touched. *)
Lemma read_obj_rows_run (rows : list string) (spectrum : list (float * float))
    (s : state) :
  read_obj_rows rows spectrum s
  = match convert_until row_value rows with
    | (vs, None) => (Py.Return (spectrum ++ vs), s)
    | (_, Some e) => (Py.Raise e, s)
    end.
Proof.
  revert spectrum. induction rows as [|row rows IH]; intros spectrum.
  - cbn [read_obj_rows convert_until]. rewrite app_nil_r. reflexivity.
  - cbn [read_obj_rows convert_until].
    assert (Hrow : forall k : float -> float -> M (list (float * float)),
              (e <- item_float (Py.split "," row) 0 ;;
               flux <- item_float (Py.split "," row) 1 ;;
               k e flux) s
              = match row_value row with
                | Py.Return (e, flux) => k e flux s
                | Py.Raise e => (Py.Raise e, s)
                end).
    { intros k. unfold row_value, bind, item_float, eval.
      destruct (Py.getitem (Py.split "," row) 0) as [t0|e0]; cbn [Py.obind]; [|reflexivity].
      destruct (Py.float (Py.strip t0)) as [x|e0]; cbn [Py.obind]; [|reflexivity].
      destruct (Py.getitem (Py.split "," row) 1) as [t1|e0]; cbn [Py.obind]; [|reflexivity].
      destruct (Py.float (Py.strip t1)) as [y|e0]; cbn [Py.obind]; reflexivity. }
    rewrite (Hrow (fun e flux => read_obj_rows rows (spectrum ++ [(e, flux)]))).
    destruct (row_value row) as [[x y]|e]; [|reflexivity].
    rewrite IH. destruct (convert_until row_value rows) as [vs [e|]]; [reflexivity|].
    rewrite <- app_assoc. reflexivity.
Qed.

(** [read_obj] on a file that opens: the first line gives the type; if
    every row converts, the rows are stored and the file is closed; if a row
    fails, its exception ends the call with the file open and the spectrum
    as it was. *)
Lemma read_obj_Opened_run (fs : Py.filesystem) (filename content first : string)
    (rows : list string) (s : state) :
  fs filename = Py.Opened content ->
  readline content = (first, rows) ->
  read_obj fs filename s
  = match convert_until row_value rows with
    | (vs, None) =>
        (Py.Return tt,
         State (set_spectrum vs
                  (set_f (Some (Py.File true))
                     (set_spectrum_type (Py.strip first)
                        (set_f (Some (Py.File false)) (self s)))))
               (log s))
    | (_, Some e) =>
        (Py.Raise e,
         State (set_spectrum_type (Py.strip first)
                  (set_f (Some (Py.File false)) (self s)))
               (log s))
    end.
Proof.
  intros Hopen Hreadline.
  unfold read_obj, read_obj_try_except, read_obj_try. unfold bind at 1 2.
  rewrite (open_Opened _ _ _ _ Hopen), Hreadline.
  unfold bind at 1. unfold assign at 1. cbn [self log].
  unfold bind at 1. rewrite read_obj_rows_run.
  destruct (convert_until row_value rows) as [vs [e|]] eqn:Hrows.
  - destruct (convert_until_rows_raise _ _ _ Hrows) as [-> | ->]; reflexivity.
  - reflexivity.
Qed.

(** X8: a spectrum file that opens and whose rows all start with two
    numbers is parsed to the end.  Afterwards [spectrum_type] is the first
    line, trimmed, and [spectrum] holds one pair for each further line, in
    file order, made of its first two tokens; tokens after the second are
    ignored.  What the object held as spectrum before is replaced, not
    extended.  The file is closed, nothing is logged, and no attribute named
    by a keyword changes. *)
Theorem read_obj_stores_the_rows (fs : Py.filesystem) (filename content first : string)
    (rows : list string) (pairs : list (float * float)) (s : state) :
  fs filename = Py.Opened content ->
  readline content = (first, rows) ->
  traverse row_value rows = Py.Return pairs ->
  exists s' : state,
    read_obj fs filename s = (Py.Return tt, s') /\
    spectrum_type (self s') = Py.strip first /\
    spectrum (self s') = pairs /\
    f (self s') = Some (Py.File true) /\
    (forall k, attribute k (self s') = attribute k (self s)) /\
    log s' = log s.
Proof.
  intros Hopen Hreadline Hrows.
  rewrite (read_obj_Opened_run _ _ _ _ _ _ Hopen Hreadline).
  apply convert_until_traverse in Hrows. rewrite Hrows.
  eexists. split; [reflexivity|]. cbn [self log].
  repeat split.
Qed.

(** X9: when a row of the spectrum file does not start with two numbers,
    [read_obj] ends at the first such row with its exception, an
    [IndexError] or a [ValueError].  By then [spectrum_type] has been overwritten
    with the first line, but [spectrum] is as it was before the call: the
    rows read so far are lost.  The file is left open in [f], nothing is
    logged, and no attribute named by a keyword changes. *)
Theorem failing_row_ends_read_obj (fs : Py.filesystem) (filename content first bad : string)
    (good rest : list string) (pairs : list (float * float)) (e : Py.exn) (s : state) :
  fs filename = Py.Opened content ->
  readline content = (first, good ++ bad :: rest) ->
  traverse row_value good = Py.Return pairs ->
  row_value bad = Py.Raise e ->
  exists s' : state,
    read_obj fs filename s = (Py.Raise e, s') /\
    (e = Py.IndexError \/ e = Py.ValueError) /\
    spectrum_type (self s') = Py.strip first /\
    spectrum (self s') = spectrum (self s) /\
    f (self s') = Some (Py.File false) /\
    (forall k, attribute k (self s') = attribute k (self s)) /\
    log s' = log s.
Proof.
  intros Hopen Hreadline Hgood Hbad.
  rewrite (read_obj_Opened_run _ _ _ _ _ _ Hopen Hreadline).
  rewrite (convert_until_app _ good rest bad pairs e Hgood Hbad).
  eexists. split; [reflexivity|]. cbn [self log].
  split; [apply (row_value_raises _ _ Hbad)|].
  repeat split.
Qed.

(** X10: [read_obj] never changes an attribute that a keyword of the
    constraints file names, whether it returns or raises and whether the
    file opens or not. *)
Theorem read_obj_keeps_the_constraints (fs : Py.filesystem) (filename : string)
    (s : state) (k : keyword) :
  attribute k (self (snd (read_obj fs filename s))) = attribute k (self s).
Proof.
  destruct (fs filename) as [content | errno strerror] eqn:Hopen.
  - destruct (readline content) as [first rows] eqn:Hreadline.
    rewrite (read_obj_Opened_run _ _ _ _ _ _ Hopen Hreadline).
    destruct (convert_until row_value rows) as [vs [e|]]; cbn [snd self];
      destruct k; reflexivity.
  - unfold read_obj. unfold bind at 1.
    rewrite (read_obj_try_except_Failed _ _ _ _ _ Hopen).
    unfold bind, assert_closed, get, bind, eval, raise, assert_, logged_failure.
    cbn [self log].
    destruct (f (self s)) as [[[|]]|]; reflexivity.
Qed.

Section SpectrumRowsExamples.

#[local] Existing Instance Py.correctly_rounded.

Lemma read_obj_stores_the_rows_witness :
  exists s' : state,
    read_obj
      (single_file "spectrum.csv" (unlines [" normalized lethargy "; "1e-3, 2.5 ,x"; "10,0"]))
      "spectrum.csv" (State default_object [])
    = (Py.Return tt, s') /\
    spectrum_type (self s') = "normalized lethargy" /\
    spectrum (self s') = [(1e-3, 2.5); (10, 0)]%float /\
    f (self s') = Some (Py.File true) /\
    (forall k, attribute k (self s') = attribute k default_object) /\
    log s' = [].
Proof.
  apply (read_obj_stores_the_rows
           (single_file "spectrum.csv"
              (unlines [" normalized lethargy "; "1e-3, 2.5 ,x"; "10,0"]))
           "spectrum.csv"
           (unlines [" normalized lethargy "; "1e-3, 2.5 ,x"; "10,0"])
           (unlines [" normalized lethargy "])
           [unlines ["1e-3, 2.5 ,x"]; unlines ["10,0"]]
           [(1e-3, 2.5); (10, 0)]%float (State default_object []));
    vm_compute; reflexivity.
Defined.

Lemma failing_row_ends_read_obj_witness :
  exists s' : state,
    read_obj (single_file "spectrum.csv" (unlines ["normalized"; "1.0,0.1"; ""; "2.0,0.05"]))
      "spectrum.csv" (State default_object [])
    = (Py.Raise Py.ValueError, s') /\
    spectrum_type (self s') = "normalized" /\
    spectrum (self s') = [] /\
    f (self s') = Some (Py.File false).
Proof.
  destruct (failing_row_ends_read_obj
              (single_file "spectrum.csv"
                 (unlines ["normalized"; "1.0,0.1"; ""; "2.0,0.05"]))
              "spectrum.csv" (unlines ["normalized"; "1.0,0.1"; ""; "2.0,0.05"])
              (unlines ["normalized"]) (unlines [""])
              [unlines ["1.0,0.1"]] [unlines ["2.0,0.05"]]
              [(1.0, 0.1)]%float Py.ValueError (State default_object []))
    as (s' & Hrun & _ & Htype & Hspec & Hf & _); try (vm_compute; reflexivity).
  exists s'. repeat split; assumption.
Defined.

End SpectrumRowsExamples.

(** ** The constructor, case by case *)

Lemma getitem_last_app {A} (front : list A) (t : A) :
  Py.getitem (front ++ [t]) (-1) = Py.Return t.
Proof.
  unfold Py.getitem. cbv zeta. change (-1 <? 0) with true. cbv iota.
  rewrite length_app. cbn [List.length].
  replace (-1 + Z.of_nat (List.length front + 1)) with (Z.of_nat (List.length front)) by lia.
  replace (_ || _) with false.
  - rewrite Nat2Z.id, nth_error_app2, Nat.sub_diag by lia. reflexivity.
  - symmetry. apply orb_false_iff. split; [apply Z.ltb_ge | apply Z.leb_gt]; lia.
Qed.

(** Zero times a number that is neither an infinity nor a nan is zero. *)
Lemma eqb_zero (x : float) :
  (x =? 0)%float = true <-> exists s, Prim2SF x = S754_zero s.
Proof.
  rewrite eqb_spec. change (Prim2SF 0) with (S754_zero false).
  split.
  - destruct (Prim2SF x) as [s|s| |s m e]; try discriminate; eauto;
      destruct s; discriminate.
  - intros [s ->]. reflexivity.
Qed.

Lemma mul_zero_l (x y : float) :
  (x =? 0)%float = true -> is_finite_value y = true -> (x * y =? 0)%float = true.
Proof.
  intros Hx Hy. apply eqb_zero in Hx. destruct Hx as [s Hx].
  apply eqb_zero. unfold is_finite_value in Hy.
  rewrite mul_spec, Hx. unfold SF64mul.
  destruct (Prim2SF y) as [sy| | |sy my ey]; try discriminate Hy; cbn [SFmul]; eauto.
Qed.

Lemma mul_zero_r (x y : float) :
  is_finite_value x = true -> (y =? 0)%float = true -> (x * y =? 0)%float = true.
Proof.
  intros Hx Hy. apply eqb_zero in Hy. destruct Hy as [s Hy].
  apply eqb_zero. unfold is_finite_value in Hx.
  rewrite mul_spec, Hy. unfold SF64mul.
  destruct (Prim2SF x) as [sx| | |sx mx ex]; try discriminate Hx; cbn [SFmul]; eauto.
Qed.

Lemma eqb_zero_finite (x : float) : (x =? 0)%float = true -> is_finite_value x = true.
Proof.
  intros H. apply eqb_zero in H. destruct H as [s H].
  unfold is_finite_value. rewrite H. reflexivity.
Qed.

(** The divisor [src*r2*pi*t] is zero as soon as the source strength is,
    the other factors being finite. *)
Lemma divisor_zero (src r2 t : float) :
  (src =? 0)%float = true ->
  is_finite_value r2 = true -> is_finite_value t = true ->
  (src * r2 * Py.pi * t =? 0)%float = true.
Proof.
  intros Hsrc Hr2 Ht.
  apply mul_zero_l; [|exact Ht].
  apply mul_zero_l; [|reflexivity].
  apply mul_zero_l; assumption.
Qed.

Lemma exists_last_or_nil {A} (l : list A) :
  l = [] \/ exists front t, l = front ++ [t].
Proof.
  destruct l as [|x l]; [left; reflexivity|]. right.
  destruct (exists_last (l := x :: l)) as (front & t & H); [discriminate|]. eauto.
Qed.

Section ConstructorCases.

Context {libm : Py.Libm}.

(** X11: the constructor returns an object exactly when the NAS lists are
    equally long, the TOAD lists are equally long, there is a last TOAD foil
    thickness [t], the square [r2] of the TOAD foil radius does not
    overflow, and the divisor [src*r2*pi*t] is not zero. *)
Theorem init_returns_iff (a : kw.args) :
  (exists o : ETA_Parameters, __init__ a = Py.Return o) <->
  (List.length (kw.nas_foil_th a) = List.length (kw.nas_foil_mat a) /\
   List.length (kw.toad_foil_th a) = List.length (kw.toad_foil_mat a) /\
   exists (front : list float) (t r2 : float),
     kw.toad_foil_th a = front ++ [t] /\
     Py.pow2 (kw.toad_foil_r a) = Py.Return r2 /\
     (kw.src a * r2 * Py.pi * t =? 0)%float = false).
Proof.
  split.
  - intros [o H]. unfold __init__, assert_ in H.
    destruct (Nat.eqb _ _) eqn:Hnas in H; [|discriminate].
    destruct (Nat.eqb _ _) eqn:Htoad in H; [|discriminate].
    apply Nat.eqb_eq in Hnas, Htoad. simpl in H.
    rewrite init_ind_default in H.
    apply obind_Return in H. destruct H as (v & Hv & _).
    unfold fissions_per_source in Hv.
    apply obind_Return in Hv. destruct Hv as (r2 & Hr2 & Hv).
    simpl in Hv.
    apply obind_Return in Hv. destruct Hv as (t & Ht & Hv).
    apply getitem_last in Ht. destruct Ht as (front & Hfront).
    apply truediv_Return in Hv. destruct Hv as [_ Hd].
    split; [exact Hnas|]. split; [exact Htoad|].
    exists front, t, r2. repeat split; assumption.
  - intros (Hnas & Htoad & front & t & r2 & Hth & Hr2 & Hd).
    eexists. apply (init_runs a r2 t Hnas Htoad Hr2); [|exact Hd].
    rewrite Hth. apply getitem_last_app.
Qed.

(** X12: what the constructor raises, in the order in which it checks:
    the assertion error about the NAS when the NAS lists differ in length,
    whatever the TOAD lists are; else the assertion error about the TOAD when
    the TOAD lists differ in length; else [OverflowError] when the square of
    the TOAD foil radius overflows; else [IndexError] when there is no TOAD
    foil thickness; else [ZeroDivisionError] when the divisor
    [src*r2*pi*t] is zero.  It raises nothing else. *)
Theorem init_raises (a : kw.args) (e : Py.exn) :
  __init__ a = Py.Raise e ->
  (List.length (kw.nas_foil_th a) <> List.length (kw.nas_foil_mat a) /\
   e = Py.AssertionError
         "The number of thicknesses and materials for the NAS must be equal.") \/
  (List.length (kw.nas_foil_th a) = List.length (kw.nas_foil_mat a) /\
   List.length (kw.toad_foil_th a) <> List.length (kw.toad_foil_mat a) /\
   e = Py.AssertionError
         "The number of thicknesses and materials for the TOAD must be equal.") \/
  (List.length (kw.nas_foil_th a) = List.length (kw.nas_foil_mat a) /\
   List.length (kw.toad_foil_th a) = List.length (kw.toad_foil_mat a) /\
   ((Py.pow2 (kw.toad_foil_r a) = Py.Raise Py.OverflowError /\ e = Py.OverflowError) \/
    (exists r2 : float,
       Py.pow2 (kw.toad_foil_r a) = Py.Return r2 /\
       kw.toad_foil_th a = [] /\ e = Py.IndexError) \/
    (exists (r2 t : float) (front : list float),
       Py.pow2 (kw.toad_foil_r a) = Py.Return r2 /\
       kw.toad_foil_th a = front ++ [t] /\
       (kw.src a * r2 * Py.pi * t =? 0)%float = true /\
       e = Py.ZeroDivisionError))).
Proof.
  unfold __init__, assert_. intros H.
  destruct (Nat.eqb (List.length (kw.nas_foil_th a)) (List.length (kw.nas_foil_mat a)))
    eqn:Hnas; cbn [Py.obind] in H.
  2: { left. apply Nat.eqb_neq in Hnas. injection H as <-. split; [exact Hnas | reflexivity]. }
  apply Nat.eqb_eq in Hnas. right.
  destruct (Nat.eqb (List.length (kw.toad_foil_th a)) (List.length (kw.toad_foil_mat a)))
    eqn:Htoad; cbn [Py.obind] in H.
  2: { left. apply Nat.eqb_neq in Htoad. injection H as <-.
       split; [exact Hnas|]. split; [exact Htoad | reflexivity]. }
  apply Nat.eqb_eq in Htoad. right.
  split; [exact Hnas|]. split; [exact Htoad|].
  rewrite init_ind_default in H. unfold fissions_per_source in H.
  cbn [src r_toad t_toad] in H.
  destruct (Py.pow2 (kw.toad_foil_r a)) as [r2|e0] eqn:Hr2; cbn [Py.obind] in H.
  2: { left. injection H as <-. apply pow2_raises in Hr2. subst e0.
       split; reflexivity. }
  right. cbn [Py.getitem_obj] in H.
  destruct (exists_last_or_nil (kw.toad_foil_th a)) as [Hnil | (front & t & Hth)].
  - left. exists r2. rewrite Hnil in H. cbn in H. injection H as <-.
    repeat split. exact Hnil.
  - right. exists r2, t, front. rewrite Hth, getitem_last_app in H. cbn [Py.obind] in H.
    unfold Py.truediv in H.
    destruct (kw.src a * r2 * Py.pi * t =? 0)%float eqn:Hd; cbn [Py.obind] in H;
      [|discriminate H].
    injection H as <-. repeat split; assumption.
Qed.

(** X13: a source strength of zero makes the constructor raise
    [ZeroDivisionError], when the lists pass the two checks, the last TOAD
    foil thickness [t] and the square [r2] of the TOAD foil radius being
    finite numbers. *)
Theorem init_zero_source (a : kw.args) (front : list float) (t r2 : float) :
  List.length (kw.nas_foil_th a) = List.length (kw.nas_foil_mat a) ->
  List.length (kw.toad_foil_th a) = List.length (kw.toad_foil_mat a) ->
  kw.toad_foil_th a = front ++ [t] ->
  Py.pow2 (kw.toad_foil_r a) = Py.Return r2 ->
  (kw.src a =? 0)%float = true ->
  is_finite_value r2 = true ->
  is_finite_value t = true ->
  __init__ a = Py.Raise Py.ZeroDivisionError.
Proof.
  intros Hnas Htoad Hth Hr2 Hsrc Hfr2 Hft. unfold __init__, assert_.
  apply Nat.eqb_eq in Hnas, Htoad. rewrite Hnas, Htoad. cbn [Py.obind].
  rewrite init_ind_default. unfold fissions_per_source.
  cbn [src r_toad t_toad]. rewrite Hr2. cbn [Py.obind Py.getitem_obj].
  rewrite Hth, getitem_last_app. cbn [Py.obind].
  unfold Py.truediv. rewrite (divisor_zero _ _ _ Hsrc Hfr2 Hft). reflexivity.
Qed.

(** X14: a source strength of zero in the constraints file: when the lines
    have been processed and left a source strength of zero, with the
    fissile material among the TOAD foils, a finite thickness [t] at its
    last index and a finite square [r2] of the foil radius,
    [read_constraints] raises [ZeroDivisionError]; the file is closed and
    [min_fiss] is as the lines left it. *)
Theorem parse_zero_source (fs : Py.filesystem) (filename content : string)
    (s s1 : state) (n : nat) (t r2 : float) :
  fs filename = Py.Opened content ->
  for_each (Py.readlines content) read_constraints_line
    (State (set_f (Some (Py.File false)) (self s)) (log s))
  = (Py.Return tt, s1) ->
  last_index (toad_mat_f (self s1)) (fissile_mat (self s1)) n ->
  nth_error (t_toad (self s1)) n = Some t ->
  Py.pow2 (r_toad (self s1)) = Py.Return r2 ->
  (src (self s1) =? 0)%float = true ->
  is_finite_value r2 = true ->
  is_finite_value t = true ->
  read_constraints fs filename s
  = (Py.Raise Py.ZeroDivisionError,
     State (set_f (Some (Py.File true)) (self s1)) (log s1)).
Proof.
  intros Hopen Hloop Hlast Ht Hr2 Hsrc Hfr2 Hft.
  rewrite (read_constraints_Opened_run _ _ _ _ Hopen), Hloop.
  unfold calculate_fissions, bind, get, eval, fissions_per_source.
  cbn [self log toad_mat_f fissile_mat r_toad t_toad src min_fiss set_f].
  rewrite (find_ind_last _ _ _ Hlast), Hr2. cbn [load_ind Py.obind].
  assert (Hget : Py.getitem (t_toad (self s1)) (Z.of_nat n) = Py.Return t).
  { apply nth_error_split in Ht. destruct Ht as (pre & post & -> & <-).
    apply getitem_middle. }
  rewrite Hget. cbn [Py.obind].
  unfold Py.truediv. rewrite (divisor_zero _ _ _ Hsrc Hfr2 Hft). reflexivity.
Qed.

End ConstructorCases.

Section ConstructorCasesExamples.

#[local] Existing Instance Py.correctly_rounded.

Lemma init_raises_witness :
  List.length (kw.nas_foil_th lists_both_unequal)
    <> List.length (kw.nas_foil_mat lists_both_unequal) /\
  List.length (kw.toad_foil_th lists_both_unequal)
    <> List.length (kw.toad_foil_mat lists_both_unequal) /\
  __init__ lists_both_unequal
  = Py.Raise (Py.AssertionError
                "The number of thicknesses and materials for the NAS must be equal.").
Proof.
  split; [vm_compute; discriminate|]. split; [vm_compute; discriminate|].
  assert (Hrun : exists e, __init__ lists_both_unequal = Py.Raise e)
    by (eexists; vm_compute; reflexivity).
  destruct Hrun as [e Hrun]. rewrite Hrun.
  destruct (init_raises lists_both_unequal e Hrun)
    as [[_ ->] | [[Hnas _] | [Hnas _]]]; [reflexivity | |];
    vm_compute in Hnas; discriminate Hnas.
Defined.

Lemma init_zero_source_witness :
  __init__ zero_source = Py.Raise Py.ZeroDivisionError.
Proof.
  apply (init_zero_source zero_source [0.0254%float] 0.0127 1.567504);
    vm_compute; reflexivity.
Defined.

Lemma parse_zero_source_witness :
  exists s1 : state,
    read_constraints (single_file "constraints.csv" (unlines ["Source Strength,0"]))
      "constraints.csv" (State default_object [])
    = (Py.Raise Py.ZeroDivisionError, s1) /\
    f (self s1) = Some (Py.File true) /\
    min_fiss (self s1) = min_fiss default_object.
Proof.
  eexists. split.
  - apply (parse_zero_source
             (single_file "constraints.csv" (unlines ["Source Strength,0"]))
             "constraints.csv" (unlines ["Source Strength,0"]) (State default_object [])
             (State (set_src 0 (set_f (Some (Py.File false)) default_object)) [])
             1 0.0127 1.567504).
    + reflexivity.
    + vm_compute. reflexivity.
    + split; [reflexivity|]. intros [|[|[|j]]] Hj; try lia; discriminate.
    + reflexivity.
    + vm_compute. reflexivity.
    + vm_compute. reflexivity.
    + vm_compute. reflexivity.
    + vm_compute. reflexivity.
  - split; reflexivity.
Defined.

End ConstructorCasesExamples.

(** ** Parsing without a Minimum Fissions line *)

Section Renormalise.

Context {libm : Py.Libm}.

(** X15: a constraints file that opens, is parsed to the end and has no
    [Minimum Fissions] line does not leave [min_fiss] alone: the closing
    computation divides the value [min_fiss] had before the call by
    [src*r2*pi*t] once more, with [src], the value [r2] of [r_toad**2] and
    the thickness [t] of the fissile TOAD foil as the file leaves them.  So
    parsing such a file twice divides twice. *)
Theorem parse_divides_again (fs : Py.filesystem) (filename content : string)
    (s s' : state) :
  fs filename = Py.Opened content ->
  (forall l, In l (Py.readlines content) -> carries Minimum_Fissions l = false) ->
  read_constraints fs filename s = (Py.Return tt, s') ->
  exists (n : nat) (t r2 : float),
    last_index (toad_mat_f (self s')) (fissile_mat (self s')) n /\
    nth_error (t_toad (self s')) n = Some t /\
    Py.pow2 (r_toad (self s')) = Py.Return r2 /\
    min_fiss (self s') = (min_fiss (self s) / (src (self s') * r2 * Py.pi * t))%float.
Proof.
  intros Hopen Hnone Hrun.
  apply (read_constraints_Opened_Return _ _ _ _ _ Hopen) in Hrun.
  destruct Hrun as (s1 & Hloop & Hcalc).
  pose proof (lines_frame Minimum_Fissions _ _ _ Hnone Hloop) as Hsame.
  cbn [attribute self min_fiss set_f] in Hsame.
  assert (Hmin : min_fiss (self s1) = min_fiss (self s)).
  { apply (f_equal (fun v => match v with VFloat x => x | _ => min_fiss (self s) end)) in Hsame.
    exact Hsame. }
  apply calculate_fissions_Return in Hcalc.
  destruct Hcalc as (n & t & r2 & Hind & Ht & Hr2 & _ & ->). cbn [self log] in *.
  exists n, t, r2. split; [exact Hind|]. split; [exact Ht|]. split; [exact Hr2|].
  unfold normalized. cbn [min_fiss set_min_fiss set_f src]. rewrite Hmin. reflexivity.
Qed.

End Renormalise.

Section RenormaliseExample.

#[local] Existing Instance Py.correctly_rounded.

Lemma parse_divides_again_witness :
  let fs := single_file "constraints.csv" (unlines ["ETA Max Weight,100.0"]) in
  let s' := snd (read_constraints fs "constraints.csv" (State default_object [])) in
  exists (n : nat) (t r2 : float),
    last_index (toad_mat_f (self s')) (fissile_mat (self s')) n /\
    nth_error (t_toad (self s')) n = Some t /\
    Py.pow2 (r_toad (self s')) = Py.Return r2 /\
    min_fiss (self s') = (min_fiss default_object / (src (self s') * r2 * Py.pi * t))%float.
Proof.
  intros fs s'.
  apply (parse_divides_again fs "constraints.csv" (unlines ["ETA Max Weight,100.0"])
           (State default_object []) s' eq_refl).
  - intros l [<- | []]. reflexivity.
  - vm_compute. reflexivity.
Defined.

End RenormaliseExample.

(** ** Parsing the same file again *)

Lemma keyword_eq_dec (k k' : keyword) : {k = k'} + {k <> k'}.
Proof. decide equality. Defined.

Ltac same_attribute H k :=
  let E := fresh "E" in
  pose proof (H k) as E; cbn [attribute] in E; injection E as E.

(** An object is known by its attributes. *)
Lemma object_ext (o o' : ETA_Parameters) :
  (forall k, attribute k o = attribute k o') ->
  spectrum_type o = spectrum_type o' ->
  spectrum o = spectrum o' ->
  f o = f o' ->
  o = o'.
Proof.
  intros H Htype Hspec Hf.
  same_attribute H Minimum_Fissions. same_attribute H ETA_Max_Weight.
  same_attribute H Source_Strength. same_attribute H TCC_to_ETA_Distance.
  same_attribute H Debris_Shield_Thickness. same_attribute H ETA_Wall_Thickness.
  same_attribute H Snout_Distance. same_attribute H ETA_Back_Cover_Thickness.
  same_attribute H ETA_to_Snout_Mount_Thickness. same_attribute H ETA_Face_Radius.
  same_attribute H ETA_Cone_Outer_Radius. same_attribute H ETA_Cone_Opening_Angle.
  same_attribute H Debris_Shield_Material. same_attribute H ETA_Structural_Material.
  same_attribute H ETA_Void_Fill_Material. same_attribute H Fissile_Foil.
  same_attribute H NAS_Thickness. same_attribute H NAS_Radius.
  same_attribute H NAS_Material. same_attribute H NAS_Activation_Foils.
  same_attribute H NAS_Activation_Foil_Thickness. same_attribute H NAS_Activation_Foil_Radius.
  same_attribute H TOAD_Follows_Material. same_attribute H TOAD_Material.
  same_attribute H TOAD_Activation_Foils. same_attribute H TOAD_Activation_Foil_Thickness.
  same_attribute H TOAD_Activation_Foil_Radius. same_attribute H Holder_Material.
  same_attribute H Holder_Fill_Material. same_attribute H Holder_Wall_Thickness.
  same_attribute H Max_Vertical_Components. same_attribute H Max_Horizontal_Components.
  clear H. destruct o, o'. cbn [spectrum_type spectrum max_weight src tcc_dist t_ds t_w
    snout_dist t_c t_m r_f r_o theta ds_mat struct_mat fill_mat fissile_mat t_nas r_nas
    nas_mat t_nas_f r_nas_f nas_mat_f toad_loc toad_mat t_toad r_toad toad_mat_f
    holder_mat h_fill_mat t_h max_vert max_horiz min_fiss f] in *.
  subst. reflexivity.
Qed.

(** Whether a line can be processed does not depend on the object. *)
Lemma line_Return_any_state (line : string) (s s1 sa : state) :
  read_constraints_line line s = (Py.Return tt, s1) ->
  exists sb, read_constraints_line line sa = (Py.Return tt, sb).
Proof.
  rewrite !line_runs_as_dispatch. unfold table_dispatch.
  destruct (lookup line) as [k|].
  - unfold table_line. destruct (keyword_kind k).
    1-3: destruct (line_value k (Py.split "," line)); [eauto | discriminate].
    + destruct (convert_until _ _) as [vs [e|]]; cbn [ended]; [discriminate | eauto].
    + eauto.
  - destruct (String.eqb _ _); eauto.
Qed.

Lemma lines_Return_any_state (lines : list string) (s s1 sa : state) :
  for_each lines read_constraints_line s = (Py.Return tt, s1) ->
  exists sb, for_each lines read_constraints_line sa = (Py.Return tt, sb).
Proof.
  revert s sa. induction lines as [|line lines IH]; intros s sa H.
  - exists sa. reflexivity.
  - cbn [for_each] in H. apply bind_Return in H. destruct H as ([] & s0 & Hline & Hrest).
    destruct (line_Return_any_state line s s0 sa Hline) as (sa0 & Hline').
    destruct (IH s0 sa0 Hrest) as (sb & Hrest').
    exists sb. cbn [for_each]. unfold bind. rewrite Hline'. exact Hrest'.
Qed.

(** The lines either have a last one that carries [k], or none does. *)
Lemma last_carrier (k : keyword) (lines : list string) :
  (forall l, In l lines -> carries k l = false) \/
  (exists pre line post,
     lines = pre ++ line :: post /\ carries k line = true /\
     forall l, In l post -> carries k l = false).
Proof.
  induction lines as [|x lines IH]; [left; intros l []|].
  destruct IH as [Hnone | (pre & line & post & -> & Hline & Hpost)].
  - destruct (carries k x) eqn:Hx.
    + right. exists [], x, lines. repeat split; assumption.
    + left. intros l [<- | Hl]; [exact Hx | apply Hnone, Hl].
  - right. exists (x :: pre), line, post. repeat split; assumption.
Qed.

(** The same lines are run from two states.  The second run ends with the
    attribute of [k] that the first run ended with, when it started with it
    or when some line carries [k]. *)
Lemma lines_same_attribute (k : keyword) (lines : list string) (s s1 sa sb : state) :
  for_each lines read_constraints_line s = (Py.Return tt, s1) ->
  for_each lines read_constraints_line sa = (Py.Return tt, sb) ->
  attribute k (self sa) = attribute k (self s1) \/
  (exists l, In l lines /\ carries k l = true) ->
  attribute k (self sb) = attribute k (self s1).
Proof.
  intros H1 H2 Hcase.
  destruct (last_carrier k lines) as [Hnone | (pre & line & post & -> & Hline & Hpost)].
  - rewrite (lines_frame k _ _ _ Hnone H2).
    destruct Hcase as [Hsame | (l & Hl & Hk)]; [exact Hsame|].
    rewrite (Hnone l Hl) in Hk. discriminate Hk.
  - pose proof (lines_last_write k pre post line _ _ Hline Hpost H1) as E1.
    pose proof (lines_last_write k pre post line _ _ Hline Hpost H2) as E2.
    rewrite E1 in E2.
    apply (f_equal (fun r => match r with
                             | Py.Return v => v
                             | Py.Raise _ => attribute k (self sb)
                             end)) in E2.
    symmetry. exact E2.
Qed.

Section ReadAgain.

Context {libm : Py.Libm}.

(** X16: parsing a constraints file that has a [Minimum Fissions] line a
    second time changes nothing: when [read_constraints] has returned on the
    file, calling it again on the same file returns with the same object;
    only the warnings of the file are logged once more. *)
Theorem parsing_again_changes_nothing (fs : Py.filesystem) (filename content : string)
    (s s' : state) :
  fs filename = Py.Opened content ->
  (exists l, In l (Py.readlines content) /\ carries Minimum_Fissions l = true) ->
  read_constraints fs filename s = (Py.Return tt, s') ->
  read_constraints fs filename s'
  = (Py.Return tt, State (self s') (log s' ++ warnings (Py.readlines content))).
Proof.
  intros Hopen Hmin Hrun.
  apply (read_constraints_Opened_Return _ _ _ _ _ Hopen) in Hrun.
  destruct Hrun as (s1 & Hloop & Hcalc).
  set (sa := State (set_f (Some (Py.File false)) (self s')) (log s')).
  destruct (lines_Return_any_state _ _ _ sa Hloop) as (sb & Hloop').
  rewrite (read_constraints_Opened_run _ _ _ _ Hopen). fold sa. rewrite Hloop'.
  pose proof (lines_log _ _ _ Hloop') as Hlog. cbn [sa log] in Hlog.
  destruct (lines_keep_file _ _ _ _ Hloop) as (T1 & S1 & F1).
  destruct (lines_keep_file _ _ _ _ Hloop') as (T2 & S2 & F2).
  pose proof Hcalc as Hcalc'.
  apply calculate_fissions_Return in Hcalc'.
  destruct Hcalc' as (n & t & r2 & _ & _ & _ & _ & Hs').
  assert (Hself : self sb = self s1).
  { apply object_ext.
    - intros k. apply (lines_same_attribute k _ _ _ _ _ Hloop Hloop').
      destruct (keyword_eq_dec k Minimum_Fissions) as [-> | Hk]; [right; exact Hmin|].
      left. subst s'. cbn [sa self].
      destruct k; first [reflexivity | exfalso; apply Hk; reflexivity].
    - rewrite T2. subst s'. reflexivity.
    - rewrite S2. subst s'. reflexivity.
    - rewrite F1, F2. reflexivity. }
  rewrite Hself, Hlog.
  assert (Hstep : forall lg,
            calculate_fissions (State (set_f (Some (Py.File true)) (self s1)) lg)
            = (Py.Return tt, State (self s') lg)).
  { intros lg. clear Hs'. revert Hcalc.
    unfold calculate_fissions, bind, get, eval, assign. cbn [self log].
    destruct (fissions_per_source _ _ _ _ _ _) as [v|e]; [|discriminate].
    intros Hcalc. injection Hcalc as <-. reflexivity. }
  apply Hstep.
Qed.

End ReadAgain.

Section ReadAgainExample.

#[local] Existing Instance Py.correctly_rounded.

Lemma parsing_again_changes_nothing_witness :
  exists s' : state,
    read_constraints
      (single_file "constraints.csv"
         (unlines ["Minimum Fissions,5e8"; "Foo,1"; "Source Strength,1e15"]))
      "constraints.csv" (State default_object [])
    = (Py.Return tt, s') /\
    read_constraints
      (single_file "constraints.csv"
         (unlines ["Minimum Fissions,5e8"; "Foo,1"; "Source Strength,1e15"]))
      "constraints.csv" s'
    = (Py.Return tt, State (self s') (log s' ++ [warning_input "Foo"])).
Proof.
  assert (Hrun : exists s' : state,
            read_constraints
              (single_file "constraints.csv"
                 (unlines ["Minimum Fissions,5e8"; "Foo,1"; "Source Strength,1e15"]))
              "constraints.csv" (State default_object [])
            = (Py.Return tt, s'))
    by (eexists; vm_compute; reflexivity).
  destruct Hrun as (s' & Hrun). exists s'. split; [exact Hrun|].
  rewrite (parsing_again_changes_nothing _ "constraints.csv"
             (unlines ["Minimum Fissions,5e8"; "Foo,1"; "Source Strength,1e15"])
             (State default_object []) s' eq_refl).
  - reflexivity.
  - exists (unlines ["Minimum Fissions,5e8"]). split; [left; reflexivity | reflexivity].
  - exact Hrun.
Defined.

End ReadAgainExample.
